(** * 0DTE bull put spread backtester: pricing engine, spread finder,
    trade monitor and backtest loop

  A shallow embedding of
    - [backtester/option_utils.py]   (implied volatility and delta; option
      symbols and strikes),
    - [backtester/spread_selector.py] (the spread finder and the live metrics),
    - [backtester/backtester.py]      (exit conditions, one trade, the run loop,
      the trade counts),
    - [backtester/data_client.py]     (option rows and the stream grouped by
      timestamp),
  followed by the properties of the design document that concern them and
  by further properties of the same code.

  Numbers are IEEE-754 binary64 values, as Python's [float] and NumPy's
  [float64] are: the kernel's primitive floats.  Timestamps are integers,
  microseconds since the epoch.  What the code takes from NumPy and SciPy
  ([np.log], [np.exp], [norm.cdf], [**], [brentq]) is an interface,
  [Numerics], that every definition depending on it receives. *)

From Stdlib Require Import Floats ZArith List String Bool Lia Sorted.
From Stdlib Require Import Ascii DecimalString Permutation.
From Stdlib Require Uint63.
Import ListNotations.

Set Implicit Arguments.
#[local] Set Warnings "-inexact-float".

(* ================================================================= *)
(** * Python values and control *)

Module Py.

(** The exceptions the modelled code can meet.  [ValueError] is what
    [brentq] raises on an interval that does not bracket a root and the only
    one the code catches; [RuntimeError] is [brentq] failing to converge;
    [UnboundLocalError] is [option_price_diff] reaching [return] with [price]
    never bound; [IndexError] is [current_data[0]] on an empty list;
    [ZeroDivisionError] is [/] on floats with a divisor equal to zero. *)
Inductive exn : Type :=
| ValueError
| RuntimeError
| UnboundLocalError
| IndexError
| ZeroDivisionError.

(** A computation either returns or raises. *)
Inductive res (A : Type) : Type :=
| Ok (a : A)
| Raise (e : exn).
Arguments Ok {A} a.
Arguments Raise {A} e.

Definition bind {A B : Type} (c : res A) (k : A -> res B) : res B :=
  match c with
  | Ok a => k a
  | Raise e => Raise e
  end.

(** [try: c  except ValueError: h] *)
Definition except_ValueError {A : Type} (c : res A) (h : res A) : res A :=
  match c with
  | Raise ValueError => h
  | other => other
  end.

(** [x / y] on two Python floats: [ZeroDivisionError] when [y] is [0.0] or
    [-0.0], whatever [x] is, and the IEEE quotient otherwise.  (Division of
    NumPy scalars does not raise; where the code divides those, the model
    writes the primitive [/].) *)
Definition truediv (x y : float) : res float :=
  if (y =? 0)%float then Raise ZeroDivisionError else Ok (x / y)%float.

(** [max(a, b)] on floats: the first argument unless the second is
    strictly greater. *)
Definition max (a b : float) : float :=
  if (a <? b)%float then b else a.

(** [bool(x)] for a value that is [None] or a float: [None] and zeros are
    false, everything else (NaN included) is true. *)
Definition truthy (x : option float) : bool :=
  match x with
  | None => false
  | Some v => negb (v =? 0)%float
  end.

(** [lo <= x <= hi], a chained comparison. *)
Definition between (lo x hi : float) : bool :=
  ((lo <=? x) && (x <=? hi))%float.

(** An integer converted to the nearest float (ties to even). *)
Definition float_of_Z (z : Z) : float :=
  SF2Prim (binary_normalize prec emax z 0%Z false).

(** Timestamps and their differences, in microseconds. *)
Definition timestamp : Type := Z.

(** An integer as an unrounded binary number, mantissa and exponent 0. *)
Definition int_as_number (z : Z) : spec_float :=
  match z with
  | Z0 => S754_zero false
  | Zpos m => S754_finite false m 0
  | Zneg m => S754_finite true m 0
  end.

(** [a / b] on two Python integers: the exact quotient, rounded once to
    the nearest float. *)
Definition int_truediv (a b : Z) : float :=
  SF2Prim (SFdiv prec emax (int_as_number a) (int_as_number b)).

(** [timedelta.total_seconds()]: the microsecond count, an integer, divided
    by [10**6]. *)
Definition total_seconds (d : Z) : float := int_truediv d 1000000.

(** [pd.Timedelta(minutes=1)] *)
Definition one_minute : Z := 60000000%Z.

End Py.

Export Py (res, Ok, Raise, exn, timestamp).

Declare Scope py_scope.
Delimit Scope py_scope with py.
Notation "x <- c ;; k" := (Py.bind c (fun x => k))
(at level 61, c at next level, right associativity) : py_scope.

(* ================================================================= *)
(** * The numerical libraries *)

(** What the code imports from NumPy and SciPy.  [brentq f a b] receives a
  callback that may itself raise. *)
Class Numerics : Type := {
np_log : float -> float;
np_exp : float -> float;
float_pow : float -> float -> float;
norm_cdf : float -> float;
brentq : (float -> res float) -> float -> float -> res float
}.

(* ================================================================= *)
(** * option_utils.py *)

Module OptionUtils.
Section WithNumerics.
Context {N : Numerics}.
Local Open Scope float_scope.
Local Open Scope py_scope.

Definition sigma_lower : float := 1e-6.
Definition sigma_upper : float := 5.

(** The literal [1e-6] of the source; like Python, the parser takes the
    nearest binary64 value, [0x1.0c6f7a0b5ed8dp-20]. *)
Definition epsilon : float := 1e-6.

(** [max(0, (S - K) if option_type == 'call' else (K - S))] *)
Definition intrinsic_value (S K : float) (option_type : string) : float :=
  Py.max 0 (if String.eqb option_type "call" then S - K else K - S).

(** The closure [option_price_diff] of [calculate_implied_volatility]. *)
Definition option_price_diff
    (option_price S K T r : float) (option_type : string) (sigma : float)
  : res float :=
  moneyness <- Py.truediv S K ;;
  let d1 := (np_log moneyness + (r + 0.5 * float_pow sigma 2) * T)
            / (sigma * sqrt T) in
  let d2 := d1 - sigma * sqrt T in
  if String.eqb option_type "call" then
    let price := S * norm_cdf d1 - K * np_exp (- r * T) * norm_cdf d2 in
    Ok (price - option_price)
  else if String.eqb option_type "put" then
    let price := K * np_exp (- r * T) * norm_cdf (- d2) - S * norm_cdf (- d1) in
    Ok (price - option_price)
  else Raise Py.UnboundLocalError.

(** [calculate_implied_volatility]: [Ok None] is the [None] it returns
    when the root-finder reports [ValueError]. *)
Definition calculate_implied_volatility
    (option_price S K T r : float) (option_type : string)
  : res (option float) :=
  if option_price <=? intrinsic_value S K option_type + epsilon then
    Ok (Some 0)
  else
    Py.except_ValueError
      (root <- brentq (option_price_diff option_price S K T r option_type)
                      sigma_lower sigma_upper ;;
       Ok (Some root))
      (Ok None).

Definition seconds_per_year : float := 31536000.  (* 365 * 24 * 60 * 60 *)

(** The first two statements of [calculate_delta]. *)
Definition time_to_expiry (expiry_timestamp current_timestamp : timestamp)
  : float :=
  let T := Py.total_seconds (expiry_timestamp - current_timestamp)%Z
           / seconds_per_year in
  Py.max T epsilon.

(** The delta returned when [T == 1e-6]. *)
Definition intrinsic_delta
    (strike_price underlying_price : float) (option_type : string) : float :=
  if String.eqb option_type "put" then
    (if underlying_price <? strike_price then -1 else 0)
  else
    (if strike_price <? underlying_price then 1 else 0).

Definition calculate_delta
    (option_price strike_price : float) (expiry_timestamp : timestamp)
    (underlying_price risk_free_rate : float) (option_type : string)
    (current_timestamp : timestamp)
  : res (option float) :=
  let T := time_to_expiry expiry_timestamp current_timestamp in
  if T =? epsilon then
    Ok (Some (intrinsic_delta strike_price underlying_price option_type))
  else
    implied_volatility <-
      calculate_implied_volatility option_price underlying_price strike_price
                                   T risk_free_rate option_type ;;
    match implied_volatility with
    | None => Ok None
    | Some implied_volatility =>
        moneyness <- Py.truediv underlying_price strike_price ;;
        let d1 := (np_log moneyness
                   + (risk_free_rate + 0.5 * float_pow implied_volatility 2) * T)
                  / (implied_volatility * sqrt T) in
        let delta := if String.eqb option_type "call"
                     then norm_cdf d1
                     else - norm_cdf (- d1) in
        Ok (Some delta)
    end.

End WithNumerics.
End OptionUtils.

(* ================================================================= *)
(** * spread_selector.py *)

(** One tick record of the stream: the keys of the dictionary the code
  reads.  [underlying_close] is [None] when no stock bar matched. *)
Module Tick.
Record t : Type := mk {
  option_symbol : string;
  timestamp : Py.timestamp;
  midpoint : float;
  strike_price : float;
  expiry : Py.timestamp;
  underlying_close : option float
}.
End Tick.

Module OptionLeg.
Record t : Type := mk {
  option_symbol : string;
  strike_price : float;
  underlying_price : float;
  delta : float;
  option_price : float;
  timestamp : Py.timestamp;
  expiration_date : Py.timestamp
}.
End OptionLeg.

Module SpreadLegs.
Record t : Type := mk {
  short_leg : OptionLeg.t;
  long_leg : OptionLeg.t;
  credit_received : float;
  entry_timestamp : Py.timestamp;
  spread_width : float
}.

Definition initial_total_delta (self : t) : float :=
  (abs (OptionLeg.delta (short_leg self))
   - abs (OptionLeg.delta (long_leg self)))%float.
End SpreadLegs.

(** The dictionary returned by [calculate_current_spread_metrics]. *)
Module Metrics.
Record t : Type := mk {
  current_spread_price : float;
  current_short_price : float;
  current_long_price : float;
  current_underlying_price : float;
  current_short_delta : float;
  current_long_delta : float;
  current_total_delta : float;
  timestamp : Py.timestamp
}.
End Metrics.

(** [Dict[datetime, List[Dict]]], in iteration order. *)
Definition history : Type := list (timestamp * list Tick.t).

Module SpreadSelector.

(** The attributes set by [__init__]. *)
Record t : Type := mk {
  short_put_delta_range : float * float;
  long_put_delta_range : float * float;
  spread_width_range : float * float;
  risk_free_rate : float
}.

(** The state of the scan of [find_spread] after a tick: still searching,
    with the two candidate slots, or returned. *)
Inductive scan : Type :=
| Scanning (short_put long_put : option OptionLeg.t)
| Found (spread : SpreadLegs.t).

(** The three names [calculate_current_spread_metrics] fills in its loop. *)
Record located : Type := mkLocated {
  current_short_price : option float;
  current_long_price : option float;
  current_underlying_price : option float
}.

Section WithNumerics.
Context {N : Numerics}.
Local Open Scope float_scope.
Local Open Scope py_scope.

Definition _create_option_leg
    (option_symbol : string) (strike_price underlying_price delta
     option_price : float) (timestamp expiry : Py.timestamp) : OptionLeg.t :=
  OptionLeg.mk option_symbol strike_price underlying_price delta option_price
               timestamp expiry.

Definition in_short_band (self : t) (delta : float) : bool :=
  Py.between (fst (short_put_delta_range self)) delta
             (snd (short_put_delta_range self)).

Definition in_long_band (self : t) (delta : float) : bool :=
  Py.between (fst (long_put_delta_range self)) delta
             (snd (long_put_delta_range self)).

Definition in_width_range (self : t) (spread_width : float) : bool :=
  Py.between (fst (spread_width_range self)) spread_width
             (snd (spread_width_range self)).

Definition is_None {A : Type} (x : option A) : bool :=
  match x with None => true | Some _ => false end.

(** Lines 120-132: the [if]/[elif] that fills a slot. *)
Definition assign_leg
    (self : t) (short_put long_put : option OptionLeg.t)
    (tick : Tick.t) (underlying_price delta : float)
  : option OptionLeg.t * option OptionLeg.t :=
  let leg := _create_option_leg (Tick.option_symbol tick)
               (Tick.strike_price tick) underlying_price delta
               (Tick.midpoint tick) (Tick.timestamp tick) (Tick.expiry tick) in
  if is_None short_put && in_short_band self delta then
    (Some leg, long_put)
  else if in_long_band self delta then
    (short_put, Some leg)
  else
    (short_put, long_put).

(** Lines 134-158: with both slots filled, reset or return. *)
Definition validate_spread
    (self : t) (short_put long_put : option OptionLeg.t)
    (current_timestamp : Py.timestamp) : scan :=
  match short_put, long_put with
  | Some short, Some long =>
      let spread_width :=
        abs (OptionLeg.strike_price short - OptionLeg.strike_price long) in
      if negb (in_width_range self spread_width) then
        Scanning None None
      else
        let credit_received :=
          OptionLeg.option_price short - OptionLeg.option_price long in
        Found (SpreadLegs.mk short long credit_received current_timestamp
                             spread_width)
  | _, _ => Scanning short_put long_put
  end.

(** The body of the inner loop of [find_spread]. *)
Definition scan_tick
    (self : t) (option_type : string)
    (short_put long_put : option OptionLeg.t) (tick_data : Tick.t)
  : res scan :=
  match Tick.underlying_close tick_data with
  | None => Ok (Scanning short_put long_put)
  | Some underlying_price =>
      delta <- OptionUtils.calculate_delta
                 (Tick.midpoint tick_data) (Tick.strike_price tick_data)
                 (Tick.expiry tick_data) underlying_price
                 (risk_free_rate self) option_type
                 (Tick.timestamp tick_data) ;;
      match delta with
      | None => Ok (Scanning short_put long_put)
      | Some delta =>
          let '(short_put, long_put) :=
            assign_leg self short_put long_put tick_data underlying_price
                       delta in
          Ok (validate_spread self short_put long_put
                              (Tick.timestamp tick_data))
      end
  end.

(** The inner loop, over the ticks of one timestamp. *)
Fixpoint scan_ticks
    (self : t) (option_type : string)
    (short_put long_put : option OptionLeg.t) (tick_data_list : list Tick.t)
  : res scan :=
  match tick_data_list with
  | [] => Ok (Scanning short_put long_put)
  | tick_data :: rest =>
      r <- scan_tick self option_type short_put long_put tick_data ;;
      match r with
      | Found spread => Ok (Found spread)
      | Scanning short_put long_put =>
          scan_ticks self option_type short_put long_put rest
      end
  end.

(** The outer loop, over the timestamps in order. *)
Fixpoint scan_history
    (self : t) (option_type : string)
    (short_put long_put : option OptionLeg.t) (data : history)
  : res (option SpreadLegs.t) :=
  match data with
  | [] => Ok None
  | (_, tick_data_list) :: rest =>
      r <- scan_ticks self option_type short_put long_put tick_data_list ;;
      match r with
      | Found spread => Ok (Some spread)
      | Scanning short_put long_put =>
          scan_history self option_type short_put long_put rest
      end
  end.

Definition find_spread
    (self : t) (historical_data_by_timestamp : history)
    (option_type : string) : res (option SpreadLegs.t) :=
  scan_history self option_type None None historical_data_by_timestamp.

(** One turn of the loop of [calculate_current_spread_metrics]. *)
Definition locate_tick
    (spread : SpreadLegs.t) (acc : located) (tick_data : Tick.t) : located :=
  if String.eqb (Tick.option_symbol tick_data)
                (OptionLeg.option_symbol (SpreadLegs.short_leg spread)) then
    mkLocated (Some (Tick.midpoint tick_data))
              (current_long_price acc)
              (Tick.underlying_close tick_data)
  else if String.eqb (Tick.option_symbol tick_data)
                     (OptionLeg.option_symbol (SpreadLegs.long_leg spread)) then
    mkLocated (current_short_price acc)
              (Some (Tick.midpoint tick_data))
              (match current_underlying_price acc with
               | None => Tick.underlying_close tick_data
               | Some _ => current_underlying_price acc
               end)
  else acc.

Definition locate_prices
    (spread : SpreadLegs.t) (current_data : list Tick.t) : located :=
  fold_left (locate_tick spread) current_data (mkLocated None None None).

(** [all([current_short_price, current_long_price, current_underlying_price])] *)
Definition all_truthy (l : located) : bool :=
  Py.truthy (current_short_price l)
  && Py.truthy (current_long_price l)
  && Py.truthy (current_underlying_price l).

Definition calculate_current_spread_metrics
    (self : t) (spread : SpreadLegs.t) (current_data : list Tick.t)
    (risk_free_rate : float) : res (option Metrics.t) :=
  let l := locate_prices spread current_data in
  if negb (all_truthy l) then Ok None
  else
    match current_short_price l, current_long_price l,
          current_underlying_price l with
    | Some current_short_price, Some current_long_price,
      Some current_underlying_price =>
        let current_spread_price := current_short_price - current_long_price in
        match current_data with
        | [] => Raise Py.IndexError
        | first :: _ =>
            let current_timestamp := Tick.timestamp first in
            current_short_delta <-
              OptionUtils.calculate_delta
                current_short_price
                (OptionLeg.strike_price (SpreadLegs.short_leg spread))
                (OptionLeg.expiration_date (SpreadLegs.short_leg spread))
                current_underlying_price risk_free_rate "put"
                current_timestamp ;;
            current_long_delta <-
              OptionUtils.calculate_delta
                current_long_price
                (OptionLeg.strike_price (SpreadLegs.long_leg spread))
                (OptionLeg.expiration_date (SpreadLegs.long_leg spread))
                current_underlying_price risk_free_rate "put"
                current_timestamp ;;
            match current_short_delta, current_long_delta with
            | Some current_short_delta, Some current_long_delta =>
                let current_total_delta :=
                  abs current_short_delta - abs current_long_delta in
                Ok (Some (Metrics.mk current_spread_price current_short_price
                            current_long_price current_underlying_price
                            current_short_delta current_long_delta
                            current_total_delta current_timestamp))
            | _, _ => Ok None
            end
        end
    | _, _, _ => Ok None
    end.

End WithNumerics.
End SpreadSelector.

(* ================================================================= *)
(** * backtester.py *)

Module ZeroDTEBacktester.

(** The value under the key ['status'] of a trade result. *)
Inductive status : Type :=
| target_profit
| delta_stop_loss
| assignment_risk
| expired.

(** The dictionary returned by [_check_exit_conditions]. *)
Record exit_result : Type := mkExit {
  exit_status : status;
  exit_theoretical_pnl : float
}.

(** The dictionary returned by [_execute_single_trade]; [run] adds the key
    ['iteration']. *)
Record trade_result : Type := mkTrade {
  trade_status : status;
  theoretical_pnl : float;
  short_put_symbol : string;
  long_put_symbol : string;
  entry_time : Py.timestamp;
  exit_time : Py.timestamp;
  credit_received : float;
  spread_width : float;
  iteration : option nat
}.

(** The attributes of the backtester the core reads. *)
Record t : Type := mk {
  risk_free_rate : float;
  delta_stop_loss_multiplier : float;
  target_profit_percentage : float;
  spread_selector : SpreadSelector.t
}.

(** [__init__] hands the same rate and the three ranges to the selector. *)
Definition init
    (risk_free_rate : float)
    (short_put_delta_range long_put_delta_range spread_width_range
     : float * float)
    (delta_stop_loss_multiplier target_profit_percentage : float) : t :=
  mk risk_free_rate delta_stop_loss_multiplier target_profit_percentage
     (SpreadSelector.mk short_put_delta_range long_put_delta_range
                        spread_width_range risk_free_rate).

Section WithNumerics.
Context {N : Numerics}.
Local Open Scope float_scope.
Local Open Scope py_scope.

Definition _check_exit_conditions
    (spread : SpreadLegs.t) (metrics : Metrics.t)
    (target_profit_price delta_stop_loss_level : float)
  : option exit_result :=
  let current_spread_price := Metrics.current_spread_price metrics in
  let current_total_delta := Metrics.current_total_delta metrics in
  let current_underlying_price := Metrics.current_underlying_price metrics in
  if current_spread_price <=? target_profit_price then
    Some (mkExit target_profit
            ((SpreadLegs.credit_received spread - current_spread_price) * 100))
  else if delta_stop_loss_level <=? current_total_delta then
    Some (mkExit delta_stop_loss
            ((SpreadLegs.credit_received spread - current_spread_price) * 100))
  else if current_underlying_price
          <=? OptionLeg.strike_price (SpreadLegs.short_leg spread) then
    let theoretical_loss :=
      SpreadLegs.credit_received spread
      - (OptionLeg.strike_price (SpreadLegs.short_leg spread)
         - current_underlying_price) in
    Some (mkExit assignment_risk (theoretical_loss * 100))
  else None.

(** [exit_result.update({...})] *)
Definition close_trade
    (spread : SpreadLegs.t) (e : exit_result) (timestamp : Py.timestamp)
  : trade_result :=
  mkTrade (exit_status e) (exit_theoretical_pnl e)
          (OptionLeg.option_symbol (SpreadLegs.short_leg spread))
          (OptionLeg.option_symbol (SpreadLegs.long_leg spread))
          (SpreadLegs.entry_timestamp spread) timestamp
          (SpreadLegs.credit_received spread)
          (SpreadLegs.spread_width spread) None.

(** The monitoring loop of [_execute_single_trade]: [Some] is the result it
    returns from inside the loop, [None] is leaving the loop. *)
Fixpoint monitor
    (self : t) (spread : SpreadLegs.t)
    (target_profit_price delta_stop_loss_level : float) (data : history)
  : res (option trade_result) :=
  match data with
  | [] => Ok None
  | (timestamp, current_data) :: rest =>
      if (timestamp <=? SpreadLegs.entry_timestamp spread)%Z then
        monitor self spread target_profit_price delta_stop_loss_level rest
      else
        metrics <- SpreadSelector.calculate_current_spread_metrics
                     (spread_selector self) spread current_data
                     (risk_free_rate self) ;;
        match metrics with
        | None =>
            monitor self spread target_profit_price delta_stop_loss_level rest
        | Some metrics =>
            match _check_exit_conditions spread metrics target_profit_price
                                         delta_stop_loss_level with
            | Some e => Ok (Some (close_trade spread e timestamp))
            | None =>
                monitor self spread target_profit_price delta_stop_loss_level
                        rest
            end
        end
  end.

(** [max(filtered_data.keys())]; [ValueError] on no key at all. *)
Definition max_key (data : history) : res Py.timestamp :=
  match data with
  | [] => Raise Py.ValueError
  | (k, _) :: rest => Ok (fold_left (fun m kv => Z.max m (fst kv)) rest k)
  end.

(** [min(self.historical_data.keys())] *)
Definition min_key (data : history) : res Py.timestamp :=
  match data with
  | [] => Raise Py.ValueError
  | (k, _) :: rest => Ok (fold_left (fun m kv => Z.min m (fst kv)) rest k)
  end.

Definition _execute_single_trade (self : t) (filtered_data : history)
  : res (option trade_result) :=
  spread <- SpreadSelector.find_spread (spread_selector self) filtered_data
                                       "put" ;;
  match spread with
  | None => Ok None
  | Some spread =>
      let initial_total_delta := SpreadLegs.initial_total_delta spread in
      let delta_stop_loss_level :=
        initial_total_delta * delta_stop_loss_multiplier self in
      let target_profit_price :=
        SpreadLegs.credit_received spread * target_profit_percentage self in
      exit <- monitor self spread target_profit_price delta_stop_loss_level
                      filtered_data ;;
      match exit with
      | Some result => Ok (Some result)
      | None =>
          final_timestamp <- max_key filtered_data ;;
          Ok (Some (mkTrade expired
                      (SpreadLegs.credit_received spread * 100)
                      (OptionLeg.option_symbol (SpreadLegs.short_leg spread))
                      (OptionLeg.option_symbol (SpreadLegs.long_leg spread))
                      (SpreadLegs.entry_timestamp spread) final_timestamp
                      (SpreadLegs.credit_received spread)
                      (SpreadLegs.spread_width spread) None))
      end
  end.

(** The dictionary comprehension at the head of the loop of [run]. *)
Definition filter_from (historical_data : history)
    (current_start_time : Py.timestamp) : history :=
  filter (fun kv => (current_start_time <=? fst kv)%Z) historical_data.

Definition set_iteration (r : trade_result) (i : nat) : trade_result :=
  mkTrade (trade_status r) (theoretical_pnl r) (short_put_symbol r)
          (long_put_symbol r) (entry_time r) (exit_time r)
          (credit_received r) (spread_width r) (Some i).

(** The [while iteration <= max_iterations] loop of [run]: [remaining]
    counts the turns still allowed, [results] is [self.results]. *)
Fixpoint run_loop
    (self : t) (historical_data : history) (remaining iteration : nat)
    (current_start_time : Py.timestamp) (results : list trade_result)
  : res (list trade_result) :=
  match remaining with
  | O => Ok results
  | S remaining' =>
      let filtered_data := filter_from historical_data current_start_time in
      match filtered_data with
      | [] => Ok results
      | _ :: _ =>
          result <- _execute_single_trade self filtered_data ;;
          match result with
          | None => Ok results
          | Some result =>
              let result := set_iteration result iteration in
              run_loop self historical_data remaining' (S iteration)
                       (exit_time result + Py.one_minute)%Z
                       (results ++ [result])
          end
      end
  end.

(** [run], from the loaded data to the list behind the data frame. *)
Definition run (self : t) (historical_data : history) (max_iterations : nat)
  : res (list trade_result) :=
  match historical_data with
  | [] => Ok []
  | _ :: _ =>
      current_start_time <- min_key historical_data ;;
      run_loop self historical_data max_iterations 1 current_start_time []
  end.

End WithNumerics.
End ZeroDTEBacktester.

(* ================================================================= *)
(** * option_utils.py: option symbols *)

(** Python strings and integers as the symbol functions use them. *)
Module PyStr.

(** [s[:n]] *)
Definition slice_to (n : nat) (s : string) : string := substring 0 n s.

(** [s[n:]] *)
Definition slice_from (n : nat) (s : string) : string :=
  substring n (String.length s - n) s.

(** [s[-n:]]: the last [n] characters, all of [s] when it is shorter. *)
Definition last_chars (n : nat) (s : string) : string :=
  slice_from (String.length s - n) s.

(** [s.replace(c, '')] for a one-character [c]. *)
Fixpoint remove_char (c : Ascii.ascii) (s : string) : string :=
  match s with
  | EmptyString => EmptyString
  | String a rest =>
      if Ascii.eqb a c then remove_char c rest
      else String a (remove_char c rest)
  end.

(** The decimal digits of a natural number, ["0"] for zero. *)
Definition decimal (n : N) : string :=
  DecimalString.NilZero.string_of_uint (N.to_uint n).

Fixpoint zeros (n : nat) : string :=
  match n with
  | O => EmptyString
  | S n' => String "0"%char (zeros n')
  end.

(** [s.zfill(width)] for a string of digits. *)
Definition zfill (width : nat) (s : string) : string :=
  (zeros (width - String.length s) ++ s)%string.

(** [f"{z:08d}"]: zero-padded to eight characters, the sign counted. *)
Definition format_08d (z : Z) : string :=
  if (z <? 0)%Z then ("-" ++ zfill 7 (decimal (Z.abs_N z)))%string
  else zfill 8 (decimal (Z.to_N z)).

(** [f"{z:02d}"] for the non-negative fields of a date. *)
Definition format_02d (z : Z) : string := zfill 2 (decimal (Z.to_N z)).

(** [int(x)] on a float: truncation towards zero; [None] is the
    [OverflowError] on an infinity and the [ValueError] on NaN. *)
Definition int_of_float (x : float) : option Z :=
  match Prim2SF x with
  | S754_zero _ => Some 0%Z
  | S754_finite s m e =>
      Some (cond_Zopp s (if (0 <=? e)%Z then Zpos m * 2 ^ e
                         else Zpos m / 2 ^ (- e)))%Z
  | S754_infinity _ | S754_nan => None
  end.

(** [np.ceil]: the least integral float at or above [x]; zeros, infinities
    and NaN are returned as they are, and a negative fraction above [-1]
    gives [-0.0]. *)
Definition np_ceil (x : float) : float :=
  match Prim2SF x with
  | S754_finite s m e =>
      if (0 <=? e)%Z then x
      else
        let n := cond_Zopp s (Zpos m) in
        let q := (- ((- n) / 2 ^ (- e)))%Z in
        if (q =? 0)%Z then (if s then (-0)%float else 0%float)
        else Py.float_of_Z q
  | _ => x
  end.

(** [datetime.date], and [strftime("%y%m%d")]. *)
Record date : Type := mkDate { year : Z; month : Z; day : Z }.

Definition strftime_yymmdd (d : date) : string :=
  (format_02d (year d mod 100) ++ format_02d (month d)
   ++ format_02d (day d))%string.

End PyStr.

(** Python's built-in [float(str)]; [None] is its [ValueError]. *)
Class Builtins : Type := {
  py_float : string -> option float
}.

Module OptionSymbols.
Local Open Scope float_scope.

(** [extract_strike_price]: the last eight characters over 1000, and [0.0]
    when they do not spell a float. *)
Definition extract_strike_price {B : Builtins} (symbol : string) : float :=
  match py_float (PyStr.last_chars 8 symbol) with
  | Some strike_thousandths => strike_thousandths / 1000
  | None => 0
  end.

(** The two f-strings of [generate_put_option_symbols]. *)
Definition put_symbol (underlying exp_str : string) (strike_thousandths : Z)
  : string :=
  (underlying ++ exp_str ++ "P" ++ PyStr.format_08d strike_thousandths)%string.

(** How a call of [generate_put_option_symbols] ends: with its list, with
    the exception of [int()], or, in the model, with the turns allowed used
    up. *)
Inductive generated : Type :=
| Symbols (option_symbols : list string)
| IntRaised
| Unfinished.

(** The [while current_strike <= max_strike] loop. *)
Fixpoint generate_loop
  (turns : nat) (underlying exp_str : string)
  (current_strike max_strike strike_increment : float)
  (option_symbols : list string) : generated :=
  if current_strike <=? max_strike then
    match turns with
    | O => Unfinished
    | S turns' =>
        match PyStr.int_of_float (current_strike * 1000) with
        | None => IntRaised
        | Some strike_thousandths =>
            generate_loop turns' underlying exp_str
              (current_strike + strike_increment) max_strike strike_increment
              (option_symbols
               ++ [put_symbol underlying exp_str strike_thousandths])%list
        end
    end
  else Symbols option_symbols.

Definition generate_put_option_symbols
  (turns : nat) (underlying : string) (expiration_date : PyStr.date)
  (min_strike max_strike strike_increment : float) : generated :=
  let exp_str := PyStr.strftime_yymmdd expiration_date in
  let current_strike :=
    PyStr.np_ceil (min_strike / strike_increment) * strike_increment in
  generate_loop turns underlying exp_str current_strike max_strike
                strike_increment [].

(** [calculate_strike_price_range] *)
Definition calculate_strike_price_range
  (high_price low_price buffer_pct : float) : float * float :=
  let min_strike := low_price * (1 - buffer_pct) in
  let max_strike := high_price * (1 + buffer_pct) in
  (min_strike, max_strike).

End OptionSymbols.

(* ================================================================= *)
(** * data_client.py *)

(** A row of the frame Databento returns (schema cbbo-1m): its index and the
    columns the code reads. *)
Module Databento.
Record row : Type := mk {
  index : timestamp;
  symbol : string;
  price : float;
  bid_px_00 : float;
  ask_px_00 : float;
  bid_sz_00 : Z;
  ask_sz_00 : Z
}.
End Databento.

(** What the two market-data services and the time-zone database answer for
    an expiration date: the option rows for a list of symbols ([None] when the
    request raises), the one-minute closes of the underlying by timestamp, and
    16:00 New York in UTC. *)
Class Feeds : Type := {
  get_range : PyStr.date -> list string -> option (list Databento.row);
  intraday_close : PyStr.date -> timestamp -> option float;
  market_close_utc : PyStr.date -> timestamp
}.

Module DataClient.
Local Open Scope float_scope.

(** A row of the frame [get_option_ticks] returns. *)
Record option_row : Type := mkRow {
  row_option_symbol : string;
  row_timestamp : timestamp;
  row_close : float;
  row_bid : float;
  row_ask : float;
  row_midpoint : float;
  row_bid_size : Z;
  row_ask_size : Z;
  row_strike_price : float
}.

(** The dictionary [get_comprehensive_historical_data] files per tick. *)
Record tick_data : Type := mkTick {
  option_symbol : string;
  timestamp : Py.timestamp;
  close : float;
  bid : float;
  ask : float;
  midpoint : float;
  bid_size : Z;
  ask_size : Z;
  strike_price : float;
  expiry : Py.timestamp;
  underlying_close : option float
}.

(** The keys of a tick the core reads. *)
Definition core_view (t : tick_data) : Tick.t :=
  Tick.mk (option_symbol t) (timestamp t) (midpoint t) (strike_price t)
          (expiry t) (underlying_close t).

(** [f"{symbol[:3]}   {symbol[3:]}"] *)
Definition databento_symbol (symbol : string) : string :=
  (PyStr.slice_to 3 symbol ++ "   " ++ PyStr.slice_from 3 symbol)%string.

(** The body of the loop of [get_option_ticks]. *)
Definition process_row {B : Builtins} (row : Databento.row) : option_row :=
  let original_symbol := PyStr.remove_char " "%char (Databento.symbol row) in
  mkRow original_symbol (Databento.index row) (Databento.price row)
        (Databento.bid_px_00 row) (Databento.ask_px_00 row)
        ((Databento.bid_px_00 row + Databento.ask_px_00 row) / 2)
        (Databento.bid_sz_00 row) (Databento.ask_sz_00 row)
        (OptionSymbols.extract_strike_price original_symbol).

(** [get_option_ticks], for the session of one expiration date: an empty
    frame when the request raises or returns nothing. *)
Definition get_option_ticks
  {B : Builtins} {F : Feeds} (option_symbols : list string) (day : PyStr.date)
  : list option_row :=
  let formatted_symbols := map databento_symbol option_symbols in
  match get_range day formatted_symbols with
  | Some rows => map process_row rows
  | None => []
  end.

(** [combined_data_by_timestamp]: a dictionary in insertion order. *)
Definition combined : Type := list (Py.timestamp * list tick_data).

(** [if timestamp not in d: d[timestamp] = []] then
    [d[timestamp].append(tick_data)] *)
Fixpoint file_tick (ts : Py.timestamp) (tick : tick_data) (d : combined)
  : combined :=
  match d with
  | [] => [(ts, [tick])]
  | (k, group) :: rest =>
      if (k =? ts)%Z then (k, group ++ [tick]) :: rest
      else (k, group) :: file_tick ts tick rest
  end.

(** The tick built from one option row. *)
Definition combine_row {F : Feeds} (day : PyStr.date) (row : option_row)
  : tick_data :=
  mkTick (row_option_symbol row) (row_timestamp row) (row_close row)
         (row_bid row) (row_ask row) (row_midpoint row) (row_bid_size row)
         (row_ask_size row) (row_strike_price row) (market_close_utc day)
         (intraday_close day (row_timestamp row)).

(** [sorted(keys)] and the rebuilt dictionary: the groups in ascending
    order of their (distinct) keys. *)
Fixpoint insert_by_key (g : Py.timestamp * list tick_data) (d : combined)
  : combined :=
  match d with
  | [] => [g]
  | h :: rest =>
      if (fst g <=? fst h)%Z then g :: d else h :: insert_by_key g rest
  end.

Definition sort_by_key (d : combined) : combined :=
  fold_right insert_by_key [] d.

(** The ticks of one expiration date, in the order of the option frame. *)
Definition ticks_of_day
  {B : Builtins} {F : Feeds} (entry : PyStr.date * list string)
  : list tick_data :=
  map (combine_row (fst entry)) (get_option_ticks (snd entry) (fst entry)).

Definition get_comprehensive_historical_data
  {B : Builtins} {F : Feeds}
  (option_symbols_by_expiration : list (PyStr.date * list string))
  : combined :=
  let combined_data_by_timestamp :=
    fold_left
      (fun d entry =>
         fold_left (fun d tick => file_tick (timestamp tick) tick d)
                   (ticks_of_day entry) d)
      option_symbols_by_expiration [] in
  sort_by_key combined_data_by_timestamp.

(** The stream the backtester reads. *)
Definition as_history (d : combined) : history :=
  map (fun g => (fst g, map core_view (snd g))) d.

End DataClient.

(* ================================================================= *)
(** * backtester.py: trade statistics *)

Module TradeStatistics.
Import ZeroDTEBacktester.
Local Open Scope float_scope.

(** The entries of the dictionary [get_trade_statistics] returns that are
    computed by counting; the sums, means and extremes of the P&L column are
    reductions of pandas and are not part of the model. *)
Record t : Type := mk {
  total_trades : nat;
  winning_trades : nat;
  losing_trades : nat;
  win_rate : float;
  status_breakdown : status -> option nat
}.

Definition status_eqb (a b : status) : bool :=
  match a, b with
  | target_profit, target_profit
  | delta_stop_loss, delta_stop_loss
  | assignment_risk, assignment_risk
  | expired, expired => true
  | _, _ => false
  end.

(** [(column > 0).sum()] and the like: the rows a comparison holds of. *)
Definition count_where {A : Type} (test : A -> bool) (column : list A) : nat :=
  List.length (filter test column).

(** [column.value_counts().to_dict()]: a key for each value that occurs. *)
Definition value_counts (column : list status) (value : status) : option nat :=
  match count_where (status_eqb value) column with
  | O => None
  | n => Some n
  end.

(** [get_trade_statistics]; [None] is the empty dictionary. *)
Definition get_trade_statistics (results : list trade_result) : option t :=
  match results with
  | [] => None
  | _ :: _ =>
      let pnl := map theoretical_pnl results in
      let total_trades := List.length results in
      let winning_trades := count_where (fun x => 0 <? x) pnl in
      let losing_trades := count_where (fun x => x <=? 0) pnl in
      let win_rate :=
        if (0 <? total_trades)%nat then
          Py.float_of_Z (Z.of_nat winning_trades)
          / Py.float_of_Z (Z.of_nat total_trades) * 100
        else 0 in
      Some (mk total_trades winning_trades losing_trades win_rate
               (value_counts (map trade_status results)))
  end.

End TradeStatistics.

(* ================================================================= *)
(** * Vocabulary of the properties *)

Module Spec.
Local Open Scope float_scope.


(** The interval [[a, b]] brackets no root of [f]: both values are computed
    and their product is positive. *)
Definition no_bracket (f : float -> res float) (a b : float) : Prop :=
  exists fa fb, f a = Ok fa /\ f b = Ok fb /\ (0 <? fa * fb) = true.

(** What SciPy documents of [brentq]: "f(a) and f(b) must have different
    signs", reported as [ValueError]. *)
Definition brentq_rejects_no_bracket (N : Numerics) : Prop :=
  forall f a b, no_bracket f a b -> brentq f a b = Raise Py.ValueError.


(** The Black-Scholes price as a function of the volatility: with
    [d1 = (ln(S/K) + (r + sigma^2/2) T) / (sigma sqrt(T))] and
    [d2 = d1 - sigma sqrt(T)], the call is worth
    [S Phi(d1) - K exp(-r T) Phi(d2)] and the put
    [K exp(-r T) Phi(-d2) - S Phi(-d1)]. *)
Definition d1 {N : Numerics} (S K T r sigma : float) : float :=
  (np_log (S / K) + (r + 0.5 * float_pow sigma 2) * T) / (sigma * sqrt T).

Definition d2 {N : Numerics} (S K T r sigma : float) : float :=
  d1 S K T r sigma - sigma * sqrt T.

Definition black_scholes_price
  {N : Numerics} (S K T r : float) (option_type : string) (sigma : float)
  : float :=
  if String.eqb option_type "call" then
    S * norm_cdf (d1 S K T r sigma)
    - K * np_exp (- r * T) * norm_cdf (d2 S K T r sigma)
  else
    K * np_exp (- r * T) * norm_cdf (- d2 S K T r sigma)
    - S * norm_cdf (- d1 S K T r sigma).

(** The ticks of a stream, with the timestamp they are filed under. *)
Definition tick_in (data : history) (tick : Tick.t) : Prop :=
  exists ts ticks, In (ts, ticks) data /\ In tick ticks.

(** A leg is the snapshot of a tick. *)
Definition leg_of_tick (leg : OptionLeg.t) (tick : Tick.t) : Prop :=
  OptionLeg.option_symbol leg = Tick.option_symbol tick
  /\ OptionLeg.strike_price leg = Tick.strike_price tick
  /\ OptionLeg.option_price leg = Tick.midpoint tick
  /\ OptionLeg.timestamp leg = Tick.timestamp tick
  /\ OptionLeg.expiration_date leg = Tick.expiry tick.

Definition leg_from (Q : Tick.t -> Prop) (leg : OptionLeg.t) : Prop :=
  exists tick, Q tick /\ leg_of_tick leg tick.

Definition slot_from (Q : Tick.t -> Prop) (slot : option OptionLeg.t)
  : Prop :=
  forall leg, slot = Some leg -> leg_from Q leg.

(** The input contract of the data layer: ticks are grouped by their own
    timestamp ([combined_data_by_timestamp[timestamp].append(tick_data)]). *)
Definition well_grouped (data : history) : Prop :=
  forall ts ticks tick,
    In (ts, ticks) data -> In tick ticks -> Tick.timestamp tick = ts.

(** The strike is read off the symbol
    ([OptionUtils.extract_strike_price(original_symbol)]). *)
Definition symbol_fixes_strike (data : history) : Prop :=
  forall t1 t2,
    tick_in data t1 -> tick_in data t2 ->
    Tick.option_symbol t1 = Tick.option_symbol t2 ->
    Tick.strike_price t1 = Tick.strike_price t2.

(** Consecutive trades do not overlap: each entry is strictly after the
    exit before it. *)
Definition disjoint_in_time (results : list ZeroDTEBacktester.trade_result)
  : Prop :=
  Sorted (fun a b => (ZeroDTEBacktester.exit_time a
                      < ZeroDTEBacktester.entry_time b)%Z) results.

(** The trade [_execute_single_trade] returns on [data] is closed at
    timestamp [ts] with status [s]. *)
Definition exits_at
  {N : Numerics} (bt : ZeroDTEBacktester.t) (data : history) (ts : timestamp)
  (s : ZeroDTEBacktester.status) : Prop :=
  exists r,
    ZeroDTEBacktester._execute_single_trade bt data = Ok (Some r)
    /\ ZeroDTEBacktester.trade_status r = s
    /\ ZeroDTEBacktester.exit_time r = ts.

(** A tick that quotes the short leg's contract. *)
Definition quotes_short (spread : SpreadLegs.t) (tick : Tick.t) : bool :=
  String.eqb (Tick.option_symbol tick)
             (OptionLeg.option_symbol (SpreadLegs.short_leg spread)).

(** A tick that quotes the long leg's contract, and not the short leg's. *)
Definition quotes_long (spread : SpreadLegs.t) (tick : Tick.t) : bool :=
  negb (quotes_short spread tick)
  && String.eqb (Tick.option_symbol tick)
                (OptionLeg.option_symbol (SpreadLegs.long_leg spread)).

(** The last tick of a group that satisfies [p]. *)
Definition last_tick (p : Tick.t -> bool) (current_data : list Tick.t)
  : option Tick.t :=
  find p (rev current_data).

(** The ticks behind the last one that satisfies [p]; all of them when
    none does. *)
Fixpoint after_last (p : Tick.t -> bool) (current_data : list Tick.t)
  : list Tick.t :=
  match current_data with
  | [] => []
  | tick :: rest =>
      if existsb p rest then after_last p rest
      else if p tick then rest else tick :: rest
  end.

(** The first underlying quote that a list of ticks carries. *)
Fixpoint first_quote (ticks : list Tick.t) : option float :=
  match ticks with
  | [] => None
  | tick :: rest =>
      match Tick.underlying_close tick with
      | Some u => Some u
      | None => first_quote rest
      end
  end.



(** The underlying price selected: the quote on the last tick of the short
    leg; when that tick carries none, or the short leg is not quoted, the
    first quote on a tick of the long leg behind it. *)
Definition underlying_price (spread : SpreadLegs.t)
  (current_data : list Tick.t) : option float :=
  let fallback :=
    first_quote (filter (quotes_long spread)
                        (after_last (quotes_short spread) current_data)) in
  match last_tick (quotes_short spread) current_data with
  | Some tick =>
      match Tick.underlying_close tick with
      | Some u => Some u
      | None => fallback
      end
  | None => fallback
  end.


(** The delta of one leg as [calculate_current_spread_metrics] recomputes it:
    always as a put, at the timestamp of the group's first tick. *)
Definition current_delta
  {N : Numerics} (leg : OptionLeg.t) (price underlying risk_free_rate : float)
  (now : timestamp) : res (option float) :=
  OptionUtils.calculate_delta price (OptionLeg.strike_price leg)
    (OptionLeg.expiration_date leg) underlying risk_free_rate "put" now.

(** What a scan holds or returns, given where the ticks come from. *)
Definition scan_from (Q : Tick.t -> Prop) (self : SpreadSelector.t)
  (r : SpreadSelector.scan) : Prop :=
  match r with
  | SpreadSelector.Scanning s l => slot_from Q s /\ slot_from Q l
  | SpreadSelector.Found spread =>
      leg_from Q (SpreadLegs.short_leg spread)
      /\ leg_from Q (SpreadLegs.long_leg spread)
      /\ (exists tick, Q tick
                       /\ SpreadLegs.entry_timestamp spread
                          = Tick.timestamp tick)
      /\ SpreadSelector.validate_spread self (Some (SpreadLegs.short_leg spread))
                         (Some (SpreadLegs.long_leg spread))
                         (SpreadLegs.entry_timestamp spread)
         = SpreadSelector.Found spread
  end.

End Spec.

(* ================================================================= *)
(** * Closed inputs

  The last minutes of a 0DTE session on SPY puts.  Every tick below sits at
  or after its expiry, so [calculate_delta] answers with the intrinsic
  indicator and no closed example depends on how the numerical libraries
  round. *)

Module Examples.
Local Open Scope float_scope.

(** A small instance of [Numerics] for closed examples: a flat model
    (logarithm 0, discount 1, normal CDF one half everywhere) and a
    root-finder that performs SciPy's sign test and then stops at the lower
    end of the interval. *)
Definition flat_numerics : Numerics := {|
  np_log := fun _ => 0;
  np_exp := fun _ => 1;
  float_pow := fun x _ => x * x;
  norm_cdf := fun _ => 0.5;
  brentq := fun f a b =>
    Py.bind (f a) (fun fa =>
    Py.bind (f b) (fun fb =>
    if 0 <? fa * fb then Raise Py.ValueError else Ok a))
|}.


(** 2025-06-16 20:00:00 UTC, the 16:00 New York close. *)
Definition expiry_time : timestamp := 1750104000000000%Z.

Definition minute (n : Z) : timestamp := (expiry_time + n * Py.one_minute)%Z.

Definition put570 (ts : timestamp) (mid : float) (underlying : option float)
  : Tick.t :=
  Tick.mk "SPY250616P00570000" ts mid 570 expiry_time underlying.

Definition put567 (ts : timestamp) (mid : float) (underlying : option float)
  : Tick.t :=
  Tick.mk "SPY250616P00567000" ts mid 567 expiry_time underlying.

Definition put560 (ts : timestamp) (mid : float) (underlying : option float)
  : Tick.t :=
  Tick.mk "SPY250616P00560000" ts mid 560 expiry_time underlying.

(** Delta bands that admit the intrinsic deltas [-1.0] and [0.0]. *)
Definition selector : SpreadSelector.t :=
  SpreadSelector.mk (-1, -0.2) (-1, 0) (2, 4) 0.01.

(** The same selector, accepting a zero width. *)
Definition selector_zero_width : SpreadSelector.t :=
  SpreadSelector.mk (-1, -0.2) (-1, 0) (0, 4) 0.01.

Definition backtester : ZeroDTEBacktester.t :=
  ZeroDTEBacktester.init 0.01 (-1, -0.2) (-1, 0) (2, 4) 0.5 0.5.

(** Entry at the close (570/567, credit 1.20), the spread at 0.55 one
    minute later; twice. *)
Definition entry_group (n : Z) : timestamp * list Tick.t :=
  (minute n, [put570 (minute n) 1.25 (Some 569);
              put567 (minute n) 0.05 (Some 569)]).

Definition exit_group (n : Z) : timestamp * list Tick.t :=
  (minute n, [put570 (minute n) 0.9 (Some 569);
              put567 (minute n) 0.35 (Some 569)]).

Definition closing_minutes : history :=
  [entry_group 0; exit_group 1; entry_group 2; exit_group 3].

(** The spread entered on [entry_group 0]. *)
Definition leg570 : OptionLeg.t :=
  OptionLeg.mk "SPY250616P00570000" 570 569 (-1) 1.25 (minute 0) expiry_time.

Definition leg567 : OptionLeg.t :=
  OptionLeg.mk "SPY250616P00567000" 567 569 0 0.05 (minute 0) expiry_time.

Definition spread_570_567 : SpreadLegs.t :=
  SpreadLegs.mk leg570 leg567 (1.25 - 0.05) (minute 0) (abs (570 - 567)).

(** A far strike between the two legs of the entry: width 10. *)
Definition wide_then_narrow : list Tick.t :=
  [put570 (minute 0) 1.25 (Some 569);
   put560 (minute 0) 0.01 (Some 569);
   put570 (minute 0) 1.25 (Some 569);
   put567 (minute 0) 0.05 (Some 569)].

(** The same contract quoted at two successive minutes. *)
Definition same_contract_twice : history :=
  [(minute 0, [put570 (minute 0) 1.25 (Some 569)]);
   (minute 1, [put570 (minute 1) 0.9 (Some 569)])].

Definition leg570_later : OptionLeg.t :=
  OptionLeg.mk "SPY250616P00570000" 570 569 (-1) 0.9 (minute 1) expiry_time.

Definition spread_570_570 : SpreadLegs.t :=
  SpreadLegs.mk leg570 leg570_later (1.25 - 0.9) (minute 1) (abs (570 - 570)).

(** Both puts in the money: each delta is [-1.0], inside both bands. *)
Definition both_in_the_money : history :=
  [(minute 0, [put570 (minute 0) 10.5 (Some 560);
               put567 (minute 0) 7.5 (Some 560)])].

Definition deep_leg570 : OptionLeg.t :=
  OptionLeg.mk "SPY250616P00570000" 570 560 (-1) 10.5 (minute 0) expiry_time.

Definition deep_leg567 : OptionLeg.t :=
  OptionLeg.mk "SPY250616P00567000" 567 560 (-1) 7.5 (minute 0) expiry_time.

Definition deep_spread : SpreadLegs.t :=
  SpreadLegs.mk deep_leg570 deep_leg567 (10.5 - 7.5) (minute 0)
                (abs (570 - 567)).

Definition leg560 : OptionLeg.t :=
  OptionLeg.mk "SPY250616P00560000" 560 569 0 0.01 (minute 0) expiry_time.

(** The metrics of [spread_570_567] on [exit_group 1]. *)
Definition exit_metrics : Metrics.t :=
  Metrics.mk (0.9 - 0.35) 0.9 0.35 569 (-1) 0 (abs (-1) - abs 0) (minute 1).



Definition long_mid_zero : list Tick.t :=
  [put570 (minute 1) 0.9 (Some 569); put567 (minute 1) 0 (Some 569)].


End Examples.

(* ================================================================= *)
(** * Vocabulary of the further properties *)

Module Props.
Local Open Scope float_scope.

(** A tick that carries an underlying quote. *)
Definition quoted (tick : Tick.t) : bool :=
  match Tick.underlying_close tick with
  | Some _ => true
  | None => false
  end.

(** The delta [find_spread] computes for a tick. *)
Definition tick_delta
  {N : Numerics} (self : SpreadSelector.t) (option_type : string)
  (tick : Tick.t) (underlying_price : float) : res (option float) :=
  OptionUtils.calculate_delta
    (Tick.midpoint tick) (Tick.strike_price tick) (Tick.expiry tick)
    underlying_price (SpreadSelector.risk_free_rate self) option_type
    (Tick.timestamp tick).

(** The leg [find_spread] creates from a tick, its underlying quote and
    its delta. *)
Definition snapshot (tick : Tick.t) (u d : float) : OptionLeg.t :=
  SpreadSelector._create_option_leg
    (Tick.option_symbol tick) (Tick.strike_price tick) u d
    (Tick.midpoint tick) (Tick.timestamp tick) (Tick.expiry tick).

(** A tick the scan passes over: no underlying quote, or no delta. *)
Definition passed_over
  {N : Numerics} (self : SpreadSelector.t) (option_type : string)
  (tick : Tick.t) : Prop :=
  match Tick.underlying_close tick with
  | None => True
  | Some u => tick_delta self option_type tick u = Ok None
  end.

(** A leg is the snapshot of a quoted tick, with the delta computed for it. *)
Definition leg_priced
  {N : Numerics} (self : SpreadSelector.t) (option_type : string)
  (leg : OptionLeg.t) : Prop :=
  exists tick u,
    Tick.underlying_close tick = Some u
    /\ tick_delta self option_type tick u = Ok (Some (OptionLeg.delta leg))
    /\ leg = SpreadSelector._create_option_leg
               (Tick.option_symbol tick) (Tick.strike_price tick) u
               (OptionLeg.delta leg) (Tick.midpoint tick)
               (Tick.timestamp tick) (Tick.expiry tick).

(** The outcome of a scan, as [find_spread] reports it. *)
Definition found (r : SpreadSelector.scan) : option SpreadLegs.t :=
  match r with
  | SpreadSelector.Found spread => Some spread
  | SpreadSelector.Scanning _ _ => None
  end.

(** The timestamps a stream is keyed by. *)
Definition keys (data : history) : list timestamp := map fst data.

(** What the scan keeps true of its two slots between ticks: never both
    filled, the short candidate priced inside the short band, the long
    candidate inside the long band. *)
Definition slots_ok
  {N : Numerics} (self : SpreadSelector.t) (option_type : string)
  (short_put long_put : option OptionLeg.t) : Prop :=
  (short_put = None \/ long_put = None)
  /\ (forall leg, short_put = Some leg ->
                  SpreadSelector.in_short_band self (OptionLeg.delta leg) = true
                  /\ leg_priced self option_type leg)
  /\ (forall leg, long_put = Some leg ->
                  SpreadSelector.in_long_band self (OptionLeg.delta leg) = true
                  /\ leg_priced self option_type leg).

(** What is true of a spread the scan returns. *)
Definition spread_ok
  {N : Numerics} (self : SpreadSelector.t) (option_type : string)
  (spread : SpreadLegs.t) : Prop :=
  let short := SpreadLegs.short_leg spread in
  let long := SpreadLegs.long_leg spread in
  SpreadSelector.in_short_band self (OptionLeg.delta short) = true
  /\ leg_priced self option_type short
  /\ SpreadSelector.in_long_band self (OptionLeg.delta long) = true
  /\ leg_priced self option_type long
  /\ (SpreadLegs.entry_timestamp spread = OptionLeg.timestamp short
      \/ SpreadLegs.entry_timestamp spread = OptionLeg.timestamp long).

Definition scan_ok
  {N : Numerics} (self : SpreadSelector.t) (option_type : string)
  (r : SpreadSelector.scan) : Prop :=
  match r with
  | SpreadSelector.Scanning s l => slots_ok self option_type s l
  | SpreadSelector.Found spread => spread_ok self option_type spread
  end.

(** What Python documents of [float(str)] on a string of decimal digits:
    the integer it spells, rounded to the nearest float. *)
Definition parses_digits (B : Builtins) : Prop :=
  forall s u,
    s <> EmptyString ->
    DecimalString.NilEmpty.uint_of_string s = Some u ->
    py_float s = Some (Py.float_of_Z (Z.of_uint u)).

(** Every tick the data layer builds, in the order it builds them. *)
Definition all_ticks
  {B : Builtins} {F : Feeds}
  (option_symbols_by_expiration : list (PyStr.date * list string))
  : list DataClient.tick_data :=
  flat_map DataClient.ticks_of_day option_symbols_by_expiration.

(** The ticks of a list that carry a given timestamp, in order. *)
Definition ticks_at (ts : timestamp) (ticks : list DataClient.tick_data)
  : list DataClient.tick_data :=
  filter (fun t => (DataClient.timestamp t =? ts)%Z) ticks.

(** What the filing of ticks keeps true of the dictionary, [seen] being the
    ticks filed so far: the keys are distinct, each group is the ticks seen
    with its key, in order, and is not empty, and every tick seen has its
    key in the dictionary. *)
Definition grouped
  (d : DataClient.combined) (seen : list DataClient.tick_data) : Prop :=
  NoDup (map fst d)
  /\ (forall k g, In (k, g) d -> g = ticks_at k seen /\ g <> [])
  /\ (forall t, In t seen -> In (DataClient.timestamp t) (map fst d)).

(** The [n] integers from [start] on. *)
Fixpoint z_seq (start : Z) (n : nat) : list Z :=
  match n with
  | O => []
  | S n' => start :: z_seq (start + 1) n'
  end.

(** The integers from [0] up to, not including, [n]. *)
Definition below (n : nat) : list Z := z_seq 0 n.

(** An integer below 2^63 converted to a float by the machine. *)
Definition machine_float (z : Z) : float := of_uint63 (Uint63.of_Z z).

(** [int(x)] computed with shifts, as the checks below run it. *)
Definition int_by_shifts (x : float) : option Z :=
  match Prim2SF x with
  | S754_zero _ => Some 0%Z
  | S754_finite s m e =>
      Some (cond_Zopp s (if (0 <=? e)%Z then Z.shiftl (Zpos m) e
                         else Z.shiftr (Zpos m) (- e)))%Z
  | S754_infinity _ | S754_nan => None
  end.

(** What the symbol functions rest on for a whole-dollar strike [k], with
    [conv] the conversion of integers to floats: [k * 1000] prints to eight
    digits that spell it, [int(k * 1000)] is exact, and so are the division
    back by 1000 and the step to [k + 1], which is above [k]. *)
Definition whole_dollar_exact (conv : Z -> float) (k : Z) : bool :=
  let digits := PyStr.format_08d (k * 1000)%Z in
  match DecimalString.NilEmpty.uint_of_string digits,
        int_by_shifts (conv k * 1000) with
  | Some u, Some z =>
      (Z.of_uint u =? k * 1000)%Z
      && (String.length digits =? 8)%nat
      && (z =? k * 1000)%Z
      && PrimFloat.Leibniz.eqb (conv (k * 1000)%Z / 1000) (conv k)
      && PrimFloat.Leibniz.eqb (conv k + 1) (conv (k + 1)%Z)
      && (conv k <? conv (k + 1)%Z)
  | _, _ => false
  end.

(** The symbols of the whole-dollar strikes from [a] on, [n] of them. *)
Definition put_symbols_from
  (underlying exp_str : string) (a : Z) (n : nat) : list string :=
  map (fun k => OptionSymbols.put_symbol underlying exp_str (k * 1000)%Z)
      (z_seq a n).

(** [breakdown.get(value, 0)] *)
Definition counted (n : option nat) : nat :=
  match n with
  | Some n => n
  | None => 0%nat
  end.

(** Each group of a stream, with the ticks that fail [keep] removed. *)
Definition filter_ticks (keep : Tick.t -> bool) (data : history) : history :=
  map (fun g => (fst g, filter keep (snd g))) data.

End Props.

(* ================================================================= *)
(** * Further closed inputs *)

Module Cases.
Import Examples.
Local Open Scope float_scope.

(** The entry at the close, after a tick without an underlying quote. *)
Definition unquoted_then_entry : history :=
  [(minute 0, [put560 (minute 0) 0.01 None;
               put570 (minute 0) 1.25 (Some 569);
               put567 (minute 0) 0.05 (Some 569)])].

(** [float(str)] restricted to strings of decimal digits; every other
    string is refused. *)
Definition float_of_digits : Builtins := {|
  py_float := fun s =>
    match s, DecimalString.NilEmpty.uint_of_string s with
    | EmptyString, _ => None
    | _, Some u => Some (Py.float_of_Z (Z.of_uint u))
    | _, None => None
    end
|}.

Definition session : PyStr.date := PyStr.mkDate 2025 6 16.

(** The two contracts of [closing_minutes]. *)
Definition closing_symbols : list string :=
  ["SPY250616P00570000"; "SPY250616P00567000"]%string.

(** A service that answers every request with the quotes of
    [closing_minutes], symbols in its own spelling, the minutes out of
    order. *)
Definition closing_minutes_feed : Feeds := {|
  get_range := fun _ _ =>
    Some [Databento.mk (minute 1) "SPY   250616P00570000" 0.9 0.8 1.0 10 12;
          Databento.mk (minute 0) "SPY   250616P00570000" 1.25 1.2 1.3 10 12;
          Databento.mk (minute 1) "SPY   250616P00567000" 0.35 0.3 0.4 7 9;
          Databento.mk (minute 0) "SPY   250616P00567000" 0.05 0.04 0.06 7 9;
          Databento.mk (minute 3) "SPY   250616P00570000" 0.9 0.8 1.0 10 12;
          Databento.mk (minute 2) "SPY   250616P00570000" 1.25 1.2 1.3 10 12;
          Databento.mk (minute 3) "SPY   250616P00567000" 0.35 0.3 0.4 7 9;
          Databento.mk (minute 2) "SPY   250616P00567000" 0.05 0.04 0.06 7 9];
  intraday_close := fun _ _ => Some 569;
  market_close_utc := fun _ => expiry_time
|}.

(** The same quotes, delivered minute by minute. *)
Definition closing_minutes_feed_in_order : Feeds := {|
  get_range := fun _ _ =>
    Some [Databento.mk (minute 0) "SPY   250616P00570000" 1.25 1.2 1.3 10 12;
          Databento.mk (minute 0) "SPY   250616P00567000" 0.05 0.04 0.06 7 9;
          Databento.mk (minute 1) "SPY   250616P00570000" 0.9 0.8 1.0 10 12;
          Databento.mk (minute 1) "SPY   250616P00567000" 0.35 0.3 0.4 7 9;
          Databento.mk (minute 2) "SPY   250616P00570000" 1.25 1.2 1.3 10 12;
          Databento.mk (minute 2) "SPY   250616P00567000" 0.05 0.04 0.06 7 9;
          Databento.mk (minute 3) "SPY   250616P00570000" 0.9 0.8 1.0 10 12;
          Databento.mk (minute 3) "SPY   250616P00567000" 0.35 0.3 0.4 7 9];
  intraday_close := fun _ _ => Some 569;
  market_close_utc := fun _ => expiry_time
|}.

(** The backtester of the examples, accepting a zero width. *)
Definition backtester_zero_width : ZeroDTEBacktester.t :=
  ZeroDTEBacktester.init 0.01 (-1, -0.2) (-1, 0) (0, 4) 0.5 0.5.

(** [closing_minutes], every tick filed under one key. *)
Definition closing_minutes_one_group : history :=
  [(minute 0, flat_map snd closing_minutes)].

End Cases.

Unset Implicit Arguments.

(* ================================================================= *)
(** * Facts about binary64 comparisons *)

Module FloatFacts.
Local Open Scope float_scope.

Lemma SFcompare_antisym (x y : spec_float) (c : comparison) :
  SFcompare x y = Some c -> SFcompare y x = Some (CompOpp c).
Proof.
  destruct x as [sx|sx| |sx mx ex], y as [sy|sy| |sy my ey]; cbn;
    try discriminate;
    try (destruct sx); try (destruct sy); intros [= <-]; cbn;
    try reflexivity.
  all: rewrite (Z.compare_antisym ex ey); destruct (ex ?= ey)%Z; cbn;
    try reflexivity.
  all: change (Pos.compare_cont Eq my mx) with (Pos.compare my mx);
    change (Pos.compare_cont Eq mx my) with (Pos.compare mx my);
    rewrite (Pos.compare_antisym mx my).
  all: destruct (mx ?= my)%positive; reflexivity.
Qed.







Lemma eqb_zero_inv (x : float) :
  (x =? 0) = true -> exists s, Prim2SF x = S754_zero s.
Proof.
  rewrite FloatAxioms.eqb_spec. change (Prim2SF 0) with (S754_zero false).
  unfold SFeqb. destruct (Prim2SF x) as [s|s| |s m e]; cbn;
    try discriminate; [eauto | destruct s; discriminate ..].
Qed.

(** A zero is below any positive finite number. *)
Lemma zero_ltb_positive (x y : float) (m : positive) (e : Z) :
  (x =? 0) = true -> Prim2SF y = S754_finite false m e -> (x <? y) = true.
Proof.
  intros Hx Hy. destruct (eqb_zero_inv _ Hx) as [s Hs].
  now rewrite FloatAxioms.ltb_spec, Hs, Hy.
Qed.

(** [x - x] is a zero, or NaN when [x] is not finite. *)
Lemma abs_sub_diag (a : float) :
  Prim2SF (abs (a - a)) = S754_zero false
  \/ Prim2SF (abs (a - a)) = S754_nan.
Proof.
  rewrite abs_spec, sub_spec. unfold SF64sub.
  destruct (Prim2SF a) as [s|s| |s m e]; cbn.
  - destruct s; auto.
  - destruct s; auto.
  - auto.
  - rewrite Z.sub_diag. cbn. auto.
Qed.

(** No positive bound lies at or below [|a - a|]. *)
Lemma positive_not_leb_abs_sub_diag (lo a : float) :
  (0 <? lo) = true -> (lo <=? abs (a - a)) = false.
Proof.
  rewrite FloatAxioms.ltb_spec, FloatAxioms.leb_spec.
  change (Prim2SF 0) with (S754_zero false).
  destruct (abs_sub_diag a) as [-> | ->];
    destruct (Prim2SF lo) as [s|s| |s m e]; cbn; try discriminate;
    destruct s; cbn; congruence.
Qed.

(** A comparison that holds involves no NaN. *)
Lemma leb_true_numeric (x y : float) :
  (x <=? y) = true -> is_nan x = false /\ is_nan y = false.
Proof.
  unfold is_nan. rewrite FloatAxioms.leb_spec, !FloatAxioms.eqb_spec.
  unfold SFleb, SFeqb.
  destruct (Prim2SF x) as [sx|sx| |sx mx ex],
           (Prim2SF y) as [sy|sy| |sy my ey]; cbn; try discriminate;
    intros _; split;
    try (destruct sx); try (destruct sy); cbn; try reflexivity.
  all: rewrite ?Z.compare_refl; cbn;
    rewrite ?Pos.compare_cont_refl; reflexivity.
Qed.

(** Python's [==] on a number and itself. *)
Lemma eqb_refl_numeric (x : float) : is_nan x = false -> (x =? x) = true.
Proof. unfold is_nan. now destruct (x =? x). Qed.

End FloatFacts.

(* ================================================================= *)
(** * The pricing engine *)

Module PricingEngine.
Import OptionUtils.
Local Open Scope float_scope.

Lemma epsilon_finite :
  exists m e, Prim2SF epsilon = S754_finite false m e.
Proof. vm_compute. eauto. Qed.

(** [max(T, 1e-6)] is never below [1e-6], and never a zero. *)
Lemma max_epsilon_floor (T : float) :
  (Py.max T epsilon <? epsilon) = false /\ (Py.max T epsilon =? 0) = false.
Proof.
  unfold Py.max. destruct (T <? epsilon) eqn:HT.
  - split; reflexivity.
  - split; [exact HT |].
    destruct (T =? 0) eqn:HZ; [| reflexivity].
    destruct epsilon_finite as (m & e & He).
    rewrite (FloatFacts.zero_ltb_positive T epsilon m e HZ He) in HT.
    discriminate.
Qed.

(** The price difference handed to the root-finder: the division [S / K]
    comes first and raises on a zero strike; otherwise, for a call or a put,
    it is the Black-Scholes price at that volatility less the quote. *)
Lemma option_price_diff_cases
    (N : Numerics) (P S K T r : float) (option_type : string) (sigma : float) :
  ((K =? 0) = true ->
   option_price_diff P S K T r option_type sigma
   = Raise Py.ZeroDivisionError)
  /\ ((K =? 0) = false ->
      option_type = "call"%string \/ option_type = "put"%string ->
      option_price_diff P S K T r option_type sigma
      = Ok (Spec.black_scholes_price S K T r option_type sigma - P)).
Proof.
  unfold option_price_diff, Py.truediv. split; intros ->; cbn [Py.bind].
  - reflexivity.
  - intros [-> | ->]; reflexivity.
Qed.

(** C4.  Implied-volatility inversion.  With [I] the intrinsic value
    ([max(0, S - K)] for a call, [max(0, K - S)] for a put): a price
    [P <= I + 1e-6] gives exactly [0.0], whatever the root-finder is, so it
    is not consulted; any other price gives what [brentq] finds on
    [[1e-6, 5.0]] for [option_price_diff], and when [brentq] reports
    [ValueError], as SciPy does on an interval that brackets no root, the
    function returns [None]: it does not raise.  The function whose root is
    sought is the Black-Scholes price of the call or put at the volatility
    tried, less [P]; on a strike of zero its division [S / K] raises
    [ZeroDivisionError] instead, so that neither end of the interval has a
    value. *)
Theorem implied_volatility_inversion
    (N : Numerics) (P S K T r : float) (option_type : string) :
  intrinsic_value S K "call" = Py.max 0 (S - K)
  /\ intrinsic_value S K "put" = Py.max 0 (K - S)
  /\ ((P <=? intrinsic_value S K option_type + 1e-6) = true ->
      calculate_implied_volatility P S K T r option_type = Ok (Some 0))
  /\ ((P <=? intrinsic_value S K option_type + 1e-6) = false ->
      (forall root,
          brentq (option_price_diff P S K T r option_type) 1e-6 5 = Ok root ->
          calculate_implied_volatility P S K T r option_type
          = Ok (Some root))
      /\ (brentq (option_price_diff P S K T r option_type) 1e-6 5
          = Raise Py.ValueError ->
          calculate_implied_volatility P S K T r option_type = Ok None)
      /\ (Spec.brentq_rejects_no_bracket N ->
          Spec.no_bracket (option_price_diff P S K T r option_type) 1e-6 5 ->
          calculate_implied_volatility P S K T r option_type = Ok None))
  /\ (forall sigma,
         (K =? 0) = false ->
         option_type = "call"%string \/ option_type = "put"%string ->
         option_price_diff P S K T r option_type sigma
         = Ok (Spec.black_scholes_price S K T r option_type sigma - P))
  /\ (forall sigma,
         (K =? 0) = true ->
         option_price_diff P S K T r option_type sigma
         = Raise Py.ZeroDivisionError)
  /\ (Spec.no_bracket (option_price_diff P S K T r option_type) 1e-6 5 ->
      (K =? 0) = false).
Proof.
  split; [reflexivity |]. split; [reflexivity |].
  split; [| split; [| split; [| split]]].
  - unfold calculate_implied_volatility, epsilon. intros ->. reflexivity.
  - unfold calculate_implied_volatility, sigma_lower, sigma_upper, epsilon.
    intros ->. repeat split.
    + intros root ->. reflexivity.
    + intros ->. reflexivity.
    + intros Hbrent Hno. rewrite (Hbrent _ _ _ Hno). reflexivity.
  - intros sigma. apply option_price_diff_cases.
  - intros sigma. apply option_price_diff_cases.
  - intros (fa & _ & Ha & _). destruct (K =? 0) eqn:HK; [| reflexivity].
    rewrite (proj1 (option_price_diff_cases N P S K T r option_type 1e-6) HK)
      in Ha.
    discriminate.
Qed.

(** C4 on three closed inputs: a put quoted at its intrinsic value has
    volatility [0.0]; a put with strike 100 quoted at 1000, above any
    Black-Scholes price, has a price difference that is negative at both
    ends of the interval, no bracket, and volatility [None]; and on a strike
    of zero the price difference raises. *)
Lemma implied_volatility_inversion_witness :
  calculate_implied_volatility (N := Examples.flat_numerics)
    0 100 100 0.02 0.01 "put" = Ok (Some 0)
  /\ calculate_implied_volatility (N := Examples.flat_numerics)
       1000 100 100 0.02 0.01 "put" = Ok None
  /\ option_price_diff (N := Examples.flat_numerics)
       1 100 0 0.02 0.01 "put" 1e-6 = Raise Py.ZeroDivisionError.
Proof.
  split; [| split].
  - destruct (implied_volatility_inversion Examples.flat_numerics
                0 100 100 0.02 0.01 "put") as (_ & _ & H & _).
    apply H. reflexivity.
  - destruct (implied_volatility_inversion Examples.flat_numerics
                1000 100 100 0.02 0.01 "put") as (_ & _ & _ & H & _).
    apply H.
    + reflexivity.
    + intros f a b (fa & fb & Ha & Hb & Hs).
      unfold brentq, Examples.flat_numerics, Py.bind.
      rewrite Ha, Hb, Hs. reflexivity.
    + exists (-1000), (-1000). repeat split.
  - destruct (implied_volatility_inversion Examples.flat_numerics
                1 100 0 0.02 0.01 "put") as (_ & _ & _ & _ & _ & H & _).
    apply H. reflexivity.
Defined.

(** C5.  Time to expiry is [max(T, 1e-6)]: never below [1e-6], never zero.
    When it equals [1e-6], [calculate_delta] returns the intrinsic
    indicator, whatever the numerical libraries are (implied volatility is
    not computed): for a put [-1.0] if the underlying is below the strike,
    else [0.0]; for a call [1.0] if the underlying is above the strike, else
    [0.0]. *)
Theorem delta_at_time_floor
    (N : Numerics) (option_price strike_price : float)
    (expiry_timestamp : timestamp) (underlying_price risk_free_rate : float)
    (current_timestamp : timestamp) :
  let T := time_to_expiry expiry_timestamp current_timestamp in
  T = Py.max (Py.total_seconds (expiry_timestamp - current_timestamp)
              / (365 * 24 * 60 * 60)) 1e-6
  /\ (T <? 1e-6) = false
  /\ (T =? 0) = false
  /\ ((T =? 1e-6) = true ->
      calculate_delta option_price strike_price expiry_timestamp
                      underlying_price risk_free_rate "put" current_timestamp
      = Ok (Some (if underlying_price <? strike_price then -1 else 0))
      /\ calculate_delta option_price strike_price expiry_timestamp
                         underlying_price risk_free_rate "call"
                         current_timestamp
         = Ok (Some (if strike_price <? underlying_price then 1 else 0))).
Proof.
  cbv zeta. split; [reflexivity |].
  split; [apply max_epsilon_floor |]. split; [apply max_epsilon_floor |].
  intros HT. unfold calculate_delta, epsilon. rewrite HT. split; reflexivity.
Qed.

(** C5 at the closing tick of the session: the 570 put with the underlying
    at 569 has delta exactly [-1.0]. *)
Lemma delta_at_time_floor_witness :
  calculate_delta (N := Examples.flat_numerics)
    1.25 570 Examples.expiry_time 569 0.01 "put" (Examples.minute 0)
  = Ok (Some (-1)).
Proof.
  apply (delta_at_time_floor Examples.flat_numerics
           1.25 570 Examples.expiry_time 569 0.01 (Examples.minute 0)).
  reflexivity.
Defined.







End PricingEngine.

(* ================================================================= *)
(** * The spread finder *)

Module SpreadFinder.
Import SpreadSelector.
Local Open Scope float_scope.

(** The [if]/[elif] of the loop body, case by case. *)
Lemma assign_leg_cases
    (self : t) (short_put long_put : option OptionLeg.t) (tick : Tick.t)
    (u d : float) :
  let leg := _create_option_leg (Tick.option_symbol tick)
               (Tick.strike_price tick) u d (Tick.midpoint tick)
               (Tick.timestamp tick) (Tick.expiry tick) in
  (short_put = None /\ in_short_band self d = true
   /\ assign_leg self short_put long_put tick u d = (Some leg, long_put))
  \/ ((short_put <> None \/ in_short_band self d = false)
      /\ in_long_band self d = true
      /\ assign_leg self short_put long_put tick u d = (short_put, Some leg))
  \/ ((short_put <> None \/ in_short_band self d = false)
      /\ in_long_band self d = false
      /\ assign_leg self short_put long_put tick u d = (short_put, long_put)).
Proof.
  cbv zeta. unfold assign_leg.
  destruct short_put as [s|]; cbn [is_None andb].
  - destruct (in_long_band self d); [right; left | right; right];
      repeat split; auto; left; discriminate.
  - destruct (in_short_band self d) eqn:Hs; [left; auto |].
    destruct (in_long_band self d); [right; left | right; right]; auto.
Qed.

Lemma leg_of_created_tick (tick : Tick.t) (u d : float) :
  Spec.leg_of_tick
    (_create_option_leg (Tick.option_symbol tick) (Tick.strike_price tick)
       u d (Tick.midpoint tick) (Tick.timestamp tick) (Tick.expiry tick))
    tick.
Proof. repeat split. Qed.

(** A slot filled by [assign_leg] holds a leg of this tick or what it held. *)
Lemma assign_leg_from
    (Q : Tick.t -> Prop) (self : t) (short_put long_put : option OptionLeg.t)
    (tick : Tick.t) (u d : float) (s l : option OptionLeg.t) :
  Q tick -> Spec.slot_from Q short_put -> Spec.slot_from Q long_put ->
  assign_leg self short_put long_put tick u d = (s, l) ->
  Spec.slot_from Q s /\ Spec.slot_from Q l.
Proof.
  intros HQ Hs Hl.
  assert (Hnew : forall o leg,
             o = Some (_create_option_leg (Tick.option_symbol tick)
                         (Tick.strike_price tick) u d (Tick.midpoint tick)
                         (Tick.timestamp tick) (Tick.expiry tick)) ->
             o = Some leg -> Spec.leg_from Q leg).
  { intros o leg -> [= <-]. exists tick. split; [exact HQ |].
    apply leg_of_created_tick. }
  destruct (assign_leg_cases self short_put long_put tick u d)
    as [(_ & _ & ->) | [(_ & _ & ->) | (_ & _ & ->)]];
    intros [= <- <-]; split; auto; intros leg; now apply Hnew.
Qed.

(** What [validate_spread] returns. *)
Lemma validate_spread_Found
    (self : t) (short_put long_put : option OptionLeg.t) (now : timestamp)
    (spread : SpreadLegs.t) :
  validate_spread self short_put long_put now = Found spread ->
  short_put = Some (SpreadLegs.short_leg spread)
  /\ long_put = Some (SpreadLegs.long_leg spread)
  /\ SpreadLegs.spread_width spread
     = abs (OptionLeg.strike_price (SpreadLegs.short_leg spread)
            - OptionLeg.strike_price (SpreadLegs.long_leg spread))
  /\ in_width_range self (SpreadLegs.spread_width spread) = true
  /\ SpreadLegs.credit_received spread
     = OptionLeg.option_price (SpreadLegs.short_leg spread)
       - OptionLeg.option_price (SpreadLegs.long_leg spread)
  /\ SpreadLegs.entry_timestamp spread = now.
Proof.
  unfold validate_spread.
  destruct short_put as [s|], long_put as [l|]; try discriminate.
  destruct (in_width_range self _) eqn:Hw; cbn [negb]; try discriminate.
  intros [= <-]. cbn. auto 10.
Qed.

Lemma validate_spread_Scanning
    (Q : Tick.t -> Prop) (self : t) (short_put long_put : option OptionLeg.t)
    (now : timestamp) (s l : option OptionLeg.t) :
  Spec.slot_from Q short_put -> Spec.slot_from Q long_put ->
  validate_spread self short_put long_put now = Scanning s l ->
  Spec.slot_from Q s /\ Spec.slot_from Q l.
Proof.
  intros Hs Hl. unfold validate_spread.
  destruct short_put as [a|], long_put as [b|];
    try (intros [= <- <-]; now split).
  destruct (negb _); [| discriminate].
  intros [= <- <-]. split; intros leg; discriminate.
Qed.

Lemma validate_spread_from
  (Q : Tick.t -> Prop) (self : t) (short_put long_put : option OptionLeg.t)
  (tick : Tick.t) :
  Q tick -> Spec.slot_from Q short_put -> Spec.slot_from Q long_put ->
  Spec.scan_from Q self
    (validate_spread self short_put long_put (Tick.timestamp tick)).
Proof.
  intros HQ Hs Hl.
  destruct (validate_spread self short_put long_put (Tick.timestamp tick))
    as [s l | spread] eqn:Hv; cbn [Spec.scan_from].
  - exact (validate_spread_Scanning Q self _ _ _ _ _ Hs Hl Hv).
  - destruct (validate_spread_Found self _ _ _ _ Hv)
      as (Es & El & _ & _ & _ & Et).
    repeat split.
    + now apply Hs.
    + now apply Hl.
    + exists tick. now split.
    + rewrite Et, <- Es, <- El. exact Hv.
Qed.

(** One tick keeps the slots within the ticks seen. *)
Lemma scan_tick_from
  (N : Numerics) (Q : Tick.t -> Prop) (self : t) (option_type : string)
  (short_put long_put : option OptionLeg.t) (tick : Tick.t) (r : scan) :
  Q tick -> Spec.slot_from Q short_put -> Spec.slot_from Q long_put ->
  scan_tick self option_type short_put long_put tick = Ok r ->
  Spec.scan_from Q self r.
Proof.
  intros HQ Hs Hl. unfold scan_tick.
  destruct (Tick.underlying_close tick) as [u|];
    [| intros [= <-]; now split].
  destruct (OptionUtils.calculate_delta _ _ _ _ _ _ _) as [[d|]|]; cbn;
    [| intros [= <-]; now split | discriminate].
  destruct (assign_leg self short_put long_put tick u d) as [s l] eqn:Ha.
  intros [= <-].
  destruct (assign_leg_from Q self _ _ _ _ _ _ _ HQ Hs Hl Ha).
  now apply validate_spread_from.
Qed.

Lemma scan_ticks_from
  (N : Numerics) (Q : Tick.t -> Prop) (self : t) (option_type : string)
  (ticks : list Tick.t) :
  (forall tick, In tick ticks -> Q tick) ->
  forall (short_put long_put : option OptionLeg.t) (r : scan),
    Spec.slot_from Q short_put -> Spec.slot_from Q long_put ->
    scan_ticks self option_type short_put long_put ticks = Ok r ->
    Spec.scan_from Q self r.
Proof.
  induction ticks as [| tick rest IH]; intros HQ s l r Hs Hl; cbn.
  - intros [= <-]. now split.
  - destruct (scan_tick self option_type s l tick) as [r1|] eqn:H1; cbn;
      [| discriminate].
    pose proof (scan_tick_from N Q self option_type s l tick r1
                  (HQ tick (or_introl eq_refl)) Hs Hl H1) as Hr1.
    destruct r1 as [s1 l1 | spread].
    + destruct Hr1. apply IH; auto. intros t Ht. apply HQ. now right.
    + intros [= <-]. exact Hr1.
Qed.

Lemma scan_history_from
  (N : Numerics) (Q : Tick.t -> Prop) (self : t) (option_type : string)
  (data : history) :
  (forall ts ticks tick, In (ts, ticks) data -> In tick ticks -> Q tick) ->
  forall (short_put long_put : option OptionLeg.t) (spread : SpreadLegs.t),
    Spec.slot_from Q short_put -> Spec.slot_from Q long_put ->
    scan_history self option_type short_put long_put data = Ok (Some spread) ->
    Spec.scan_from Q self (Found spread).
Proof.
  induction data as [| [ts ticks] rest IH]; intros HQ s l spread Hs Hl; cbn.
  - discriminate.
  - destruct (scan_ticks self option_type s l ticks) as [r1|] eqn:H1; cbn;
      [| discriminate].
    pose proof (scan_ticks_from N Q self option_type ticks
                  (fun t Ht => HQ ts ticks t (or_introl eq_refl) Ht)
                  s l r1 Hs Hl H1) as Hr1.
    destruct r1 as [s1 l1 | sp].
    + destruct Hr1. apply IH; auto.
      intros ts' ticks' t Hin. apply (HQ ts' ticks' t). now right.
    + intros [= <-]. exact Hr1.
Qed.

(** What [find_spread] returns was built from two ticks of its input, at the
    timestamp of a tick of its input, and passed [validate_spread]. *)
Lemma find_spread_from
  (N : Numerics) (self : t) (data : history) (option_type : string)
  (spread : SpreadLegs.t) :
  find_spread self data option_type = Ok (Some spread) ->
  Spec.scan_from (Spec.tick_in data) self (Found spread).
Proof.
  intros H.
  apply (scan_history_from N (Spec.tick_in data) self option_type data)
    with (short_put := None) (long_put := None).
  - intros ts ticks tick H1 H2. now exists ts, ticks.
  - intros leg; discriminate.
  - intros leg; discriminate.
  - exact H.
Qed.

(** C2, as amended.  Every spread that [find_spread] returns has
    [spread_width == |short strike - long strike|] with the width inside the
    configured range, both ends included.  When the lower end of the range is
    positive the two legs have different strikes, hence different option
    symbols on a stream whose symbols determine the strike. *)
Theorem returned_spread_width
  (N : Numerics) (self : t) (data : history) (option_type : string)
  (spread : SpreadLegs.t) :
  find_spread self data option_type = Ok (Some spread) ->
  let short := SpreadLegs.short_leg spread in
  let long := SpreadLegs.long_leg spread in
  let width := SpreadLegs.spread_width spread in
  width = abs (OptionLeg.strike_price short - OptionLeg.strike_price long)
  /\ (width =? abs (OptionLeg.strike_price short
                    - OptionLeg.strike_price long)) = true
  /\ Py.between (fst (spread_width_range self)) width
                (snd (spread_width_range self)) = true
  /\ ((0 <? fst (spread_width_range self)) = true ->
      OptionLeg.strike_price short <> OptionLeg.strike_price long
      /\ (Spec.symbol_fixes_strike data ->
          OptionLeg.option_symbol short <> OptionLeg.option_symbol long)).
Proof.
  intros Hfind. cbv zeta.
  destruct (find_spread_from N self data option_type spread Hfind)
    as (Hshort & Hlong & _ & Hvalid).
  destruct (validate_spread_Found self _ _ _ _ Hvalid)
    as (_ & _ & Hwidth & Hrange & _ & _).
  unfold in_width_range in Hrange.
  assert (Hlow : (fst (spread_width_range self)
                  <=? SpreadLegs.spread_width spread) = true).
  { unfold Py.between in Hrange. now apply andb_true_iff in Hrange. }
  split; [exact Hwidth |]. split.
  { rewrite <- Hwidth. apply FloatFacts.eqb_refl_numeric.
    apply (FloatFacts.leb_true_numeric _ _ Hlow). }
  split; [exact Hrange |].
  intros Hpos.
  assert (Hstrike : OptionLeg.strike_price (SpreadLegs.short_leg spread)
                    <> OptionLeg.strike_price (SpreadLegs.long_leg spread)).
  { intros E. rewrite Hwidth, E in Hlow.
    rewrite (FloatFacts.positive_not_leb_abs_sub_diag _ _ Hpos) in Hlow.
    discriminate. }
  split; [exact Hstrike |].
  intros Hfix Esym. apply Hstrike.
  destruct Hshort as (t1 & Q1 & S1 & K1 & _).
  destruct Hlong as (t2 & Q2 & S2 & K2 & _).
  rewrite K1, K2. apply (Hfix t1 t2 Q1 Q2). congruence.
Qed.

(** C2 as stated fails: with a width range that admits [0], the same
    contract quoted at two successive minutes is returned as both legs. *)
Lemma same_contract_on_both_legs :
  (forall N : Numerics,
      find_spread (N := N) Examples.selector_zero_width
                  Examples.same_contract_twice "put"
      = Ok (Some Examples.spread_570_570))
  /\ OptionLeg.option_symbol (SpreadLegs.short_leg Examples.spread_570_570)
     = OptionLeg.option_symbol (SpreadLegs.long_leg Examples.spread_570_570)
  /\ in_width_range Examples.selector_zero_width
       (SpreadLegs.spread_width Examples.spread_570_570) = true.
Proof.
  split; [intros N; reflexivity |]. split; reflexivity.
Qed.

Lemma closing_minutes_symbols :
  Spec.symbol_fixes_strike Examples.closing_minutes.
Proof.
  intros t1 t2 (ts1 & l1 & G1 & I1) (ts2 & l2 & G2 & I2) E.
  unfold Examples.closing_minutes, Examples.entry_group, Examples.exit_group
    in G1, G2.
  cbn [In] in G1, G2.
  repeat match goal with
         | H : _ \/ _ |- _ => destruct H
         | H : False |- _ => destruct H
         | H : (_, _) = (_, _) |- _ => injection H as <- <-
         end;
    cbn [In] in I1, I2;
    repeat match goal with
           | H : _ \/ _ |- _ => destruct H
           | H : False |- _ => destruct H
           end;
    subst; first [reflexivity | discriminate E].
Qed.

(** C2, as amended, on the entry at the close: width 3 inside [[2, 4]],
    two different contracts. *)
Lemma returned_spread_width_witness :
  Py.between 2 (SpreadLegs.spread_width Examples.spread_570_567) 4 = true
  /\ OptionLeg.option_symbol (SpreadLegs.short_leg Examples.spread_570_567)
     <> OptionLeg.option_symbol (SpreadLegs.long_leg Examples.spread_570_567).
Proof.
  pose proof (returned_spread_width Examples.flat_numerics Examples.selector
                Examples.closing_minutes "put" Examples.spread_570_567
                eq_refl) as H.
  cbv zeta in H. destruct H as (_ & _ & Hrange & Hpos).
  split; [exact Hrange |].
  apply (Hpos eq_refl). exact closing_minutes_symbols.
Defined.

(** C3.  When a tick leaves both slots filled and the width
    [|short strike - long strike|] is outside the configured range, both
    candidates are dropped, the short one too, and the scan goes on with the
    next tick from the empty state: what it returns is what a fresh
    [find_spread] returns on the ticks that remain, so nothing of either
    dropped leg reaches a later pairing. *)
Theorem full_reset_on_width_mismatch
  (N : Numerics) (self : t) (option_type : string)
  (short_put long_put : option OptionLeg.t) (tick : Tick.t) (u d : float)
  (short long : OptionLeg.t) (ts : timestamp) (rest : list Tick.t)
  (later : history) :
  Tick.underlying_close tick = Some u ->
  OptionUtils.calculate_delta (Tick.midpoint tick) (Tick.strike_price tick)
    (Tick.expiry tick) u (risk_free_rate self) option_type
    (Tick.timestamp tick) = Ok (Some d) ->
  assign_leg self short_put long_put tick u d = (Some short, Some long) ->
  in_width_range self
    (abs (OptionLeg.strike_price short - OptionLeg.strike_price long))
  = false ->
  validate_spread self (Some short) (Some long) (Tick.timestamp tick)
  = Scanning None None
  /\ scan_tick self option_type short_put long_put tick
     = Ok (Scanning None None)
  /\ scan_ticks self option_type short_put long_put (tick :: rest)
     = scan_ticks self option_type None None rest
  /\ scan_history self option_type short_put long_put
       ((ts, tick :: rest) :: later)
     = find_spread self ((ts, rest) :: later) option_type.
Proof.
  intros Hu Hd Ha Hw.
  assert (Hv : validate_spread self (Some short) (Some long)
                 (Tick.timestamp tick) = Scanning None None).
  { unfold validate_spread. now rewrite Hw. }
  assert (Ht : scan_tick self option_type short_put long_put tick
               = Ok (Scanning None None)).
  { unfold scan_tick. rewrite Hu, Hd. cbn. now rewrite Ha, Hv. }
  assert (Hts : scan_ticks self option_type short_put long_put (tick :: rest)
                = scan_ticks self option_type None None rest).
  { cbn [scan_ticks]. now rewrite Ht. }
  repeat split; try assumption.
  unfold find_spread. cbn [scan_history]. now rewrite Hts.
Qed.

(** C3 on the 570 put followed by the 560 put (width 10, range [[2, 4]]):
    the 570 candidate is dropped with the 560 one. *)
Lemma full_reset_on_width_mismatch_witness :
  scan_tick (N := Examples.flat_numerics) Examples.selector "put"
            (Some Examples.leg570) None
            (Examples.put560 (Examples.minute 0) 0.01 (Some 569))
  = Ok (Scanning None None).
Proof.
  apply (full_reset_on_width_mismatch Examples.flat_numerics Examples.selector
           "put" (Some Examples.leg570) None
           (Examples.put560 (Examples.minute 0) 0.01 (Some 569)) 569 0
           Examples.leg570 Examples.leg560 (Examples.minute 0)
           [Examples.put570 (Examples.minute 0) 1.25 (Some 569);
            Examples.put567 (Examples.minute 0) 0.05 (Some 569)] []);
    reflexivity.
Defined.

(** C6 as stated fails: with the short slot taken, a tick whose delta lies in
    both bands becomes the long leg, here the 567 put at delta [-1.0]. *)
Lemma both_bands_tick_taken_as_long :
  in_short_band Examples.selector (-1) = true
  /\ in_long_band Examples.selector (-1) = true
  /\ assign_leg Examples.selector (Some Examples.deep_leg570) None
                (Examples.put567 (Examples.minute 0) 7.5 (Some 560)) 560 (-1)
     = (Some Examples.deep_leg570, Some Examples.deep_leg567)
  /\ (forall N : Numerics,
         find_spread (N := N) Examples.selector Examples.both_in_the_money
                     "put"
         = Ok (Some Examples.deep_spread))
  /\ OptionLeg.delta (SpreadLegs.long_leg Examples.deep_spread) = -1.
Proof.
  repeat split; intros; reflexivity.
Qed.

(** C6, as amended.  A tick whose delta lies in both bands fills the short
    slot when that slot is empty, and becomes the long leg, replacing any
    earlier long candidate, when the short slot is taken. *)
Theorem both_bands_assignment
  (self : t) (short_put long_put : option OptionLeg.t) (tick : Tick.t)
  (u d : float) :
  in_short_band self d = true ->
  in_long_band self d = true ->
  let leg := _create_option_leg (Tick.option_symbol tick)
               (Tick.strike_price tick) u d (Tick.midpoint tick)
               (Tick.timestamp tick) (Tick.expiry tick) in
  (short_put = None ->
   assign_leg self short_put long_put tick u d = (Some leg, long_put))
  /\ (short_put <> None ->
      assign_leg self short_put long_put tick u d = (short_put, Some leg)).
Proof.
  intros Hs Hl. cbv zeta. unfold assign_leg. rewrite Hs, Hl.
  split.
  - intros ->. reflexivity.
  - destruct short_put; [reflexivity | congruence].
Qed.

(** C6, as amended, on the two deep puts: the first fills the short slot,
    the second the long one. *)
Lemma both_bands_assignment_witness :
  assign_leg Examples.selector None None
             (Examples.put570 (Examples.minute 0) 10.5 (Some 560)) 560 (-1)
  = (Some Examples.deep_leg570, None)
  /\ assign_leg Examples.selector (Some Examples.deep_leg570) None
                (Examples.put567 (Examples.minute 0) 7.5 (Some 560)) 560 (-1)
     = (Some Examples.deep_leg570, Some Examples.deep_leg567).
Proof.
  split.
  - apply (both_bands_assignment Examples.selector None None
             (Examples.put570 (Examples.minute 0) 10.5 (Some 560)) 560 (-1)
             eq_refl eq_refl).
    reflexivity.
  - apply (both_bands_assignment Examples.selector
             (Some Examples.deep_leg570) None
             (Examples.put567 (Examples.minute 0) 7.5 (Some 560)) 560 (-1)
             eq_refl eq_refl).
    discriminate.
Defined.

End SpreadFinder.

(* ================================================================= *)
(** * The trade lifecycle simulator *)

Module Simulator.
Import SpreadSelector ZeroDTEBacktester.
Local Open Scope float_scope.





(** A timestamp without metrics is passed over: no exit condition is
    evaluated, nothing is raised, and monitoring goes on with the next one. *)
Lemma monitor_skip
  (N : Numerics) (self : ZeroDTEBacktester.t) (spread : SpreadLegs.t)
  (tpp dsl : float) (ts : timestamp) (current_data : list Tick.t)
  (rest : history) :
  calculate_current_spread_metrics (spread_selector self) spread current_data
                                   (ZeroDTEBacktester.risk_free_rate self)
  = Ok None ->
  monitor self spread tpp dsl ((ts, current_data) :: rest)
  = monitor self spread tpp dsl rest.
Proof.
  intros H. cbn [monitor]. rewrite H. cbn.
  now destruct (ts <=? SpreadLegs.entry_timestamp spread)%Z.
Qed.

(** Truthiness decides before anything else is computed. *)
Lemma metrics_not_all_truthy
  (N : Numerics) (self : SpreadSelector.t) (spread : SpreadLegs.t)
  (current_data : list Tick.t) (rfr : float) :
  all_truthy (locate_prices spread current_data) = false ->
  calculate_current_spread_metrics self spread current_data rfr = Ok None.
Proof.
  intros H. unfold calculate_current_spread_metrics. now rewrite H.
Qed.






(** C10.  When, after the scan of a timestamp's ticks, the short leg's
    mid-price, the long leg's mid-price or the selected underlying price is a
    float equal to zero, [calculate_current_spread_metrics] returns [None]
    (the test is [all([...])], truthiness, not presence), and the monitoring
    loop passes to the next timestamp: no exit fires there. *)
Theorem zero_price_never_exits
  (N : Numerics) (bt : ZeroDTEBacktester.t) (spread : SpreadLegs.t)
  (current_data : list Tick.t) (z : float) :
  (z =? 0) = true ->
  current_short_price (locate_prices spread current_data) = Some z
  \/ current_long_price (locate_prices spread current_data) = Some z
  \/ current_underlying_price (locate_prices spread current_data) = Some z ->
  calculate_current_spread_metrics (spread_selector bt) spread current_data
                                   (ZeroDTEBacktester.risk_free_rate bt)
  = Ok None
  /\ forall tpp dsl ts rest,
      monitor bt spread tpp dsl ((ts, current_data) :: rest)
      = monitor bt spread tpp dsl rest.
Proof.
  intros Hz Hwhich.
  assert (Hnone : calculate_current_spread_metrics (spread_selector bt) spread
                    current_data (ZeroDTEBacktester.risk_free_rate bt)
                  = Ok None).
  { apply metrics_not_all_truthy. unfold all_truthy.
    destruct Hwhich as [-> | [-> | ->]]; cbn; rewrite Hz; cbn.
    - reflexivity.
    - now rewrite andb_false_r.
    - apply andb_false_r. }
  split; [exact Hnone |].
  intros tpp dsl ts rest. now apply monitor_skip.
Qed.

(** C10 on a group that quotes the long leg at a mid-price of [0.0]. *)
Lemma zero_price_never_exits_witness :
  monitor (N := Examples.flat_numerics) Examples.backtester
          Examples.spread_570_567 0.6 0.5
          [(Examples.minute 1, Examples.long_mid_zero); Examples.exit_group 3]
  = monitor (N := Examples.flat_numerics) Examples.backtester
            Examples.spread_570_567 0.6 0.5 [Examples.exit_group 3].
Proof.
  apply (zero_price_never_exits Examples.flat_numerics Examples.backtester
           Examples.spread_570_567 Examples.long_mid_zero 0 eq_refl).
  right; left. reflexivity.
Defined.

(** The three exit tests in the order of the code: the first that holds
    names the status, and the later ones have no say. *)
Lemma exit_conditions_in_order
  (spread : SpreadLegs.t) (m : Metrics.t) (tpp dsl : float) :
  option_map exit_status (_check_exit_conditions spread m tpp dsl)
  = if Metrics.current_spread_price m <=? tpp then Some target_profit
    else if dsl <=? Metrics.current_total_delta m then Some delta_stop_loss
    else if Metrics.current_underlying_price m
            <=? OptionLeg.strike_price (SpreadLegs.short_leg spread)
         then Some assignment_risk
    else None.
Proof.
  unfold _check_exit_conditions.
  destruct (Metrics.current_spread_price m <=? tpp); [reflexivity |].
  destruct (dsl <=? Metrics.current_total_delta m); [reflexivity |].
  now destruct (Metrics.current_underlying_price m
                <=? OptionLeg.strike_price (SpreadLegs.short_leg spread)).
Qed.

(** Timestamps that produce no exit are passed; the loop goes on behind. *)
Lemma monitor_app
  (N : Numerics) (self : ZeroDTEBacktester.t) (spread : SpreadLegs.t)
  (tpp dsl : float) (before after : history) :
  monitor self spread tpp dsl before = Ok None ->
  monitor self spread tpp dsl (before ++ after)
  = monitor self spread tpp dsl after.
Proof.
  induction before as [| [ts cd] before IH]; [reflexivity |].
  cbn [monitor app].
  destruct (ts <=? SpreadLegs.entry_timestamp spread)%Z; [exact IH |].
  destruct (calculate_current_spread_metrics _ _ _ _) as [[m|]|]; cbn;
    [| exact IH | discriminate].
  destruct (_check_exit_conditions spread m tpp dsl);
    [discriminate | exact IH].
Qed.

(** An exit returned by the loop carries the entry of its spread. *)
Lemma monitor_entry_time
  (N : Numerics) (self : ZeroDTEBacktester.t) (spread : SpreadLegs.t)
  (tpp dsl : float) (data : history) (r : trade_result) :
  monitor self spread tpp dsl data = Ok (Some r) ->
  entry_time r = SpreadLegs.entry_timestamp spread.
Proof.
  induction data as [| [ts cd] data IH]; cbn [monitor]; [discriminate |].
  destruct (ts <=? SpreadLegs.entry_timestamp spread)%Z; [exact IH |].
  destruct (calculate_current_spread_metrics _ _ _ _) as [[m|]|]; cbn;
    [| exact IH | discriminate].
  destruct (_check_exit_conditions spread m tpp dsl); [| exact IH].
  now intros [= <-].
Qed.

(** What [_execute_single_trade] does at the first monitored timestamp
    that has metrics: it closes the trade there when an exit test holds, and
    goes on with the timestamps behind otherwise. *)
Lemma execute_at_first_metrics
  (N : Numerics) (bt : ZeroDTEBacktester.t) (data : history)
  (spread : SpreadLegs.t) (before : history) (ts : timestamp)
  (current_data : list Tick.t) (rest : history) (m : Metrics.t)
  (tpp dsl : float) :
  data = before ++ (ts, current_data) :: rest ->
  monitor bt spread tpp dsl before = Ok None ->
  (SpreadLegs.entry_timestamp spread < ts)%Z ->
  calculate_current_spread_metrics (spread_selector bt) spread current_data
                                   (ZeroDTEBacktester.risk_free_rate bt)
  = Ok (Some m) ->
  monitor bt spread tpp dsl data
  = match _check_exit_conditions spread m tpp dsl with
    | Some e => Ok (Some (close_trade spread e ts))
    | None => monitor bt spread tpp dsl rest
    end.
Proof.
  intros -> Hbefore Hts Hm.
  rewrite (monitor_app N bt spread _ _ before _ Hbefore).
  cbn [monitor]. apply Z.leb_gt in Hts. rewrite Hts, Hm. reflexivity.
Qed.

(** C1.  The exit tests run in the order target profit, delta stop loss,
    assignment risk, and the first that holds decides.  At the first
    monitored timestamp that has metrics: when
    [current_spread_price <= target_profit_price] the trade exits there as
    [target_profit], whatever the other two tests say; when it does not and
    [current_total_delta >= delta_stop_loss], as [delta_stop_loss], whatever
    the third says; when neither holds and the underlying is at or below
    the short strike, as [assignment_risk]; and when none holds there is no
    exit there and monitoring goes on with the next timestamp.  In
    particular, where the target-profit and the delta-stop-loss tests both
    hold, the trade returned by [_execute_single_trade] has status
    [target_profit], not [delta_stop_loss], with the profit
    [(credit - spread price) * 100]. *)
Theorem target_profit_has_priority
  (N : Numerics) (bt : ZeroDTEBacktester.t) (data : history)
  (spread : SpreadLegs.t) (before : history) (ts : timestamp)
  (current_data : list Tick.t) (rest : history) (m : Metrics.t) :
  let target_profit_price :=
    SpreadLegs.credit_received spread * target_profit_percentage bt in
  let stop_loss :=
    SpreadLegs.initial_total_delta spread * delta_stop_loss_multiplier bt in
  let target := Metrics.current_spread_price m <=? target_profit_price in
  let stop := stop_loss <=? Metrics.current_total_delta m in
  let assignment :=
    Metrics.current_underlying_price m
    <=? OptionLeg.strike_price (SpreadLegs.short_leg spread) in
  find_spread (spread_selector bt) data "put" = Ok (Some spread) ->
  data = before ++ (ts, current_data) :: rest ->
  monitor bt spread target_profit_price stop_loss before = Ok None ->
  (SpreadLegs.entry_timestamp spread < ts)%Z ->
  calculate_current_spread_metrics (spread_selector bt) spread current_data
                                   (ZeroDTEBacktester.risk_free_rate bt)
  = Ok (Some m) ->
  (target = true -> Spec.exits_at bt data ts target_profit)
  /\ (target = false -> stop = true ->
      Spec.exits_at bt data ts delta_stop_loss)
  /\ (target = false -> stop = false -> assignment = true ->
      Spec.exits_at bt data ts assignment_risk)
  /\ (target = false -> stop = false -> assignment = false ->
      monitor bt spread target_profit_price stop_loss data
      = monitor bt spread target_profit_price stop_loss rest)
  /\ (target = true -> stop = true ->
      exists r,
        _execute_single_trade bt data = Ok (Some r)
        /\ trade_status r = target_profit
        /\ trade_status r <> delta_stop_loss
        /\ exit_time r = ts
        /\ theoretical_pnl r
           = (SpreadLegs.credit_received spread
              - Metrics.current_spread_price m) * 100).
Proof.
  cbv zeta. intros Hfind Hdata Hbefore Hts Hm.
  pose proof (execute_at_first_metrics N bt data spread before ts
                current_data rest m _ _ Hdata Hbefore Hts Hm) as Hmon.
  assert (Hexit : forall e,
             _check_exit_conditions spread m
               (SpreadLegs.credit_received spread
                * target_profit_percentage bt)
               (SpreadLegs.initial_total_delta spread
                * delta_stop_loss_multiplier bt) = Some e ->
             _execute_single_trade bt data
             = Ok (Some (close_trade spread e ts))).
  { intros e He. unfold _execute_single_trade. rewrite Hfind. cbn [Py.bind].
    rewrite Hmon, He. reflexivity. }
  unfold _check_exit_conditions in Hexit, Hmon.
  repeat split.
  - intros Htp. rewrite Htp in Hexit. eexists. split; [now apply Hexit |].
    split; reflexivity.
  - intros Htp Hsl. rewrite Htp, Hsl in Hexit.
    eexists. split; [now apply Hexit |]. split; reflexivity.
  - intros Htp Hsl Has. rewrite Htp, Hsl, Has in Hexit.
    eexists. split; [now apply Hexit |]. split; reflexivity.
  - intros Htp Hsl Has. now rewrite Htp, Hsl, Has in Hmon.
  - intros Htp _. rewrite Htp in Hexit. eexists.
    split; [now apply Hexit |]. cbn. repeat split. discriminate.
Qed.

(** C1 on the trade of [closing_minutes], one minute after entry: spread at
    0.55 under the target 0.60, total delta 1 over the stop 0.5 (and the
    underlying under the short strike); the trade exits as [target_profit]. *)
Lemma target_profit_has_priority_witness :
  exists r,
    _execute_single_trade (N := Examples.flat_numerics) Examples.backtester
                          Examples.closing_minutes = Ok (Some r)
    /\ trade_status r = target_profit
    /\ trade_status r <> delta_stop_loss
    /\ exit_time r = Examples.minute 1
    /\ theoretical_pnl r = (1.25 - 0.05 - (0.9 - 0.35)) * 100.
Proof.
  apply (target_profit_has_priority Examples.flat_numerics Examples.backtester
           Examples.closing_minutes Examples.spread_570_567
           [Examples.entry_group 0] (Examples.minute 1)
           (snd (Examples.exit_group 1))
           [Examples.entry_group 2; Examples.exit_group 3]
           Examples.exit_metrics);
    reflexivity.
Defined.

End Simulator.

(* ================================================================= *)
(** * The backtest loop *)

Module Orchestrator.
Import ZeroDTEBacktester.
Local Open Scope Z_scope.

(** The sub-stream of an iteration holds only timestamps at or after the
    cursor. *)
Lemma filter_from_In
  (data : history) (cursor ts : timestamp) (ticks : list Tick.t) :
  In (ts, ticks) (filter_from data cursor) ->
  In (ts, ticks) data /\ cursor <= ts.
Proof.
  unfold filter_from. rewrite filter_In. cbn. intros [H1 H2].
  split; [exact H1 | now apply Z.leb_le].
Qed.

(** A spread found on grouped ticks from the cursor on is entered at or
    after the cursor. *)
Lemma find_spread_entry_after_cursor
  (N : Numerics) (self : SpreadSelector.t) (data : history)
  (cursor : timestamp) (option_type : string) (spread : SpreadLegs.t) :
  Spec.well_grouped data ->
  SpreadSelector.find_spread self (filter_from data cursor) option_type
  = Ok (Some spread) ->
  cursor <= SpreadLegs.entry_timestamp spread.
Proof.
  intros Hgrouped Hfind.
  destruct (SpreadFinder.find_spread_from N self _ _ _ Hfind)
    as (_ & _ & (tick & (ts & ticks & Hin & Htick) & ->) & _).
  destruct (filter_from_In data cursor ts ticks Hin) as [Hdata Hle].
  now rewrite (Hgrouped ts ticks tick Hdata Htick).
Qed.

(** The entry time of a trade is the entry timestamp of the spread found. *)
Lemma execute_single_trade_entry
  (N : Numerics) (self : ZeroDTEBacktester.t) (filtered_data : history)
  (r : trade_result) :
  _execute_single_trade self filtered_data = Ok (Some r) ->
  exists spread,
    SpreadSelector.find_spread (spread_selector self) filtered_data "put"
    = Ok (Some spread)
    /\ entry_time r = SpreadLegs.entry_timestamp spread.
Proof.
  unfold _execute_single_trade.
  destruct (SpreadSelector.find_spread _ _ _) as [[spread|]|]; cbn [Py.bind];
    try discriminate.
  intros H. exists spread. split; [reflexivity |].
  destruct (monitor self spread _ _ filtered_data) as [[r'|]|] eqn:Hmon;
    cbn [Py.bind] in H; try discriminate.
  - injection H as <-. exact (Simulator.monitor_entry_time N _ _ _ _ _ _ Hmon).
  - destruct (max_key filtered_data); cbn [Py.bind] in H; [| discriminate].
    now injection H as <-.
Qed.

(** A sorted list stays sorted when an element related to its last one is
    appended. *)
Lemma Sorted_snoc {A : Type} (R : A -> A -> Prop) (l : list A) (x : A) :
  Sorted R l ->
  (forall l' y, l = l' ++ [y] -> R y x) ->
  Sorted R (l ++ [x]).
Proof.
  induction 1 as [| a l Hsorted IH Hhd]; intros Hlast; cbn.
  - repeat constructor.
  - constructor.
    + apply IH. intros l' y ->. apply (Hlast (a :: l') y). reflexivity.
    + destruct Hhd as [| b l Hab]; cbn; constructor.
      * apply (Hlast [] a). reflexivity.
      * exact Hab.
Qed.

(** The loop of [run] keeps the results disjoint: the last exit lies
    strictly before the cursor, and each new entry at or after it. *)
Lemma run_loop_disjoint
  (N : Numerics) (self : ZeroDTEBacktester.t) (data : history) :
  Spec.well_grouped data ->
  forall (remaining iteration : nat) (cursor : timestamp)
         (acc results : list trade_result),
    Spec.disjoint_in_time acc ->
    (forall l' y, acc = l' ++ [y] -> exit_time y < cursor) ->
    run_loop self data remaining iteration cursor acc = Ok results ->
    Spec.disjoint_in_time results.
Proof.
  intros Hgrouped. induction remaining as [| remaining IH];
    intros iteration cursor acc results Hacc Hlast; cbn [run_loop].
  - now intros [= <-].
  - destruct (filter_from data cursor) as [| g fd] eqn:Hfd;
      [now intros [= <-] |].
    destruct (_execute_single_trade self (g :: fd)) as [[r|]|] eqn:Hexec;
      cbn [Py.bind]; [| now intros [= <-] | discriminate].
    destruct (execute_single_trade_entry N self _ r Hexec)
      as (spread & Hfind & Hentry).
    rewrite <- Hfd in Hfind.
    pose proof (find_spread_entry_after_cursor N _ data cursor "put" spread
                  Hgrouped Hfind) as Hcursor.
    apply IH.
    + apply Sorted_snoc; [exact Hacc |].
      intros l' y E. cbn. specialize (Hlast l' y E). lia.
    + intros l' y E. apply app_inj_tail in E. destruct E as [_ <-].
      cbn. unfold Py.one_minute. lia.
Qed.

(** Sortedness, read position by position. *)
Lemma disjoint_in_time_nth
  (results : list trade_result) :
  Spec.disjoint_in_time results ->
  forall i previous next,
    nth_error results i = Some previous ->
    nth_error results (S i) = Some next ->
    exit_time previous < entry_time next.
Proof.
  induction 1 as [| a l Hsorted IH Hhd]; intros i p n Hp Hn.
  - destruct i; discriminate.
  - destruct i as [| i]; cbn in Hp, Hn.
    + injection Hp as <-. destruct Hhd as [| b l Hab]; [discriminate |].
      cbn in Hn. now injection Hn as <-.
    + exact (IH i p n Hp Hn).
Qed.

(** C8.  On ticks grouped by their timestamp, as the data layer delivers
    them, the trades [run] returns are disjoint in time: each trade's
    [entry_time] is strictly greater than the [exit_time] of the trade
    before it.  After a trade the cursor is its exit plus one minute, the
    next search sees only timestamps at or after the cursor, and a spread is
    entered at the timestamp of one of the ticks searched. *)
Theorem trades_disjoint_in_time
  (N : Numerics) (bt : ZeroDTEBacktester.t) (historical_data : history)
  (max_iterations : nat) (results : list trade_result) :
  Spec.well_grouped historical_data ->
  run bt historical_data max_iterations = Ok results ->
  Spec.disjoint_in_time results
  /\ forall i previous next,
      nth_error results i = Some previous ->
      nth_error results (S i) = Some next ->
      exit_time previous < entry_time next.
Proof.
  intros Hgrouped Hrun.
  assert (Hsorted : Spec.disjoint_in_time results).
  { unfold run in Hrun. destruct historical_data as [| g data];
      [injection Hrun as <-; constructor |].
    destruct (min_key (g :: data)) as [start|]; cbn [Py.bind] in Hrun;
      [| discriminate].
    apply (run_loop_disjoint N bt (g :: data) Hgrouped max_iterations 1%nat
             start [] results); [constructor | | exact Hrun].
    intros l' y E. now destruct l'. }
  split; [exact Hsorted | now apply disjoint_in_time_nth].
Qed.

Lemma closing_minutes_grouped : Spec.well_grouped Examples.closing_minutes.
Proof.
  intros ts ticks tick G I.
  unfold Examples.closing_minutes, Examples.entry_group, Examples.exit_group
    in G.
  cbn [In] in G.
  repeat match goal with
         | H : _ \/ _ |- _ => destruct H
         | H : False |- _ => destruct H
         | H : (_, _) = (_, _) |- _ => injection H as <- <-
         end;
    cbn [In] in I;
    repeat match goal with
           | H : _ \/ _ |- _ => destruct H
           | H : False |- _ => destruct H
           end;
    subst; reflexivity.
Qed.

(** C8 on [closing_minutes]: two trades, the second entered two minutes after
    the close, one minute after the first exit. *)
Lemma trades_disjoint_in_time_witness :
  exists first second,
    run (N := Examples.flat_numerics) Examples.backtester
        Examples.closing_minutes 10 = Ok [first; second]
    /\ exit_time first = Examples.minute 1
    /\ entry_time second = Examples.minute 2
    /\ exit_time first < entry_time second.
Proof.
  eexists. eexists. split; [reflexivity |]. split; [reflexivity |].
  split; [reflexivity |].
  refine (proj2 (trades_disjoint_in_time Examples.flat_numerics
                   Examples.backtester Examples.closing_minutes 10 _
                   closing_minutes_grouped eq_refl) 0%nat _ _ eq_refl eq_refl).
Defined.

End Orchestrator.

(* ================================================================= *)
(** * Further properties of the pricing engine *)

Module PricingFacts.
Import OptionUtils.
Local Open Scope float_scope.

Lemma ltb_leb (x y : float) : (x <? y) = true -> (x <=? y) = true.
Proof.
  rewrite FloatAxioms.ltb_spec, FloatAxioms.leb_spec. unfold SFltb, SFleb.
  now destruct (SFcompare (Prim2SF x) (Prim2SF y)) as [[| |]|].
Qed.

(** X1.  The intrinsic value is a number and is never negative, whatever the
    prices are (a NaN difference counts as no intrinsic value). *)
Theorem intrinsic_value_nonnegative (S K : float) (option_type : string) :
  (0 <=? intrinsic_value S K option_type) = true
  /\ is_nan (intrinsic_value S K option_type) = false.
Proof.
  assert (H : (0 <=? intrinsic_value S K option_type) = true).
  { unfold intrinsic_value, Py.max.
    destruct (0 <? _) eqn:E; [now apply ltb_leb | reflexivity]. }
  split; [exact H | apply (FloatFacts.leb_true_numeric _ _ H)].
Qed.

(** X2.  How [calculate_delta] fails.  It returns [None] exactly when time
    is above the floor, the price is above intrinsic value plus [1e-6], and
    [brentq] reports [ValueError].  It raises in two cases only, both above
    the floor: when [brentq] raises something else than [ValueError], and
    then it raises the same; and when an implied volatility was obtained
    ([0.0] for a price at intrinsic value, or a root) and the strike is zero,
    and then it raises [ZeroDivisionError] from
    [underlying_price / strike_price].  So a [ValueError] never escapes. *)
Theorem calculate_delta_failures
  (N : Numerics) (option_price strike_price : float)
  (expiry_timestamp : timestamp) (underlying_price risk_free_rate : float)
  (option_type : string) (current_timestamp : timestamp) :
  let T := time_to_expiry expiry_timestamp current_timestamp in
  let above_floor := (T =? 1e-6) = false in
  let at_intrinsic :=
    option_price
    <=? intrinsic_value underlying_price strike_price option_type + 1e-6 in
  let root :=
    brentq (option_price_diff option_price underlying_price strike_price T
                              risk_free_rate option_type) 1e-6 5 in
  let delta :=
    calculate_delta option_price strike_price expiry_timestamp
                    underlying_price risk_free_rate option_type
                    current_timestamp in
  (delta = Ok None
   <-> above_floor /\ at_intrinsic = false /\ root = Raise Py.ValueError)
  /\ (forall e,
         delta = Raise e
         <-> above_floor
             /\ ((at_intrinsic = false /\ root = Raise e
                  /\ e <> Py.ValueError)
                 \/ (e = Py.ZeroDivisionError
                     /\ (strike_price =? 0) = true
                     /\ (at_intrinsic = true
                         \/ (at_intrinsic = false
                             /\ exists sigma, root = Ok sigma))))).
Proof.
  cbv zeta.
  unfold calculate_delta, calculate_implied_volatility, Py.truediv,
    sigma_lower, sigma_upper, epsilon.
  destruct (time_to_expiry expiry_timestamp current_timestamp =? 1e-6).
  { split; [| intros e]; split; try discriminate; intros [? _];
      discriminate. }
  destruct (option_price <=? _).
  { cbn [Py.bind]. destruct (strike_price =? 0); cbn [Py.bind].
    - split; [| intros e]; split; try discriminate.
      + intros (_ & ? & _). discriminate.
      + intros [= <-]. split; [reflexivity |]. right. auto.
      + intros [_ [[? _] | [-> _]]]; [discriminate | reflexivity].
    - split; [| intros e]; split; try discriminate.
      + intros (_ & ? & _). discriminate.
      + intros [_ [[? _] | (_ & ? & _)]]; discriminate. }
  destruct (brentq _ _ _) as [x | e0]; cbn [Py.bind Py.except_ValueError].
  - destruct (strike_price =? 0); cbn [Py.bind].
    + split; [| intros e]; split; try discriminate.
      * intros (_ & _ & ?). discriminate.
      * intros [= <-]. split; [reflexivity |]. right.
        repeat split. right. split; [reflexivity | now exists x].
      * intros [_ [(_ & ? & _) | [-> _]]]; [discriminate | reflexivity].
    + split; [| intros e]; split; try discriminate.
      * intros (_ & _ & ?). discriminate.
      * intros [_ [(_ & ? & _) | (_ & ? & _)]]; discriminate.
  - destruct e0; cbn [Py.except_ValueError Py.bind].
    1: { split; [| intros e]; split; try discriminate.
         - intros _. repeat split.
         - intros _. reflexivity.
         - intros [_ [(_ & [= <-] & Hne) | (_ & _ & [? | (_ & sigma & ?)])]];
             [now elim Hne | discriminate | discriminate]. }
    all: split; [| intros e]; split; try discriminate.
    all: try (intros (_ & _ & ?); discriminate).
    all: try (intros [= <-]; split; [reflexivity |]; left; repeat split;
              discriminate).
    all: intros [_ [(_ & [= <-] & _) | (_ & _ & [? | (_ & sigma & ?)])]];
      [reflexivity | discriminate | discriminate].
Qed.

(** [calculate_delta_failures] on two inputs: a put with strike 100 quoted
    at 1000, above any model price, has no bracket, hence no delta; and a
    put with a strike of zero, quoted at zero, raises [ZeroDivisionError]. *)
Lemma calculate_delta_failures_witness :
  calculate_delta (N := Examples.flat_numerics)
    1000 100 (Examples.minute 10000) 100 0.01 "put" (Examples.minute 0)
  = Ok None
  /\ calculate_delta (N := Examples.flat_numerics)
       0 0 (Examples.minute 10000) 569 0.01 "put" (Examples.minute 0)
     = Raise Py.ZeroDivisionError.
Proof.
  split.
  - apply (calculate_delta_failures Examples.flat_numerics
             1000 100 (Examples.minute 10000) 100 0.01 "put"
             (Examples.minute 0)).
    repeat split; reflexivity.
  - apply (calculate_delta_failures Examples.flat_numerics
             0 0 (Examples.minute 10000) 569 0.01 "put" (Examples.minute 0)).
    split; [reflexivity |]. right. repeat split. left. reflexivity.
Defined.

End PricingFacts.

(* ================================================================= *)
(** * Further properties of the spread finder *)

Module FinderFacts.
Import SpreadSelector.
Local Open Scope float_scope.

(** A tick without an underlying quote, or without a delta, leaves the two
    slots as they are. *)
Lemma scan_tick_passed_over
  (N : Numerics) (self : t) (option_type : string)
  (short_put long_put : option OptionLeg.t) (tick : Tick.t) :
  Props.passed_over self option_type tick ->
  scan_tick self option_type short_put long_put tick
  = Ok (Scanning short_put long_put).
Proof.
  unfold Props.passed_over, Props.tick_delta, scan_tick.
  destruct (Tick.underlying_close tick) as [u|]; [| reflexivity].
  now intros ->.
Qed.

Lemma scan_ticks_filter
  (N : Numerics) (self : t) (option_type : string) (keep : Tick.t -> bool) :
  (forall tick, keep tick = false -> Props.passed_over self option_type tick) ->
  forall (ticks : list Tick.t) (short_put long_put : option OptionLeg.t),
    scan_ticks self option_type short_put long_put ticks
    = scan_ticks self option_type short_put long_put (filter keep ticks).
Proof.
  intros Hkeep. induction ticks as [| tick rest IH]; intros s l;
    [reflexivity |].
  cbn [filter]. destruct (keep tick) eqn:Hk; cbn [scan_ticks].
  - destruct (scan_tick self option_type s l tick) as [[s' l' | sp] |];
      cbn [Py.bind]; [apply IH | reflexivity | reflexivity].
  - rewrite (scan_tick_passed_over N self option_type s l tick
               (Hkeep tick Hk)).
    cbn [Py.bind]. apply IH.
Qed.

(** X3.  Ticks that [find_spread] passes over (no underlying quote, or no
    delta) can be removed from the stream without changing what it returns. *)
Theorem passed_over_ticks_do_not_count
  (N : Numerics) (self : t) (option_type : string) (keep : Tick.t -> bool)
  (data : history) :
  (forall tick, keep tick = false -> Props.passed_over self option_type tick) ->
  find_spread self data option_type
  = find_spread self (Props.filter_ticks keep data) option_type.
Proof.
  intros Hkeep. unfold find_spread.
  generalize (@None OptionLeg.t) at 1 3. generalize (@None OptionLeg.t).
  induction data as [| [ts ticks] rest IH]; intros s l; [reflexivity |].
  cbn [scan_history Props.filter_ticks map fst snd].
  rewrite <- (scan_ticks_filter N self option_type keep Hkeep ticks l s).
  destruct (scan_ticks self option_type l s ticks) as [[s' l' | sp] |];
    cbn [Py.bind]; [apply IH | reflexivity | reflexivity].
Qed.

(** On a stream that opens with an unquoted tick, the search returns what it
    returns on the quoted ticks alone. *)
Lemma passed_over_ticks_do_not_count_witness :
  find_spread (N := Examples.flat_numerics) Examples.selector
              Cases.unquoted_then_entry "put"
  = find_spread (N := Examples.flat_numerics) Examples.selector
                [Examples.entry_group 0] "put".
Proof.
  apply (passed_over_ticks_do_not_count Examples.flat_numerics
           Examples.selector "put" Props.quoted Cases.unquoted_then_entry).
  intros tick Hq. unfold Props.passed_over. unfold Props.quoted in Hq.
  destruct (Tick.underlying_close tick); [discriminate | exact I].
Defined.

(** The scan of two runs of ticks is the scan of the first, continued on
    the second. *)
Lemma scan_ticks_app
  (N : Numerics) (self : t) (option_type : string) (a b : list Tick.t) :
  forall short_put long_put,
    scan_ticks self option_type short_put long_put (a ++ b)
    = Py.bind (scan_ticks self option_type short_put long_put a)
        (fun r => match r with
                  | Found spread => Ok (Found spread)
                  | Scanning s l => scan_ticks self option_type s l b
                  end).
Proof.
  induction a as [| tick a IH]; intros s l; [reflexivity |].
  cbn [app scan_ticks].
  destruct (scan_tick self option_type s l tick) as [[s' l' | sp] |];
    cbn [Py.bind]; [apply IH | reflexivity | reflexivity].
Qed.

(** The two loops of [find_spread] are one loop over the ticks in order. *)
Lemma scan_history_flat
  (N : Numerics) (self : t) (option_type : string) (data : history) :
  forall short_put long_put,
    scan_history self option_type short_put long_put data
    = Py.bind (scan_ticks self option_type short_put long_put
                          (flat_map snd data))
        (fun r => Ok (Props.found r)).
Proof.
  induction data as [| [ts ticks] rest IH]; intros s l; [reflexivity |].
  cbn [scan_history flat_map snd]. rewrite scan_ticks_app.
  destruct (scan_ticks self option_type s l ticks) as [[s' l' | sp] |];
    cbn [Py.bind]; [apply IH | reflexivity | reflexivity].
Qed.

(** X4.  [find_spread] reads its stream as one sequence of ticks: how the
    ticks are grouped under timestamps, and the keys themselves, play no part. *)
Theorem find_spread_reads_tick_sequence
  (N : Numerics) (self : t) (option_type : string) (data1 data2 : history) :
  flat_map snd data1 = flat_map snd data2 ->
  find_spread self data1 option_type = find_spread self data2 option_type.
Proof.
  intros H. unfold find_spread. now rewrite !scan_history_flat, H.
Qed.

Lemma find_spread_reads_tick_sequence_witness :
  find_spread (N := Examples.flat_numerics) Examples.selector
              Examples.closing_minutes "put"
  = find_spread (N := Examples.flat_numerics) Examples.selector
                Cases.closing_minutes_one_group "put".
Proof.
  apply (find_spread_reads_tick_sequence Examples.flat_numerics
           Examples.selector "put" Examples.closing_minutes
           Cases.closing_minutes_one_group).
  reflexivity.
Defined.


(** The [if]/[elif] of the loop body, read from its result. *)
Lemma assign_leg_cases_of
  (self : t) (short_put long_put : option OptionLeg.t) (tick : Tick.t)
  (u d : float) (s l : option OptionLeg.t) :
  assign_leg self short_put long_put tick u d = (s, l) ->
  let leg := _create_option_leg (Tick.option_symbol tick)
               (Tick.strike_price tick) u d (Tick.midpoint tick)
               (Tick.timestamp tick) (Tick.expiry tick) in
  (short_put = None /\ in_short_band self d = true
   /\ s = Some leg /\ l = long_put)
  \/ (in_long_band self d = true /\ s = short_put /\ l = Some leg)
  \/ (s = short_put /\ l = long_put).
Proof.
  cbv zeta. unfold assign_leg.
  destruct short_put as [sp|]; cbn [is_None andb].
  - destruct (in_long_band self d) eqn:Hb; intros [= <- <-]; auto.
  - destruct (in_short_band self d) eqn:Hs; [intros [= <- <-]; auto |].
    destruct (in_long_band self d) eqn:Hb; intros [= <- <-]; auto.
Qed.

(** One tick keeps the slots in order, and a spread returned on it is in
    order. *)
Lemma scan_tick_ok
  (N : Numerics) (self : t) (option_type : string)
  (short_put long_put : option OptionLeg.t) (tick : Tick.t) (r : scan) :
  Props.slots_ok self option_type short_put long_put ->
  scan_tick self option_type short_put long_put tick = Ok r ->
  Props.scan_ok self option_type r.
Proof.
  intros (Hnot & Hs & Hl). unfold scan_tick.
  destruct (Tick.underlying_close tick) as [u|] eqn:Hu;
    [| intros [= <-]; exact (conj Hnot (conj Hs Hl))].
  destruct (OptionUtils.calculate_delta _ _ _ _ _ _ _) as [[d|]|] eqn:Hd;
    cbn [Py.bind];
    [| intros [= <-]; exact (conj Hnot (conj Hs Hl)) | discriminate].
  set (leg := _create_option_leg (Tick.option_symbol tick)
                (Tick.strike_price tick) u d (Tick.midpoint tick)
                (Tick.timestamp tick) (Tick.expiry tick)).
  assert (Hpriced : Props.leg_priced self option_type leg).
  { exists tick, u. repeat split; assumption. }
  destruct (assign_leg self short_put long_put tick u d) as [s l] eqn:Ha.
  intros [= <-].
  destruct (validate_spread self s l (Tick.timestamp tick))
    as [s' l' | spread] eqn:Hv; cbn [Props.scan_ok].
  - (* still scanning *)
    assert (Hsl : Props.slots_ok self option_type s l
                  \/ (s <> None /\ l <> None)).
    { destruct (assign_leg_cases_of self short_put long_put tick u d s l Ha)
        as [(-> & Hb & -> & ->) | [(Hb & -> & ->) | (-> & ->)]].
      - destruct long_put as [lp|]; [right; split; discriminate |].
        left. split; [now right |]. split; [| exact Hl].
        intros leg' [= <-]. split; [exact Hb | exact Hpriced].
      - destruct short_put as [sp|]; [right; split; discriminate |].
        left. split; [now left |]. split; [exact Hs |].
        intros leg' [= <-]. split; [exact Hb | exact Hpriced].
      - left. exact (conj Hnot (conj Hs Hl)). }
    unfold validate_spread in Hv.
    destruct Hsl as [Hok | [Hs' Hl']].
    + destruct Hok as ([-> | ->] & ? & ?).
      * injection Hv as <- <-. split; [now left | now split].
      * destruct s; injection Hv as <- <-; (split; [now right | now split]).
    + destruct s; [| congruence]. destruct l; [| congruence].
      destruct (negb _); [| discriminate].
      injection Hv as <- <-. split; [now left |].
      split; intros leg'; discriminate.
  - (* returned *)
    destruct (SpreadFinder.validate_spread_Found self s l _ _ Hv)
      as (-> & -> & _ & _ & _ & Ht).
    destruct (assign_leg_cases_of self short_put long_put tick u d _ _ Ha)
      as [(-> & Hb & Es & El) | [(Hb & Es & El) | (Es & El)]].
    + injection Es as Es. destruct (Hl _ (eq_sym El)) as [Hlb Hlp].
      unfold Props.spread_ok. cbv zeta. rewrite Es.
      split; [exact Hb |]. split; [exact Hpriced |].
      split; [exact Hlb |]. split; [exact Hlp |].
      left. rewrite Ht. reflexivity.
    + injection El as El. destruct (Hs _ (eq_sym Es)) as [Hsb Hsp].
      unfold Props.spread_ok. cbv zeta. rewrite El.
      split; [exact Hsb |]. split; [exact Hsp |].
      split; [exact Hb |]. split; [exact Hpriced |].
      right. rewrite Ht. reflexivity.
    + destruct Hnot as [E | E]; rewrite E in *; discriminate.
Qed.

Lemma scan_ticks_ok
  (N : Numerics) (self : t) (option_type : string) (ticks : list Tick.t) :
  forall (short_put long_put : option OptionLeg.t) (r : scan),
    Props.slots_ok self option_type short_put long_put ->
    scan_ticks self option_type short_put long_put ticks = Ok r ->
    Props.scan_ok self option_type r.
Proof.
  induction ticks as [| tick rest IH]; intros s l r Hok; cbn [scan_ticks].
  - intros [= <-]. exact Hok.
  - destruct (scan_tick self option_type s l tick) as [r1|] eqn:H1;
      cbn [Py.bind]; [| discriminate].
    pose proof (scan_tick_ok N self option_type s l tick r1 Hok H1) as Hr1.
    destruct r1 as [s1 l1 | spread].
    + now apply IH.
    + intros [= <-]. exact Hr1.
Qed.

Lemma find_spread_ok
  (N : Numerics) (self : t) (data : history) (option_type : string)
  (spread : SpreadLegs.t) :
  find_spread self data option_type = Ok (Some spread) ->
  Props.spread_ok self option_type spread.
Proof.
  unfold find_spread. rewrite scan_history_flat.
  destruct (scan_ticks self option_type None None (flat_map snd data))
    as [r|] eqn:Hr; cbn [Py.bind]; [| discriminate].
  assert (Hinit : Props.slots_ok self option_type None None).
  { split; [now left |]. split; intros leg; discriminate. }
  pose proof (scan_ticks_ok N self option_type _ _ _ _ Hinit Hr) as Hok.
  destruct r as [s l | sp]; cbn [Props.found]; [discriminate |].
  intros [= <-]. exact Hok.
Qed.

(** X5.  The legs of a returned spread are priced inside their bands: the
    short leg's delta lies in the short delta range, the long leg's in the
    long delta range, and each is the delta [calculate_delta] gave for the
    quoted tick the leg is the snapshot of. *)
Theorem returned_legs_in_bands
  (N : Numerics) (self : t) (data : history) (option_type : string)
  (spread : SpreadLegs.t) :
  find_spread self data option_type = Ok (Some spread) ->
  Py.between (fst (short_put_delta_range self))
             (OptionLeg.delta (SpreadLegs.short_leg spread))
             (snd (short_put_delta_range self)) = true
  /\ Py.between (fst (long_put_delta_range self))
                (OptionLeg.delta (SpreadLegs.long_leg spread))
                (snd (long_put_delta_range self)) = true
  /\ Props.leg_priced self option_type (SpreadLegs.short_leg spread)
  /\ Props.leg_priced self option_type (SpreadLegs.long_leg spread).
Proof.
  intros H.
  destruct (find_spread_ok N self data option_type spread H)
    as (Hs & Hsp & Hl & Hlp & _).
  repeat split; assumption.
Qed.

Lemma returned_legs_in_bands_witness :
  Py.between (-1) (OptionLeg.delta Examples.leg570) (-0.2) = true
  /\ Py.between (-1) (OptionLeg.delta Examples.leg567) 0 = true.
Proof.
  pose proof (returned_legs_in_bands Examples.flat_numerics Examples.selector
                Examples.closing_minutes "put" Examples.spread_570_567
                eq_refl) as (Hs & Hl & _).
  split; [exact Hs | exact Hl].
Defined.

(** A scan that returns a spread returns it on one tick, the ticks in front
    of it having returned none. *)
Lemma scan_ticks_found
  (N : Numerics) (self : t) (option_type : string) (ticks : list Tick.t)
  (spread : SpreadLegs.t) :
  forall short_put long_put,
    scan_ticks self option_type short_put long_put ticks = Ok (Found spread) ->
    exists before tick after s l,
      ticks = before ++ tick :: after
      /\ scan_ticks self option_type short_put long_put before
         = Ok (Scanning s l)
      /\ scan_tick self option_type s l tick = Ok (Found spread).
Proof.
  induction ticks as [| tick rest IH]; intros s l; cbn [scan_ticks];
    [discriminate |].
  destruct (scan_tick self option_type s l tick) as [[s1 l1 | sp] |] eqn:H1;
    cbn [Py.bind]; [| | discriminate].
  - intros H. destruct (IH _ _ H) as (b & t & a & s' & l' & -> & Hb & Ht).
    exists (tick :: b), t, a, s', l'. split; [reflexivity |].
    split; [| exact Ht]. cbn [scan_ticks]. rewrite H1. exact Hb.
  - intros [= ->]. exists [], tick, rest, s, l. auto.
Qed.

(** X6.  A spread is entered on the tick that completes the pair.  When
    [find_spread] returns a spread, the ticks read up to some tick left the
    scan with exactly one candidate leg held; that tick carries an
    underlying quote and has a delta; the leg created from it fills the
    empty slot and is one leg of the spread, the held candidate is the
    other; and the entry timestamp is the timestamp of that tick. *)
Theorem entry_on_completing_tick
  (N : Numerics) (self : t) (data : history) (option_type : string)
  (spread : SpreadLegs.t) :
  find_spread self data option_type = Ok (Some spread) ->
  exists before tick after held u d,
    flat_map snd data = before ++ tick :: after
    /\ Tick.underlying_close tick = Some u
    /\ Props.tick_delta self option_type tick u = Ok (Some d)
    /\ SpreadLegs.entry_timestamp spread = Tick.timestamp tick
    /\ ((scan_ticks self option_type None None before
         = Ok (Scanning None (Some held))
         /\ SpreadLegs.short_leg spread = Props.snapshot tick u d
         /\ SpreadLegs.long_leg spread = held)
        \/ (scan_ticks self option_type None None before
            = Ok (Scanning (Some held) None)
            /\ SpreadLegs.short_leg spread = held
            /\ SpreadLegs.long_leg spread = Props.snapshot tick u d)).
Proof.
  unfold find_spread. rewrite scan_history_flat.
  destruct (scan_ticks self option_type None None (flat_map snd data))
    as [[s0 l0 | sp] |] eqn:Hscan; cbn [Py.bind Props.found];
    try discriminate.
  intros [= ->].
  destruct (scan_ticks_found N self option_type _ spread _ _ Hscan)
    as (before & tick & after & s & l & Hflat & Hbefore & Htick).
  assert (Hinit : Props.slots_ok self option_type None None).
  { split; [now left |]. split; intros leg; discriminate. }
  pose proof (scan_ticks_ok N self option_type _ _ _ _ Hinit Hbefore)
    as (Hnot & _).
  unfold scan_tick in Htick.
  destruct (Tick.underlying_close tick) as [u|] eqn:Hu; [| discriminate].
  destruct (OptionUtils.calculate_delta _ _ _ _ _ _ _) as [[d|]|] eqn:Hd;
    cbn [Py.bind] in Htick; try discriminate.
  destruct (assign_leg self s l tick u d) as [s' l'] eqn:Ha.
  injection Htick as Hv.
  destruct (SpreadFinder.validate_spread_Found self s' l' _ _ Hv)
    as (-> & -> & _ & _ & _ & Hentry).
  destruct (assign_leg_cases_of self s l tick u d _ _ Ha)
    as [(-> & _ & Es & El) | [(_ & Es & El) | (Es & El)]].
  - injection Es as Es. subst l.
    exists before, tick, after, (SpreadLegs.long_leg spread), u, d.
    repeat split; try assumption. left. repeat split; assumption.
  - injection El as El. subst s.
    destruct Hnot as [E | ->]; [discriminate |].
    exists before, tick, after, (SpreadLegs.short_leg spread), u, d.
    repeat split; try assumption. right. repeat split; assumption.
  - subst s l. destruct Hnot; discriminate.
Qed.

Lemma entry_on_completing_tick_witness :
  exists before tick after held u d,
    flat_map snd Examples.closing_minutes = before ++ tick :: after
    /\ Tick.underlying_close tick = Some u
    /\ Props.tick_delta (N := Examples.flat_numerics) Examples.selector "put"
                        tick u = Ok (Some d)
    /\ SpreadLegs.entry_timestamp Examples.spread_570_567
       = Tick.timestamp tick
    /\ ((scan_ticks (N := Examples.flat_numerics) Examples.selector "put"
                    None None before
         = Ok (Scanning None (Some held))
         /\ SpreadLegs.short_leg Examples.spread_570_567 = Props.snapshot tick u d
         /\ SpreadLegs.long_leg Examples.spread_570_567 = held)
        \/ (scan_ticks (N := Examples.flat_numerics) Examples.selector "put"
                       None None before
            = Ok (Scanning (Some held) None)
            /\ SpreadLegs.short_leg Examples.spread_570_567 = held
            /\ SpreadLegs.long_leg Examples.spread_570_567
               = Props.snapshot tick u d)).
Proof.
  exact (entry_on_completing_tick Examples.flat_numerics Examples.selector
           Examples.closing_minutes "put" Examples.spread_570_567 eq_refl).
Defined.

End FinderFacts.

(* ================================================================= *)
(** * Further properties of the trade lifecycle simulator *)

Module SimulatorFacts.
Import SpreadSelector ZeroDTEBacktester.
Local Open Scope float_scope.

(** X7.  [calculate_current_spread_metrics] on a group without ticks returns
    [None], and whatever it raises was raised by the delta computation of one
    of the two legs: reading the first tick of the group never fails. *)
Theorem metrics_raise_only_from_delta
  (N : Numerics) (self : SpreadSelector.t) (spread : SpreadLegs.t)
  (current_data : list Tick.t) (rfr : float) :
  (current_data = [] ->
   calculate_current_spread_metrics self spread current_data rfr = Ok None)
  /\ forall e,
      calculate_current_spread_metrics self spread current_data rfr = Raise e ->
      exists leg price underlying first,
        (leg = SpreadLegs.short_leg spread
         \/ leg = SpreadLegs.long_leg spread)
        /\ head current_data = Some first
        /\ Spec.current_delta leg price underlying rfr (Tick.timestamp first)
           = Raise e.
Proof.
  split; [intros ->; reflexivity |].
  intros e. destruct current_data as [| first tail]; [discriminate |].
  unfold calculate_current_spread_metrics.
  destruct (negb (all_truthy _)); [discriminate |].
  destruct (current_short_price _) as [sp|]; [| discriminate].
  destruct (current_long_price _) as [lp|]; [| discriminate].
  destruct (current_underlying_price _) as [u|]; [| discriminate].
  fold (Spec.current_delta (SpreadLegs.short_leg spread) sp u rfr
          (Tick.timestamp first)).
  fold (Spec.current_delta (SpreadLegs.long_leg spread) lp u rfr
          (Tick.timestamp first)).
  destruct (Spec.current_delta (SpreadLegs.short_leg spread) sp u rfr _)
    as [ds | es] eqn:Hs; cbn [Py.bind].
  - destruct (Spec.current_delta (SpreadLegs.long_leg spread) lp u rfr _)
      as [dl | el] eqn:Hl; cbn [Py.bind].
    + destruct ds, dl; discriminate.
    + intros [= <-]. exists (SpreadLegs.long_leg spread), lp, u, first.
      repeat split; auto.
  - intros [= <-]. exists (SpreadLegs.short_leg spread), sp, u, first.
    repeat split; auto.
Qed.

(** With one symbol on both legs every tick of that contract is read as the
    short leg's: the long price is never located. *)
Lemma locate_same_symbol
  (spread : SpreadLegs.t) (current_data : list Tick.t) :
  OptionLeg.option_symbol (SpreadLegs.short_leg spread)
  = OptionLeg.option_symbol (SpreadLegs.long_leg spread) ->
  forall acc,
    current_long_price (fold_left (locate_tick spread) current_data acc)
    = current_long_price acc.
Proof.
  intros Hsym. induction current_data as [| tick rest IH]; intros acc;
    [reflexivity |].
  cbn [fold_left]. rewrite IH. unfold locate_tick. rewrite <- Hsym.
  now destruct (String.eqb _ _).
Qed.

Lemma monitor_all_skipped
  (N : Numerics) (self : ZeroDTEBacktester.t) (spread : SpreadLegs.t)
  (tpp dsl : float) (data : history) :
  (forall current_data,
      calculate_current_spread_metrics (spread_selector self) spread
        current_data (ZeroDTEBacktester.risk_free_rate self) = Ok None) ->
  monitor self spread tpp dsl data = Ok None.
Proof.
  intros Hskip. induction data as [| [ts cd] rest IH]; [reflexivity |].
  now rewrite (Simulator.monitor_skip N self spread tpp dsl ts cd rest
                 (Hskip cd)).
Qed.

Lemma max_key_nonempty (g : timestamp * list Tick.t) (data : history) :
  exists final, max_key (g :: data) = Ok final.
Proof. destruct g as [k ticks]. cbn. eauto. Qed.

(** X8.  A spread whose two legs carry the same option symbol is never
    monitored: every timestamp is skipped, so the trade always ends as
    [expired], at the last timestamp of the data, with the full credit as its
    profit. *)
Theorem same_symbol_spread_expires
  (N : Numerics) (bt : ZeroDTEBacktester.t) (data : history)
  (spread : SpreadLegs.t) :
  find_spread (spread_selector bt) data "put" = Ok (Some spread) ->
  OptionLeg.option_symbol (SpreadLegs.short_leg spread)
  = OptionLeg.option_symbol (SpreadLegs.long_leg spread) ->
  (forall current_data,
      calculate_current_spread_metrics (spread_selector bt) spread
        current_data (ZeroDTEBacktester.risk_free_rate bt) = Ok None)
  /\ exists r,
      _execute_single_trade bt data = Ok (Some r)
      /\ trade_status r = expired
      /\ max_key data = Ok (exit_time r)
      /\ theoretical_pnl r = SpreadLegs.credit_received spread * 100.
Proof.
  intros Hfind Hsym.
  assert (Hskip : forall current_data,
             calculate_current_spread_metrics (spread_selector bt) spread
               current_data (ZeroDTEBacktester.risk_free_rate bt) = Ok None).
  { intros cd. apply Simulator.metrics_not_all_truthy.
    unfold all_truthy, locate_prices.
    rewrite (locate_same_symbol spread cd Hsym). cbn.
    apply andb_false_iff. left. apply andb_false_r. }
  split; [exact Hskip |].
  destruct data as [| g data]; [discriminate |].
  destruct (max_key_nonempty g data) as [final Hfinal].
  eexists. split.
  - unfold _execute_single_trade. rewrite Hfind. cbn [Py.bind].
    rewrite (monitor_all_skipped N bt spread _ _ (g :: data) Hskip).
    cbn [Py.bind]. rewrite Hfinal. cbn [Py.bind]. reflexivity.
  - cbn. repeat split. exact Hfinal.
Qed.

(** The same contract on both legs: the trade can only expire. *)
Lemma same_symbol_spread_expires_witness :
  exists r,
    _execute_single_trade (N := Examples.flat_numerics)
      Cases.backtester_zero_width Examples.same_contract_twice = Ok (Some r)
    /\ trade_status r = expired
    /\ max_key Examples.same_contract_twice = Ok (exit_time r)
    /\ theoretical_pnl r = (1.25 - 0.9) * 100.
Proof.
  apply (same_symbol_spread_expires Examples.flat_numerics
           Cases.backtester_zero_width Examples.same_contract_twice
           Examples.spread_570_570 eq_refl eq_refl).
Defined.

(** Timestamps up to and including the entry are not monitored. *)
Lemma monitor_filter_after_entry
  (N : Numerics) (self : ZeroDTEBacktester.t) (spread : SpreadLegs.t)
  (tpp dsl : float) (data : history) :
  monitor self spread tpp dsl data
  = monitor self spread tpp dsl
      (filter (fun g => (SpreadLegs.entry_timestamp spread <? fst g)%Z) data).
Proof.
  induction data as [| [ts cd] rest IH]; [reflexivity |].
  cbn [monitor filter fst].
  rewrite Z.ltb_antisym.
  destruct (ts <=? SpreadLegs.entry_timestamp spread)%Z eqn:E; cbn [negb].
  - exact IH.
  - cbn [monitor]. rewrite E, <- IH. reflexivity.
Qed.

(** An exit found by the monitoring loop: strictly after the entry, at a
    timestamp of the data, and with one of the three exit statuses. *)
Lemma monitor_exit
  (N : Numerics) (self : ZeroDTEBacktester.t) (spread : SpreadLegs.t)
  (tpp dsl : float) (data : history) (r : trade_result) :
  monitor self spread tpp dsl data = Ok (Some r) ->
  (entry_time r < exit_time r)%Z
  /\ In (exit_time r) (Props.keys data)
  /\ trade_status r <> expired.
Proof.
  induction data as [| [ts cd] rest IH]; cbn [monitor]; [discriminate |].
  destruct (ts <=? SpreadLegs.entry_timestamp spread)%Z eqn:Hts.
  { intros H. destruct (IH H) as (? & ? & ?). repeat split; auto.
    now right. }
  destruct (calculate_current_spread_metrics _ _ _ _) as [[m|]|];
    cbn [Py.bind]; [| | discriminate].
  2:{ intros H. destruct (IH H) as (? & ? & ?). repeat split; auto.
      now right. }
  destruct (_check_exit_conditions spread m tpp dsl) as [e|] eqn:He.
  2:{ intros H. destruct (IH H) as (? & ? & ?). repeat split; auto.
      now right. }
  intros [= <-]. cbn. apply Z.leb_gt in Hts. repeat split; auto.
  pose proof (Simulator.exit_conditions_in_order spread m tpp dsl) as Ho.
  rewrite He in Ho. cbn in Ho.
  destruct (_ <=? _); [injection Ho as ->; discriminate |].
  destruct (_ <=? _); [injection Ho as ->; discriminate |].
  destruct (_ <=? _); [injection Ho as ->; discriminate | discriminate].
Qed.

Lemma fold_max_bounds (rest : history) :
  forall k : Z,
    let m := fold_left (fun m kv => Z.max m (fst kv)) rest k in
    (k <= m)%Z /\ (forall x, In x (Props.keys rest) -> (x <= m)%Z).
Proof.
  induction rest as [| [k' ticks] rest IH]; intros k; cbn.
  - split; [lia | intros x []].
  - destruct (IH (Z.max k k')) as [H1 H2]. cbv zeta in H1, H2.
    split; [lia |]. intros x [<- | Hx]; [lia | now apply H2].
Qed.

(** [max(filtered_data.keys())] is at or above every key. *)
Lemma max_key_bounds (data : history) (final : timestamp) :
  max_key data = Ok final ->
  forall k, In k (Props.keys data) -> (k <= final)%Z.
Proof.
  destruct data as [| [k0 ticks] rest]; [discriminate |].
  cbn [max_key]. intros [= <-] k.
  destruct (fold_max_bounds rest k0) as [H1 H2]. cbv zeta in H1, H2.
  cbn. intros [<- | Hk]; [exact H1 | now apply H2].
Qed.

(** The two ways [_execute_single_trade] returns a trade. *)
Lemma execute_single_trade_inv
  (N : Numerics) (bt : ZeroDTEBacktester.t) (filtered_data : history)
  (r : trade_result) :
  _execute_single_trade bt filtered_data = Ok (Some r) ->
  exists spread,
    find_spread (spread_selector bt) filtered_data "put" = Ok (Some spread)
    /\ entry_time r = SpreadLegs.entry_timestamp spread
    /\ ((trade_status r <> expired
         /\ (entry_time r < exit_time r)%Z
         /\ In (exit_time r) (Props.keys filtered_data))
        \/ (trade_status r = expired
            /\ max_key filtered_data = Ok (exit_time r)
            /\ theoretical_pnl r = credit_received r * 100)).
Proof.
  unfold _execute_single_trade.
  destruct (find_spread (spread_selector bt) filtered_data "put")
    as [[spread|]|] eqn:Hfind; cbn [Py.bind]; try discriminate.
  intros H. exists spread. split; [reflexivity |]. revert H.
  destruct (monitor bt spread _ _ filtered_data) as [[r'|]|] eqn:Hmon;
    cbn [Py.bind]; try discriminate.
  - intros [= <-].
    destruct (monitor_exit N _ _ _ _ _ _ Hmon) as (H1 & H2 & H3).
    split; [exact (Simulator.monitor_entry_time N _ _ _ _ _ _ Hmon) |].
    left. auto.
  - destruct (max_key filtered_data) as [final|] eqn:Hmax; cbn [Py.bind];
      [| discriminate].
    intros [= <-]. cbn. split; [reflexivity |]. right. auto.
Qed.

(** With ticks filed under their own timestamps, a trade's exit is at or
    after its entry. *)
Lemma execute_single_trade_entry_le_exit
  (N : Numerics) (bt : ZeroDTEBacktester.t) (filtered_data : history)
  (r : trade_result) :
  Spec.well_grouped filtered_data ->
  _execute_single_trade bt filtered_data = Ok (Some r) ->
  (entry_time r <= exit_time r)%Z.
Proof.
  intros Hgrouped H.
  destruct (execute_single_trade_inv N bt filtered_data r H)
    as (spread & Hfind & Hentry & [(_ & Hlt & _) | (_ & Hmax & _)]); [lia |].
  destruct (SpreadFinder.find_spread_from N _ _ _ _ Hfind)
    as (_ & _ & (tick & (ts & ticks & Hin & Htick) & Ets) & _).
  rewrite Hentry, Ets, (Hgrouped ts ticks tick Hin Htick).
  apply (max_key_bounds filtered_data _ Hmax).
  unfold Props.keys. apply (in_map fst _ _ Hin).
Qed.

(** X9.  Every trade has its exit at or after its entry. An exit on a
    condition is strictly after the entry, at a timestamp of the data; a trade
    without one is [expired], closed at the last timestamp of the data with
    the full credit as profit, at or after the entry when ticks are filed
    under their own timestamps. *)
Theorem trade_exit_after_entry
  (N : Numerics) (bt : ZeroDTEBacktester.t) (filtered_data : history)
  (r : trade_result) :
  _execute_single_trade bt filtered_data = Ok (Some r) ->
  (trade_status r <> expired ->
   (entry_time r < exit_time r)%Z
   /\ In (exit_time r) (Props.keys filtered_data))
  /\ (trade_status r = expired ->
      max_key filtered_data = Ok (exit_time r)
      /\ theoretical_pnl r = credit_received r * 100)
  /\ (Spec.well_grouped filtered_data -> (entry_time r <= exit_time r)%Z).
Proof.
  intros H.
  destruct (execute_single_trade_inv N bt filtered_data r H)
    as (spread & _ & _ & [(Hne & Hlt & Hin) | (He & Hmax & Hpnl)]).
  - split; [auto |]. split; [intros E; now elim Hne |]. intros _. lia.
  - split; [intros Hne; now elim Hne |]. split; [auto |].
    intros Hgrouped.
    now apply (execute_single_trade_entry_le_exit N bt filtered_data r).
Qed.

(** The trade of [closing_minutes]: entered at the close, closed a minute
    later. *)
Lemma trade_exit_after_entry_witness :
  exists r,
    _execute_single_trade (N := Examples.flat_numerics) Examples.backtester
                          Examples.closing_minutes = Ok (Some r)
    /\ (entry_time r < exit_time r)%Z.
Proof.
  eexists. split; [reflexivity |].
  apply (trade_exit_after_entry Examples.flat_numerics Examples.backtester
           Examples.closing_minutes _ eq_refl).
  discriminate.
Defined.

End SimulatorFacts.

(* ================================================================= *)
(** * Further properties of the backtest loop *)

Module RunFacts.
Import ZeroDTEBacktester.
Local Open Scope Z_scope.

(** The loop only appends: at most one trade per turn, numbered from the
    iteration counter on. *)
Lemma run_loop_numbering
  (N : Numerics) (self : ZeroDTEBacktester.t) (data : history) :
  forall (remaining iteration : nat) (cursor : timestamp)
         (acc results : list trade_result),
    run_loop self data remaining iteration cursor acc = Ok results ->
    exists news,
      results = acc ++ news
      /\ (List.length news <= remaining)%nat
      /\ forall j r, nth_error news j = Some r ->
                     ZeroDTEBacktester.iteration r
                     = Some (iteration + j)%nat.
Proof.
  induction remaining as [| remaining IH];
    intros iteration cursor acc results; cbn [run_loop].
  - intros [= <-]. exists []. rewrite app_nil_r. repeat split; auto.
    intros [|j] r; discriminate.
  - assert (Hstop : Ok acc = Ok results ->
             exists news,
               results = acc ++ news /\ (List.length news <= S remaining)%nat
               /\ forall j r, nth_error news j = Some r ->
                              ZeroDTEBacktester.iteration r
                              = Some (iteration + j)%nat).
    { intros [= <-]. exists []. rewrite app_nil_r. repeat split; cbn; try lia.
      intros [|j] r; discriminate. }
    destruct (filter_from data cursor) as [| g fd]; [exact Hstop |].
    destruct (_execute_single_trade self (g :: fd)) as [[r0|]|];
      cbn [Py.bind]; [| exact Hstop | discriminate].
    intros H. destruct (IH _ _ _ _ H) as (news & -> & Hlen & Hnum).
    exists (set_iteration r0 iteration :: news).
    rewrite <- app_assoc. split; [reflexivity |]. split; [cbn; lia |].
    intros [|j] r; cbn.
    + intros [= <-]. cbn. f_equal. lia.
    + intros Hj. rewrite (Hnum j r Hj). f_equal. lia.
Qed.

(** X10.  [run] returns at most [max_iterations] trades, and the trade at
    position [i] (from 0) carries iteration number [i + 1]. *)
Theorem run_numbers_trades
  (N : Numerics) (bt : ZeroDTEBacktester.t) (historical_data : history)
  (max_iterations : nat) (results : list trade_result) :
  run bt historical_data max_iterations = Ok results ->
  (List.length results <= max_iterations)%nat
  /\ forall i r, nth_error results i = Some r ->
                 ZeroDTEBacktester.iteration r = Some (S i).
Proof.
  unfold run. destruct historical_data as [| g data].
  - intros [= <-]. split; [cbn; lia | intros [|i] r; discriminate].
  - destruct (min_key (g :: data)) as [start|]; cbn [Py.bind];
      [| discriminate].
    intros H.
    destruct (run_loop_numbering N bt (g :: data) _ _ _ _ _ H)
      as (news & -> & Hlen & Hnum).
    cbn [app]. split; [exact Hlen |]. intros i r Hi. exact (Hnum i r Hi).
Qed.

(** A cap of one on [closing_minutes], which holds two trades: one trade,
    numbered 1. *)
Lemma run_numbers_trades_witness :
  exists r,
    run (N := Examples.flat_numerics) Examples.backtester
        Examples.closing_minutes 1 = Ok [r]
    /\ ZeroDTEBacktester.iteration r = Some 1%nat.
Proof.
  eexists. split; [reflexivity |].
  refine (proj2 (run_numbers_trades Examples.flat_numerics
                   Examples.backtester Examples.closing_minutes 1 _ eq_refl)
                0%nat _ eq_refl).
Defined.

Lemma filter_nil_iff {A : Type} (f : A -> bool) (l : list A) :
  (forall x, In x l -> f x = false) -> filter f l = [].
Proof.
  induction l as [| a l IH]; intros H; [reflexivity |].
  cbn. rewrite (H a (or_introl eq_refl)). apply IH.
  intros x Hx. apply H. now right.
Qed.

(** One minute after the last timestamp of a sub-stream nothing is left. *)
Lemma filter_from_after_max
  (data : history) (cursor final : timestamp) :
  max_key (filter_from data cursor) = Ok final ->
  filter_from data (final + Py.one_minute) = [].
Proof.
  intros Hmax. unfold filter_from at 1. apply filter_nil_iff.
  intros [k ticks] Hin. cbn [fst]. apply Z.leb_gt. unfold Py.one_minute.
  assert (Hfinal : forall k', In k' (Props.keys (filter_from data cursor)) ->
                              k' <= final)
    by exact (SimulatorFacts.max_key_bounds _ _ Hmax).
  destruct (Z.leb_spec cursor k) as [Hle | Hlt].
  - assert (In k (Props.keys (filter_from data cursor))).
    { unfold Props.keys, filter_from.
      apply (in_map fst _ (k, ticks)). apply filter_In. split; [exact Hin |].
      now apply Z.leb_le. }
    specialize (Hfinal k H). lia.
  - destruct (filter_from data cursor) as [| [k0 t0] rest] eqn:E;
      [discriminate |].
    assert (Hk0 : In (k0, t0) (filter_from data cursor))
      by (rewrite E; now left).
    destruct (Orchestrator.filter_from_In data cursor k0 t0 Hk0) as [_ Hc].
    specialize (Hfinal k0 (or_introl eq_refl)). lia.
Qed.

Lemma run_loop_empty
  (N : Numerics) (self : ZeroDTEBacktester.t) (data : history)
  (remaining iteration : nat) (cursor : timestamp)
  (acc : list trade_result) :
  filter_from data cursor = [] ->
  run_loop self data remaining iteration cursor acc = Ok acc.
Proof.
  intros H. destruct remaining; cbn [run_loop]; [reflexivity |].
  now rewrite H.
Qed.

Lemma run_loop_expired_last
  (N : Numerics) (self : ZeroDTEBacktester.t) (data : history) :
  forall (remaining iteration : nat) (cursor : timestamp)
         (acc results : list trade_result),
    run_loop self data remaining iteration cursor acc = Ok results ->
    exists news,
      results = acc ++ news
      /\ forall j r, nth_error news j = Some r ->
                     trade_status r = expired -> S j = List.length news.
Proof.
  induction remaining as [| remaining IH];
    intros iteration cursor acc results; cbn [run_loop].
  - intros [= <-]. exists []. rewrite app_nil_r. split; auto.
    intros [|j] r; discriminate.
  - assert (Hstop : Ok acc = Ok results ->
             exists news,
               results = acc ++ news
               /\ forall j r, nth_error news j = Some r ->
                              trade_status r = expired -> S j = List.length news).
    { intros [= <-]. exists []. rewrite app_nil_r. split; auto.
      intros [|j] r; discriminate. }
    destruct (filter_from data cursor) as [| g fd] eqn:Hfd; [exact Hstop |].
    destruct (_execute_single_trade self (g :: fd)) as [[r0|]|] eqn:Hexec;
      cbn [Py.bind]; [| exact Hstop | discriminate].
    destruct (SimulatorFacts.execute_single_trade_inv N self _ r0 Hexec)
      as (spread & _ & _ & [(Hne & _ & _) | (He & Hmax & _)]).
    + intros H. destruct (IH _ _ _ _ H) as (news & -> & Hlast).
      exists (set_iteration r0 iteration :: news).
      rewrite <- app_assoc. split; [reflexivity |].
      intros [|j] r; cbn.
      * intros [= <-]. cbn. intros E. now elim Hne.
      * intros Hj He. f_equal. exact (Hlast j r Hj He).
    + rewrite <- Hfd in Hmax.
      cbn [set_iteration exit_time].
      rewrite (run_loop_empty N self data remaining (S iteration) _ _
                 (filter_from_after_max data cursor _ Hmax)).
      intros [= <-]. exists [set_iteration r0 iteration].
      split; [reflexivity |].
      intros [|[|j]] r; cbn; try discriminate. reflexivity.
Qed.

(** X11.  An [expired] trade ends the run: it can only be the last trade
    returned, since the next search starts one minute after the last timestamp
    of the data. *)
Theorem expired_trade_is_last
  (N : Numerics) (bt : ZeroDTEBacktester.t) (historical_data : history)
  (max_iterations : nat) (results : list trade_result)
  (i : nat) (r : trade_result) :
  run bt historical_data max_iterations = Ok results ->
  nth_error results i = Some r ->
  trade_status r = expired ->
  S i = List.length results.
Proof.
  unfold run. destruct historical_data as [| g data].
  - intros [= <-]. destruct i; discriminate.
  - destruct (min_key (g :: data)) as [start|]; cbn [Py.bind];
      [| discriminate].
    intros H Hi He.
    destruct (run_loop_expired_last N bt (g :: data) _ _ _ _ _ H)
      as (news & -> & Hlast).
    exact (Hlast i r Hi He).
Qed.


(** The entry of a trade alone in the data: nothing follows it, the trade
    expires and is the last (and only) one. *)
Lemma expired_trade_is_last_witness :
  exists r,
    run (N := Examples.flat_numerics) Examples.backtester
        [Examples.entry_group 0] 10 = Ok [r]
    /\ trade_status r = expired
    /\ 1%nat = List.length [r].
Proof.
  eexists. split; [reflexivity |]. split; [reflexivity |].
  refine (expired_trade_is_last Examples.flat_numerics Examples.backtester
            [Examples.entry_group 0] 10 _ 0%nat _ eq_refl eq_refl eq_refl).
Defined.

Lemma well_grouped_filter_from (data : history) (cursor : timestamp) :
  Spec.well_grouped data -> Spec.well_grouped (filter_from data cursor).
Proof.
  intros H ts ticks tick Hin Htick.
  destruct (Orchestrator.filter_from_In data cursor ts ticks Hin) as [Hd _].
  exact (H ts ticks tick Hd Htick).
Qed.

Lemma run_loop_entry_le_exit
  (N : Numerics) (self : ZeroDTEBacktester.t) (data : history) :
  Spec.well_grouped data ->
  forall (remaining iteration : nat) (cursor : timestamp)
         (acc results : list trade_result),
    Forall (fun r => entry_time r <= exit_time r) acc ->
    run_loop self data remaining iteration cursor acc = Ok results ->
    Forall (fun r => entry_time r <= exit_time r) results.
Proof.
  intros Hgrouped. induction remaining as [| remaining IH];
    intros iteration cursor acc results Hacc; cbn [run_loop].
  - now intros [= <-].
  - destruct (filter_from data cursor) as [| g fd] eqn:Hfd;
      [now intros [= <-] |].
    destruct (_execute_single_trade self (g :: fd)) as [[r0|]|] eqn:Hexec;
      cbn [Py.bind]; [| now intros [= <-] | discriminate].
    apply IH. apply Forall_app. split; [exact Hacc |].
    constructor; [| constructor]. cbn.
    apply (SimulatorFacts.execute_single_trade_entry_le_exit N self (g :: fd));
      [| exact Hexec].
    rewrite <- Hfd. now apply well_grouped_filter_from.
Qed.

(** X12.  On ticks filed under their own timestamps the trades of a run are in
    time order: each trade exits at or after its entry, and from one trade to
    the next both the entry times and the exit times strictly increase. *)
Theorem trades_time_ordered
  (N : Numerics) (bt : ZeroDTEBacktester.t) (historical_data : history)
  (max_iterations : nat) (results : list trade_result) :
  Spec.well_grouped historical_data ->
  run bt historical_data max_iterations = Ok results ->
  Forall (fun r => entry_time r <= exit_time r) results
  /\ forall i previous next,
      nth_error results i = Some previous ->
      nth_error results (S i) = Some next ->
      entry_time previous < entry_time next
      /\ exit_time previous < exit_time next.
Proof.
  intros Hgrouped Hrun.
  assert (H : Forall (fun r => entry_time r <= exit_time r) results
              /\ Spec.disjoint_in_time results).
  { unfold run in Hrun. destruct historical_data as [| g data].
    - injection Hrun as <-. split; constructor.
    - destruct (min_key (g :: data)) as [start|]; cbn [Py.bind] in Hrun;
        [| discriminate].
      split.
      + exact (run_loop_entry_le_exit N bt (g :: data) Hgrouped _ _ _ _ _
                 (Forall_nil _) Hrun).
      + apply (Orchestrator.run_loop_disjoint N bt (g :: data) Hgrouped
                 max_iterations 1%nat start [] results);
          [constructor | | exact Hrun].
        intros l' y E. now destruct l'. }
  destruct H as [Hle Hdis]. split; [exact Hle |].
  intros i p n Hp Hn.
  pose proof (Orchestrator.disjoint_in_time_nth results Hdis i p n Hp Hn)
    as Hpn.
  rewrite Forall_forall in Hle.
  pose proof (Hle p (nth_error_In _ _ Hp)) as H1.
  pose proof (Hle n (nth_error_In _ _ Hn)) as H2.
  cbv beta in H1, H2. lia.
Qed.

Lemma trades_time_ordered_witness :
  exists first second,
    run (N := Examples.flat_numerics) Examples.backtester
        Examples.closing_minutes 10 = Ok [first; second]
    /\ entry_time first < entry_time second
    /\ exit_time first < exit_time second.
Proof.
  eexists. eexists. split; [reflexivity |].
  refine (proj2 (trades_time_ordered Examples.flat_numerics
                   Examples.backtester Examples.closing_minutes 10 _
                   Orchestrator.closing_minutes_grouped eq_refl)
                0%nat _ _ eq_refl eq_refl).
Defined.

End RunFacts.

(* ================================================================= *)
(** * Option symbols *)

Module SymbolFacts.
Import OptionSymbols.
Local Open Scope string_scope.

Lemma substring_all (s : string) : substring 0 (String.length s) s = s.
Proof. induction s as [| a s IH]; cbn; [reflexivity | now rewrite IH]. Qed.

(** [s[:n] + s[n:] == s] *)
Lemma slice_split (n : nat) :
  forall s, PyStr.slice_to n s ++ PyStr.slice_from n s = s.
Proof.
  unfold PyStr.slice_to, PyStr.slice_from.
  induction n as [| n IH]; intros [| a s]; cbn; try reflexivity.
  - now rewrite substring_all.
  - now rewrite IH.
Qed.

Lemma remove_char_app (c : ascii) (s t : string) :
  PyStr.remove_char c (s ++ t)
  = PyStr.remove_char c s ++ PyStr.remove_char c t.
Proof.
  induction s as [| a s IH]; cbn; [reflexivity |].
  destruct (Ascii.eqb a c); cbn; now rewrite IH.
Qed.

(** X13.  The spelling sent to Databento and the spelling read back agree:
    taking the spaces out of [f"{symbol[:3]} {symbol[3:]}"] gives [symbol]
    without its spaces, hence [symbol] itself when it has none. *)
Theorem databento_symbol_round_trip (symbol : string) :
  PyStr.remove_char " " (DataClient.databento_symbol symbol)
  = PyStr.remove_char " " symbol
  /\ (PyStr.remove_char " " symbol = symbol ->
      PyStr.remove_char " " (DataClient.databento_symbol symbol) = symbol).
Proof.
  assert (H : PyStr.remove_char " " (DataClient.databento_symbol symbol)
              = PyStr.remove_char " " symbol).
  { unfold DataClient.databento_symbol.
    rewrite !remove_char_app. cbn [PyStr.remove_char Ascii.eqb Bool.eqb].
    cbn. rewrite <- remove_char_app. now rewrite slice_split. }
  split; [exact H | intros E; now rewrite H].
Qed.

Lemma databento_symbol_round_trip_witness :
  PyStr.remove_char " " (DataClient.databento_symbol "SPY250616P00570000")
  = "SPY250616P00570000".
Proof.
  apply (databento_symbol_round_trip "SPY250616P00570000"). reflexivity.
Defined.

End SymbolFacts.

(* ================================================================= *)
(** * Whole-dollar strikes: symbols written and read back *)

Module StrikeFacts.
Import OptionSymbols.
Local Open Scope float_scope.

Ltac fold_pos_compare :=
  repeat match goal with
         | |- context [Pos.compare_cont Eq ?a ?b] =>
             change (Pos.compare_cont Eq a b) with (Pos.compare a b)
         end.

Ltac decide_compare :=
  repeat match goal with
         | |- context [(?a ?= ?b)%Z] => destruct (Z.compare_spec a b)
         | |- context [(?a ?= ?b)%positive] => destruct (Pos.compare_spec a b)
         end.

Lemma SFcompare_Lt_trans (x y z : spec_float) :
  SFcompare x y = Some Lt -> SFcompare y z = Some Lt ->
  SFcompare x z = Some Lt.
Proof.
  destruct x as [sx|sx| |sx mx ex], y as [sy|sy| |sy my ey],
           z as [sz|sz| |sz mz ez]; cbn; try discriminate;
    try (destruct sx); try (destruct sy); try (destruct sz);
    try discriminate; try reflexivity.
  all: fold_pos_compare; decide_compare; cbn;
    try discriminate; try reflexivity; intros _ _; exfalso; subst; lia.
Qed.

Lemma ltb_trans (x y z : float) :
  (x <? y) = true -> (y <? z) = true -> (x <? z) = true.
Proof.
  rewrite !FloatAxioms.ltb_spec. unfold SFltb.
  destruct (SFcompare (Prim2SF x) (Prim2SF y)) as [[| |]|] eqn:E1;
    try discriminate.
  destruct (SFcompare (Prim2SF y) (Prim2SF z)) as [[| |]|] eqn:E2;
    try discriminate.
  now rewrite (SFcompare_Lt_trans _ _ _ E1 E2).
Qed.

Lemma SFleb_trans (x y z : spec_float) :
  SFleb x y = true -> SFleb y z = true -> SFleb x z = true.
Proof.
  unfold SFleb.
  destruct x as [sx|sx| |sx mx ex], y as [sy|sy| |sy my ey],
           z as [sz|sz| |sz mz ez]; cbn; try discriminate;
    try (destruct sx); try (destruct sy); try (destruct sz);
    try discriminate; try reflexivity.
  all: fold_pos_compare; decide_compare; cbn;
    try discriminate; try reflexivity; intros _ _; exfalso; subst; lia.
Qed.

Lemma leb_trans (x y z : float) :
  (x <=? y) = true -> (y <=? z) = true -> (x <=? z) = true.
Proof. rewrite !FloatAxioms.leb_spec. apply SFleb_trans. Qed.

Lemma ltb_not_leb (x y : float) : (x <? y) = true -> (y <=? x) = false.
Proof.
  rewrite FloatAxioms.ltb_spec, FloatAxioms.leb_spec. unfold SFltb, SFleb.
  destruct (SFcompare (Prim2SF x) (Prim2SF y)) as [[| |]|] eqn:E;
    try discriminate.
  now rewrite (FloatFacts.SFcompare_antisym _ _ _ E).
Qed.

Lemma ltb_leb_refl (x y : float) :
  (x <? y) = true -> (x <=? x) = true /\ (y <=? y) = true.
Proof.
  intros H. apply PricingFacts.ltb_leb in H.
  destruct (FloatFacts.leb_true_numeric _ _ H) as [Hx Hy].
  rewrite !FloatAxioms.leb_spec. unfold SFleb.
  unfold is_nan in Hx, Hy. rewrite FloatAxioms.eqb_spec in Hx, Hy.
  unfold SFeqb in Hx, Hy.
  split.
  - destruct (SFcompare (Prim2SF x) (Prim2SF x)) as [[| |]|];
      try reflexivity; discriminate.
  - destruct (SFcompare (Prim2SF y) (Prim2SF y)) as [[| |]|];
      try reflexivity; discriminate.
Qed.

(** On the machine's range the conversion of the model is the machine's. *)
Lemma float_of_Z_machine (z : Z) :
  (0 <= z < 2 ^ 62)%Z -> Py.float_of_Z z = Props.machine_float z.
Proof.
  intros Hz. unfold Py.float_of_Z, Props.machine_float.
  rewrite <- (SF2Prim_Prim2SF (of_uint63 (Uint63.of_Z z))).
  rewrite of_uint63_spec, Uint63.of_Z_spec.
  rewrite Z.mod_small; [reflexivity |].
  change Uint63.wB with (2 ^ 63)%Z. lia.
Qed.

Lemma int_by_shifts_spec (x : float) :
  Props.int_by_shifts x = PyStr.int_of_float x.
Proof.
  unfold Props.int_by_shifts, PyStr.int_of_float.
  destruct (Prim2SF x) as [s | s | | s m e]; try reflexivity.
  destruct (Z.leb_spec 0 e) as [He | He].
  - now rewrite Z.shiftl_mul_pow2.
  - rewrite Z.shiftr_div_pow2 by lia. reflexivity.
Qed.

Lemma whole_dollar_machine (k : Z) :
  (0 <= k < 100000)%Z ->
  Props.whole_dollar_exact Py.float_of_Z k
  = Props.whole_dollar_exact Props.machine_float k.
Proof.
  intros Hk. unfold Props.whole_dollar_exact.
  rewrite !float_of_Z_machine by lia. reflexivity.
Qed.

Lemma in_z_seq (n : nat) :
  forall start k,
    (start <= k < start + Z.of_nat n)%Z -> In k (Props.z_seq start n).
Proof.
  induction n as [| n IH]; intros start k Hk; [lia |].
  cbn [Props.z_seq]. destruct (Z.eq_dec start k) as [-> | Hne];
    [now left | right]. apply IH. lia.
Qed.

Lemma whole_dollars_checked :
  forallb (Props.whole_dollar_exact Props.machine_float) (Props.below (Z.to_nat 100000))
  = true.
Proof. vm_compute. reflexivity. Qed.

(** The facts checked for one whole-dollar strike. *)
Lemma whole_dollar_facts (k : Z) :
  (0 <= k < 100000)%Z ->
  (exists u,
      NilEmpty.uint_of_string (PyStr.format_08d (k * 1000)) = Some u
      /\ Z.of_uint u = (k * 1000)%Z)
  /\ String.length (PyStr.format_08d (k * 1000)) = 8%nat
  /\ PyStr.int_of_float (Py.float_of_Z k * 1000) = Some (k * 1000)%Z
  /\ Py.float_of_Z (k * 1000) / 1000 = Py.float_of_Z k
  /\ Py.float_of_Z k + 1 = Py.float_of_Z (k + 1)
  /\ (Py.float_of_Z k <? Py.float_of_Z (k + 1)) = true.
Proof.
  intros Hk.
  pose proof whole_dollars_checked as Hall.
  rewrite forallb_forall in Hall.
  assert (Hin : In k (Props.below (Z.to_nat 100000))).
  { apply in_z_seq. rewrite Z2Nat.id; lia. }
  specialize (Hall k Hin).
  rewrite <- (whole_dollar_machine k Hk) in Hall.
  unfold Props.whole_dollar_exact in Hall.
  rewrite int_by_shifts_spec in Hall.
  destruct (NilEmpty.uint_of_string _) as [u|]; [| discriminate].
  destruct (PyStr.int_of_float _) as [z|]; [| discriminate].
  repeat (apply andb_true_iff in Hall; destruct Hall as [Hall ?]).
  repeat split.
  - exists u. split; [reflexivity | now apply Z.eqb_eq].
  - now apply Nat.eqb_eq.
  - f_equal. now apply Z.eqb_eq.
  - now apply FloatAxioms.Leibniz.eqb_spec.
  - now apply FloatAxioms.Leibniz.eqb_spec.
  - assumption.
Qed.

(** Whole dollars keep their order as floats. *)
Lemma whole_dollars_increase (j : Z) (n : nat) :
  (0 <= j)%Z -> (j + Z.of_nat n < 100000)%Z ->
  (Py.float_of_Z j <? Py.float_of_Z (j + Z.of_nat n + 1)) = true.
Proof.
  intros Hj. induction n as [| n IH]; intros Hn.
  - rewrite Z.add_0_r. apply whole_dollar_facts. cbn in Hn. lia.
  - apply (ltb_trans _ (Py.float_of_Z (j + Z.of_nat n + 1))).
    + apply IH. lia.
    + replace (j + Z.of_nat (S n) + 1)%Z with (j + Z.of_nat n + 1 + 1)%Z by lia.
      apply whole_dollar_facts. lia.
Qed.

Lemma whole_dollars_ltb (j k : Z) :
  (0 <= j < k)%Z -> (k <= 100000)%Z ->
  (Py.float_of_Z j <? Py.float_of_Z k) = true.
Proof.
  intros Hjk Hk.
  replace k with (j + Z.of_nat (Z.to_nat (k - j - 1)) + 1)%Z
    by (rewrite Z2Nat.id; lia).
  apply whole_dollars_increase; [lia |]. rewrite Z2Nat.id; lia.
Qed.

Lemma whole_dollars_leb (j k : Z) :
  (0 <= j)%Z -> (0 <= k)%Z -> (j <= 100000)%Z -> (k < 100000)%Z ->
  (Py.float_of_Z j <=? Py.float_of_Z k) = (j <=? k)%Z.
Proof.
  intros Hj Hk Hj' Hk'. destruct (Z.leb_spec j k) as [Hle | Hgt].
  - destruct (Z.eq_dec j k) as [-> | Hne].
    + destruct (whole_dollar_facts k ltac:(lia)) as (_ & _ & _ & _ & _ & H).
      apply (ltb_leb_refl _ _ H).
    + apply PricingFacts.ltb_leb. apply whole_dollars_ltb; lia.
  - apply ltb_not_leb. apply whole_dollars_ltb; lia.
Qed.

Lemma string_length_app (s t : string) :
  String.length (s ++ t) = (String.length s + String.length t)%nat.
Proof. induction s as [| a s IH]; cbn; [reflexivity | now rewrite IH]. Qed.

Lemma string_app_assoc (s t u : string) :
  ((s ++ t) ++ u = s ++ (t ++ u))%string.
Proof. induction s as [| a s IH]; cbn; [reflexivity | now rewrite IH]. Qed.

(** The last [n] characters of [s ++ t] are [t] when [t] has [n]. *)
Lemma substring_skip (s t : string) :
  substring (String.length s) (String.length t) (s ++ t) = t.
Proof.
  induction s as [| a s IH]; cbn; [apply SymbolFacts.substring_all | exact IH].
Qed.

Lemma last_chars_app (n : nat) (s t : string) :
  String.length t = n -> PyStr.last_chars n (s ++ t) = t.
Proof.
  intros <-. unfold PyStr.last_chars, PyStr.slice_from.
  rewrite string_length_app.
  replace (String.length s + String.length t - String.length t)%nat
    with (String.length s) by lia.
  replace (String.length s + String.length t - String.length s)%nat
    with (String.length t) by lia.
  apply substring_skip.
Qed.

(** The loop from a whole dollar [k] on, up to the last whole dollar [b]
    at or below [max_strike]. *)
Lemma generate_loop_whole_dollars
  (underlying exp_str : string) (max_strike : float) (b : Z) :
  (0 <= b < 100000)%Z ->
  (Py.float_of_Z b <=? max_strike) = true ->
  (max_strike <? Py.float_of_Z (b + 1)) = true ->
  forall (n turns : nat) (k : Z) (acc : list string),
    (n <= turns)%nat -> (0 <= k)%Z -> (k + Z.of_nat n = b + 1)%Z ->
    generate_loop turns underlying exp_str (Py.float_of_Z k) max_strike 1 acc
    = Symbols (acc ++ Props.put_symbols_from underlying exp_str k n).
Proof.
  intros Hb Hmax Hnext. induction n as [| n IH]; intros turns k acc Hturns Hk Hkn.
  - assert (k = b + 1)%Z as -> by lia.
    destruct turns; cbn [generate_loop];
      rewrite (ltb_not_leb _ _ Hnext);
      unfold Props.put_symbols_from; cbn; now rewrite app_nil_r.
  - destruct turns as [| turns]; [lia |]. cbn [generate_loop].
    assert (Hle : (Py.float_of_Z k <=? max_strike) = true).
    { apply (leb_trans _ (Py.float_of_Z b)); [| exact Hmax].
      rewrite (whole_dollars_leb k b) by lia. apply Z.leb_le. lia. }
    rewrite Hle.
    destruct (whole_dollar_facts k ltac:(lia))
      as (_ & _ & Hint & _ & Hstep & _).
    rewrite Hint, Hstep.
    rewrite (IH turns (k + 1)%Z) by lia.
    unfold Props.put_symbols_from. cbn [Props.z_seq map].
    now rewrite <- app_assoc.
Qed.

Lemma float_of_digits_parses : Props.parses_digits Cases.float_of_digits.
Proof.
  intros s u Hs Hu. cbn [py_float Cases.float_of_digits].
  destruct s as [| a s]; [now elim Hs |]. now rewrite Hu.
Qed.

(** X14.  A whole-dollar strike survives the trip through its symbol.  For
    every strike [k] from 0 to 99999 dollars, [int(k * 1000)] is exactly
    [k * 1000], so the symbol [generate_put_option_symbols] writes for it ends
    in the eight digits of [k * 1000]; and [extract_strike_price] reads the
    strike [k] back from that symbol, whatever the underlying and the date
    are, given that [float] reads a string of digits as the integer it
    spells. *)
Theorem strike_round_trip
  (B : Builtins) (underlying exp_str : string) (k : Z) :
  Props.parses_digits B ->
  (0 <= k < 100000)%Z ->
  PyStr.int_of_float (Py.float_of_Z k * 1000) = Some (k * 1000)%Z
  /\ extract_strike_price (put_symbol underlying exp_str (k * 1000))
     = Py.float_of_Z k.
Proof.
  intros Hparse Hk.
  destruct (whole_dollar_facts k Hk)
    as ((u & Hu & Hval) & Hlen & Hint & Hdiv & _).
  split; [exact Hint |].
  unfold extract_strike_price, put_symbol.
  rewrite <- !string_app_assoc.
  rewrite (last_chars_app 8 _ _ Hlen).
  rewrite (Hparse _ u); [| | exact Hu].
  - now rewrite Hval.
  - intros E. rewrite E in Hlen. discriminate.
Qed.

Lemma strike_round_trip_witness :
  extract_strike_price (B := Cases.float_of_digits) "SPY250616P00570000"
  = 570.
Proof.
  refine (proj2 (strike_round_trip Cases.float_of_digits "SPY" "250616" 570
                   float_of_digits_parses _)).
  lia.
Defined.

(** X15.  With an increment of one dollar (the call
    [collect_option_symbols_by_expiration] makes), when the first strike
    [ceil(min_strike / 1) * 1] is the whole dollar [a] and [b] is the last
    whole dollar at or below [max_strike] (both under 100000),
    [generate_put_option_symbols] returns one symbol per whole dollar from
    [a] to [b] inclusive, in ascending order, each spelled underlying, date
    as yymmdd, [P], strike times 1000 on eight digits.  No strike is skipped
    or repeated by the floating-point stepping, [int()] never raises, and the
    list is empty when [a] is above [b]. *)
Theorem generated_put_symbols
  (turns : nat) (underlying : string) (expiration_date : PyStr.date)
  (min_strike max_strike : float) (a b : Z) :
  (0 <= a < 100000)%Z -> (0 <= b < 100000)%Z ->
  PyStr.np_ceil (min_strike / 1) * 1 = Py.float_of_Z a ->
  (Py.float_of_Z b <=? max_strike) = true ->
  (max_strike <? Py.float_of_Z (b + 1)) = true ->
  (Z.to_nat (b + 1 - a) <= turns)%nat ->
  generate_put_option_symbols turns underlying expiration_date
    min_strike max_strike 1
  = Symbols (Props.put_symbols_from
               underlying (PyStr.strftime_yymmdd expiration_date) a
               (Z.to_nat (b + 1 - a))).
Proof.
  intros Ha Hb Hfirst Hmax Hnext Hturns. unfold generate_put_option_symbols.
  rewrite Hfirst.
  destruct (Z.le_gt_cases a (b + 1)) as [Hle | Hgt].
  - rewrite (generate_loop_whole_dollars underlying _ max_strike b Hb Hmax
               Hnext (Z.to_nat (b + 1 - a)) turns a []);
      [reflexivity | | |]; lia.
  - replace (Z.to_nat (b + 1 - a)) with 0%nat by lia.
    assert (Hover : (max_strike <? Py.float_of_Z a) = true).
    { apply (ltb_trans _ _ _ Hnext). apply whole_dollars_ltb; lia. }
    destruct turns; cbn [generate_loop];
      rewrite (ltb_not_leb _ _ Hover); reflexivity.
Qed.

Lemma generated_put_symbols_witness :
  generate_put_option_symbols 10 "SPY" Cases.session 566.2 570.5 1
  = Symbols ["SPY250616P00567000"; "SPY250616P00568000";
             "SPY250616P00569000"; "SPY250616P00570000"]%string.
Proof.
  refine (generated_put_symbols 10 "SPY" Cases.session 566.2 570.5 567 570
            _ _ _ _ _ _);
    try reflexivity; cbn; lia.
Defined.

End StrikeFacts.

(* ================================================================= *)
(** * data_client.py: the stream handed to the backtester *)

Module DataFacts.
Import DataClient.
Local Open Scope Z_scope.

(** The keys after a tick is filed: the same, or one more at the end. *)
Lemma file_tick_keys (ts : Py.timestamp) (tick : tick_data) (d : combined) :
  map fst (file_tick ts tick d)
  = if in_dec Z.eq_dec ts (map fst d) then map fst d else map fst d ++ [ts].
Proof.
  induction d as [| [k g] d IH]; cbn [file_tick map fst]; [reflexivity |].
  destruct (Z.eqb_spec k ts) as [-> | Hne]; cbn [map fst].
  - destruct (in_dec Z.eq_dec ts (ts :: map fst d)) as [_ | Hn];
      [reflexivity | elim Hn; now left].
  - rewrite IH.
    destruct (in_dec Z.eq_dec ts (map fst d)) as [Hin | Hnin],
             (in_dec Z.eq_dec ts (k :: map fst d)) as [Hin' | Hnin'];
      try reflexivity.
    + elim Hnin'. now right.
    + destruct Hin' as [E | Hin']; [congruence | contradiction].
Qed.

Lemma file_tick_keys_In
  (ts : Py.timestamp) (tick : tick_data) (d : combined) (k : Py.timestamp) :
  In k (map fst (file_tick ts tick d)) <-> k = ts \/ In k (map fst d).
Proof.
  rewrite file_tick_keys.
  destruct (in_dec Z.eq_dec ts (map fst d)) as [Hin | Hnin].
  - split; [now right | intros [-> | H]; assumption].
  - rewrite in_app_iff. cbn [In]. intuition congruence.
Qed.

Lemma file_tick_NoDup (ts : Py.timestamp) (tick : tick_data) (d : combined) :
  NoDup (map fst d) -> NoDup (map fst (file_tick ts tick d)).
Proof.
  intros H. rewrite file_tick_keys.
  destruct (in_dec Z.eq_dec ts (map fst d)) as [Hin | Hnin]; [exact H |].
  apply NoDup_app; [exact H | repeat constructor; intros [] | ].
  intros x Hx [<- | []]. contradiction.
Qed.

(** Where a group of the new dictionary comes from. *)
Lemma file_tick_In
  (ts : Py.timestamp) (tick : tick_data) (d : combined)
  (k : Py.timestamp) (g : list tick_data) :
  NoDup (map fst d) ->
  In (k, g) (file_tick ts tick d) ->
  (k <> ts /\ In (k, g) d)
  \/ (k = ts /\ exists g0, In (ts, g0) d /\ g = g0 ++ [tick])
  \/ (k = ts /\ ~ In ts (map fst d) /\ g = [tick]).
Proof.
  induction d as [| [k0 g0] d IH]; cbn [file_tick map fst]; intros Hnd.
  - intros [[= <- <-] | []]. right; right. repeat split. intros [].
  - apply NoDup_cons_iff in Hnd. destruct Hnd as [Hk0 Hnd].
    destruct (Z.eqb_spec k0 ts) as [-> | Hne].
    + intros [[= <- <-] | Hin].
      * right; left. split; [reflexivity |]. exists g0.
        split; [now left | reflexivity].
      * left. split; [| now right]. intros ->.
        apply Hk0. apply (in_map fst) in Hin. exact Hin.
    + intros [[= <- <-] | Hin].
      * left. split; [exact Hne | now left].
      * destruct (IH Hnd Hin) as [[Hk H] | [[-> (g1 & H & ->)] | [-> [H ->]]]].
        -- left. split; [exact Hk | now right].
        -- right; left. split; [reflexivity |]. exists g1.
           split; [now right | reflexivity].
        -- right; right. repeat split. intros [E | H']; [congruence | contradiction].
Qed.

Lemma ticks_at_app (k : Py.timestamp) (a b : list tick_data) :
  Props.ticks_at k (a ++ b) = Props.ticks_at k a ++ Props.ticks_at k b.
Proof. unfold Props.ticks_at. apply filter_app. Qed.

Lemma ticks_at_none (k : Py.timestamp) (seen : list tick_data) :
  (forall t, In t seen -> timestamp t <> k) -> Props.ticks_at k seen = [].
Proof.
  induction seen as [| t seen IH]; intros H; [reflexivity |].
  unfold Props.ticks_at. cbn [filter].
  destruct (Z.eqb_spec (timestamp t) k) as [E | _].
  - elim (H t (or_introl eq_refl) E).
  - apply IH. intros t' Ht'. apply H. now right.
Qed.

Lemma ticks_at_one (k : Py.timestamp) (tick : tick_data) :
  Props.ticks_at k [tick] = if timestamp tick =? k then [tick] else [].
Proof. reflexivity. Qed.

Lemma file_tick_grouped (tick : tick_data) (d : combined) (seen : list tick_data) :
  Props.grouped d seen ->
  Props.grouped (file_tick (timestamp tick) tick d) (seen ++ [tick]).
Proof.
  intros (Hnd & Hgroups & Hkeys).
  split; [now apply file_tick_NoDup |]. split.
  - intros k g Hin. rewrite ticks_at_app, ticks_at_one.
    destruct (file_tick_In _ _ _ _ _ Hnd Hin)
      as [[Hk H] | [[-> (g1 & H & ->)] | [-> [H ->]]]].
    + destruct (Z.eqb_spec (timestamp tick) k) as [E | _]; [congruence |].
      rewrite app_nil_r. now apply Hgroups.
    + rewrite Z.eqb_refl. destruct (Hgroups _ _ H) as [<- _].
      split; [reflexivity | now destruct g1].
    + rewrite Z.eqb_refl. rewrite ticks_at_none; [split; [reflexivity | discriminate] |].
      intros t Ht E. apply H. rewrite <- E. now apply Hkeys.
  - intros t Ht. apply file_tick_keys_In. apply in_app_iff in Ht.
    destruct Ht as [Ht | [<- | []]]; [right; now apply Hkeys | now left].
Qed.

Lemma file_ticks_grouped (ticks : list tick_data) :
  forall (d : combined) (seen : list tick_data),
    Props.grouped d seen ->
    Props.grouped (fold_left (fun d tick => file_tick (timestamp tick) tick d) ticks d)
            (seen ++ ticks).
Proof.
  induction ticks as [| tick ticks IH]; intros d seen H; cbn [fold_left].
  - now rewrite app_nil_r.
  - replace (seen ++ tick :: ticks) with ((seen ++ [tick]) ++ ticks)
      by (now rewrite <- app_assoc).
    apply IH. now apply file_tick_grouped.
Qed.

Lemma grouped_nil : Props.grouped [] [].
Proof.
  split; [constructor |]. split; [intros k g [] | intros t []].
Qed.

Lemma file_days_grouped
  (B : Builtins) (F : Feeds) (entries : list (PyStr.date * list string)) :
  forall (d : combined) (seen : list tick_data),
    Props.grouped d seen ->
    Props.grouped
      (fold_left
         (fun d entry =>
            fold_left (fun d tick => file_tick (timestamp tick) tick d)
                      (ticks_of_day entry) d)
         entries d)
      (seen ++ Props.all_ticks entries).
Proof.
  induction entries as [| entry entries IH]; intros d seen H;
    cbn [fold_left Props.all_ticks flat_map].
  - now rewrite app_nil_r.
  - rewrite app_assoc. apply IH. now apply file_ticks_grouped.
Qed.

Lemma insert_by_key_perm (g : Py.timestamp * list tick_data) (d : combined) :
  Permutation (insert_by_key g d) (g :: d).
Proof.
  induction d as [| h d IH]; cbn [insert_by_key]; [reflexivity |].
  destruct (fst g <=? fst h); [reflexivity |].
  rewrite IH. apply perm_swap.
Qed.

Lemma sort_by_key_perm (d : combined) : Permutation (sort_by_key d) d.
Proof.
  induction d as [| g d IH]; cbn [sort_by_key fold_right]; [reflexivity |].
  rewrite insert_by_key_perm. now constructor.
Qed.

Lemma insert_by_key_sorted (g : Py.timestamp * list tick_data) (d : combined) :
  StronglySorted Z.le (map fst d) ->
  StronglySorted Z.le (map fst (insert_by_key g d)).
Proof.
  induction d as [| h d IH]; cbn [insert_by_key map]; intros Hs.
  - repeat constructor.
  - apply StronglySorted_inv in Hs. destruct Hs as [Hs Hall].
    destruct (Z.leb_spec (fst g) (fst h)) as [Hle | Hgt]; cbn [map].
    + constructor; [now constructor |].
      constructor; [exact Hle |].
      eapply Forall_impl; [| exact Hall]. intros k Hk. cbn beta in *. lia.
    + constructor; [now apply IH |].
      apply (Permutation_Forall
               (Permutation_sym (Permutation_map fst (insert_by_key_perm g d)))).
      cbn [map]. constructor; [lia | exact Hall].
Qed.

Lemma sort_by_key_sorted (d : combined) :
  StronglySorted Z.le (map fst (sort_by_key d)).
Proof.
  induction d as [| g d IH]; cbn [sort_by_key fold_right map];
    [constructor | now apply insert_by_key_sorted].
Qed.

Lemma sorted_distinct_strict (l : list Z) :
  StronglySorted Z.le l -> NoDup l -> StronglySorted Z.lt l.
Proof.
  induction 1 as [| a l Hs IH Hall]; intros Hnd; [constructor |].
  apply NoDup_cons_iff in Hnd. destruct Hnd as [Ha Hnd].
  constructor; [now apply IH |].
  rewrite Forall_forall in *. intros x Hx.
  specialize (Hall x Hx). assert (a <> x) by (intros ->; contradiction). lia.
Qed.

Lemma grouped_perm (d d' : combined) (seen : list tick_data) :
  Permutation d' d -> Props.grouped d seen -> Props.grouped d' seen.
Proof.
  intros Hp (Hnd & Hgroups & Hkeys). split; [| split].
  - apply (Permutation_NoDup (Permutation_sym (Permutation_map fst Hp)) Hnd).
  - intros k g Hin. apply Hgroups. apply (Permutation_in _ Hp Hin).
  - intros t Ht.
    apply (Permutation_in _ (Permutation_sym (Permutation_map fst Hp))).
    now apply Hkeys.
Qed.

Lemma historical_data_grouped
  (B : Builtins) (F : Feeds) (entries : list (PyStr.date * list string)) :
  Props.grouped (get_comprehensive_historical_data entries) (Props.all_ticks entries).
Proof.
  unfold get_comprehensive_historical_data.
  apply (grouped_perm _ _ _ (sort_by_key_perm _)).
  apply (file_days_grouped B F entries [] [] grouped_nil).
Qed.

Lemma grouped_as_map (d : combined) (seen : list tick_data) :
  Props.grouped d seen -> d = map (fun k => (k, Props.ticks_at k seen)) (map fst d).
Proof.
  intros (_ & Hgroups & _). induction d as [| [k g] d IH]; [reflexivity |].
  cbn [map fst]. f_equal.
  - f_equal. apply (Hgroups k g). now left.
  - apply IH. intros k' g' H. apply Hgroups. now right.
Qed.

Lemma in_ticks_at (k : Py.timestamp) (t : tick_data) (seen : list tick_data) :
  In t (Props.ticks_at k seen) <-> In t seen /\ timestamp t = k.
Proof.
  unfold Props.ticks_at. rewrite filter_In. now rewrite Z.eqb_eq.
Qed.

(** X16.  The dictionary [get_comprehensive_historical_data] returns has
    its timestamps in strictly ascending order, hence no timestamp twice,
    whatever order the services deliver the rows in and over any number of
    expiration dates; and its timestamps are exactly those of the ticks
    built from the option rows: no key without a tick, no tick without its
    key. *)
Theorem historical_data_keys
  (B : Builtins) (F : Feeds) (entries : list (PyStr.date * list string)) :
  let data := get_comprehensive_historical_data entries in
  StronglySorted Z.lt (map fst data)
  /\ forall k,
      In k (map fst data)
      <-> exists tick, In tick (Props.all_ticks entries) /\ timestamp tick = k.
Proof.
  intros data.
  destruct (historical_data_grouped B F entries) as (Hnd & Hgroups & Hkeys).
  fold data in Hnd, Hgroups, Hkeys. split.
  - apply sorted_distinct_strict; [apply sort_by_key_sorted | exact Hnd].
  - intros k. split.
    + intros Hk. apply in_map_iff in Hk. destruct Hk as ([k' g] & <- & Hin).
      destruct (Hgroups _ _ Hin) as [-> Hne]. cbn [fst].
      destruct (Props.ticks_at k' (Props.all_ticks entries)) as [| t l] eqn:E;
        [now elim Hne |].
      exists t. apply (in_ticks_at k' t). rewrite E. now left.
    + intros (t & Ht & <-). now apply Hkeys.
Qed.

Lemma file_tick_flat (ts : Py.timestamp) (tick : tick_data) (d : combined) :
  Permutation (flat_map snd (file_tick ts tick d)) (flat_map snd d ++ [tick]).
Proof.
  induction d as [| [k g] d IH]; cbn [file_tick flat_map snd]; [reflexivity |].
  destruct (k =? ts); cbn [flat_map snd].
  - rewrite <- !app_assoc. apply Permutation_app_head. apply Permutation_app_comm.
  - rewrite IH. now rewrite app_assoc.
Qed.

Lemma file_ticks_flat (ticks : list tick_data) :
  forall d : combined,
    Permutation
      (flat_map snd
         (fold_left (fun d tick => file_tick (timestamp tick) tick d) ticks d))
      (flat_map snd d ++ ticks).
Proof.
  induction ticks as [| tick ticks IH]; intros d; cbn [fold_left].
  - now rewrite app_nil_r.
  - rewrite IH, file_tick_flat. now rewrite <- app_assoc.
Qed.

Lemma file_days_flat
  (B : Builtins) (F : Feeds) (entries : list (PyStr.date * list string)) :
  forall d : combined,
    Permutation
      (flat_map snd
         (fold_left
            (fun d entry =>
               fold_left (fun d tick => file_tick (timestamp tick) tick d)
                         (ticks_of_day entry) d)
            entries d))
      (flat_map snd d ++ Props.all_ticks entries).
Proof.
  induction entries as [| entry entries IH]; intros d;
    cbn [fold_left Props.all_ticks flat_map].
  - now rewrite app_nil_r.
  - rewrite IH, file_ticks_flat. now rewrite <- app_assoc.
Qed.

(** X17.  Under each timestamp the dictionary holds exactly the ticks that
    carry this timestamp, in the order the option frames list them, the
    expiration dates taken in turn; and taken together the groups are the
    ticks built, each as often as it was built: none is lost and none is
    duplicated by the grouping and the sort. *)
Theorem historical_data_groups
  (B : Builtins) (F : Feeds) (entries : list (PyStr.date * list string)) :
  let data := get_comprehensive_historical_data entries in
  data = map (fun k => (k, Props.ticks_at k (Props.all_ticks entries)))
             (map fst data)
  /\ Permutation (flat_map snd data) (Props.all_ticks entries).
Proof.
  intros data. split.
  - apply grouped_as_map. apply historical_data_grouped.
  - unfold data, get_comprehensive_historical_data.
    rewrite (Permutation_flat_map snd (sort_by_key_perm _)).
    apply (file_days_flat B F entries []).
Qed.

Lemma all_ticks_strike
  (B : Builtins) (F : Feeds) (entries : list (PyStr.date * list string))
  (tick : tick_data) :
  In tick (Props.all_ticks entries) ->
  strike_price tick = OptionSymbols.extract_strike_price (option_symbol tick).
Proof.
  unfold Props.all_ticks. rewrite in_flat_map.
  intros ([day symbols] & _ & Hin). unfold ticks_of_day, get_option_ticks in Hin.
  cbn [fst snd] in Hin. apply in_map_iff in Hin.
  destruct Hin as (row & <- & Hrow).
  destruct (get_range day (map databento_symbol symbols)) as [rows|];
    [| destruct Hrow].
  apply in_map_iff in Hrow. destruct Hrow as (r & <- & _). reflexivity.
Qed.

Lemma tick_in_historical_data
  (B : Builtins) (F : Feeds) (entries : list (PyStr.date * list string))
  (ts : Py.timestamp) (ticks : list Tick.t) (t : Tick.t) :
  In (ts, ticks) (as_history (get_comprehensive_historical_data entries)) ->
  In t ticks ->
  exists tick,
    In tick (Props.all_ticks entries) /\ timestamp tick = ts
    /\ t = core_view tick.
Proof.
  intros Hg Ht. unfold as_history in Hg. apply in_map_iff in Hg.
  destruct Hg as ([k g] & [= <- <-] & Hin). cbn [fst snd] in *.
  apply in_map_iff in Ht. destruct Ht as (tick & <- & Htick).
  destruct (historical_data_grouped B F entries) as (_ & Hgroups & _).
  destruct (Hgroups _ _ Hin) as [-> _].
  apply in_ticks_at in Htick. exists tick. tauto.
Qed.

Lemma historical_data_well_grouped
  (B : Builtins) (F : Feeds) (entries : list (PyStr.date * list string)) :
  Spec.well_grouped (as_history (get_comprehensive_historical_data entries)).
Proof.
  intros ts ticks t Hg Ht.
  destruct (tick_in_historical_data B F entries ts ticks t Hg Ht)
    as (tick & _ & <- & ->). reflexivity.
Qed.

(** X18.  The stream the data layer hands to the backtester meets the two
    assumptions made of it: every tick is filed under its own timestamp, and
    two ticks with the same option symbol carry the same strike, the strike
    being read off the symbol by [extract_strike_price]. *)
Theorem historical_data_meets_assumptions
  (B : Builtins) (F : Feeds) (entries : list (PyStr.date * list string)) :
  let data := as_history (get_comprehensive_historical_data entries) in
  Spec.well_grouped data /\ Spec.symbol_fixes_strike data.
Proof.
  intros data. split; [apply historical_data_well_grouped |].
  intros t1 t2 (ts1 & g1 & Hg1 & Ht1) (ts2 & g2 & Hg2 & Ht2) Hsym.
  destruct (tick_in_historical_data B F entries _ _ _ Hg1 Ht1)
    as (tick1 & Hin1 & _ & ->).
  destruct (tick_in_historical_data B F entries _ _ _ Hg2 Ht2)
    as (tick2 & Hin2 & _ & ->).
  cbn [core_view Tick.option_symbol Tick.strike_price] in *.
  rewrite (all_ticks_strike B F entries _ Hin1),
          (all_ticks_strike B F entries _ Hin2).
  now rewrite Hsym.
Qed.

(** X19.  Data layer and backtester composed: on the stream built by
    [get_comprehensive_historical_data], for any answers of the market-data
    services, the trades a completed [run] returns never overlap; each trade
    is entered strictly after the exit of the trade before it. *)
Theorem backtest_of_historical_data
  (N : Numerics) (B : Builtins) (F : Feeds) (bt : ZeroDTEBacktester.t)
  (entries : list (PyStr.date * list string))
  (max_iterations : nat) (results : list ZeroDTEBacktester.trade_result) :
  ZeroDTEBacktester.run
    bt (as_history (get_comprehensive_historical_data entries)) max_iterations
  = Ok results ->
  Spec.disjoint_in_time results
  /\ forall i previous next,
      nth_error results i = Some previous ->
      nth_error results (S i) = Some next ->
      ZeroDTEBacktester.exit_time previous < ZeroDTEBacktester.entry_time next.
Proof.
  intros Hrun.
  pose proof (historical_data_well_grouped B F entries) as Hgrouped.
  assert (Hsorted : Spec.disjoint_in_time results).
  { unfold ZeroDTEBacktester.run in Hrun.
    destruct (as_history (get_comprehensive_historical_data entries))
      as [| g data]; [injection Hrun as <-; constructor |].
    destruct (ZeroDTEBacktester.min_key (g :: data)) as [start|];
      cbn [Py.bind] in Hrun; [| discriminate].
    apply (Orchestrator.run_loop_disjoint N bt (g :: data) Hgrouped
             max_iterations 1%nat start [] results);
      [constructor | | exact Hrun].
    intros l' y E. now destruct l'. }
  split; [exact Hsorted | now apply Orchestrator.disjoint_in_time_nth].
Qed.

Lemma backtest_of_historical_data_witness :
  exists first second,
    ZeroDTEBacktester.run
      (N := Examples.flat_numerics) Examples.backtester
      (as_history
         (get_comprehensive_historical_data
            (B := Cases.float_of_digits) (F := Cases.closing_minutes_feed)
            [(Cases.session, Cases.closing_symbols)])) 10
    = Ok [first; second]
    /\ ZeroDTEBacktester.exit_time first = Examples.minute 1
    /\ ZeroDTEBacktester.entry_time second = Examples.minute 2
    /\ ZeroDTEBacktester.exit_time first < ZeroDTEBacktester.entry_time second.
Proof.
  eexists. eexists. split; [vm_compute; reflexivity |].
  split; [reflexivity |]. split; [reflexivity |].
  refine (proj2 (backtest_of_historical_data
                   Examples.flat_numerics Cases.float_of_digits
                   Cases.closing_minutes_feed Examples.backtester
                   [(Cases.session, Cases.closing_symbols)] 10 _ eq_refl)
                0%nat _ _ eq_refl eq_refl).
Defined.

Lemma sorted_keys_unique (l1 : list Z) :
  forall l2,
    StronglySorted Z.lt l1 -> StronglySorted Z.lt l2 ->
    (forall k, In k l1 <-> In k l2) -> l1 = l2.
Proof.
  induction l1 as [| a l1 IH]; intros [| b l2] H1 H2 Hin.
  - reflexivity.
  - destruct (proj2 (Hin b) (or_introl eq_refl)).
  - destruct (proj1 (Hin a) (or_introl eq_refl)).
  - apply StronglySorted_inv in H1. destruct H1 as [H1 Ha].
    apply StronglySorted_inv in H2. destruct H2 as [H2 Hb].
    rewrite Forall_forall in Ha, Hb.
    assert (a = b) as <-.
    { destruct (proj1 (Hin a) (or_introl eq_refl)) as [E | Hab]; [now symmetry |].
      destruct (proj2 (Hin b) (or_introl eq_refl)) as [E | Hba]; [exact E |].
      specialize (Ha _ Hba). specialize (Hb _ Hab). lia. }
    f_equal. apply IH; [exact H1 | exact H2 |].
    intros k. split; intros Hk.
    + destruct (proj1 (Hin k) (or_intror Hk)) as [E | Hk2]; [| exact Hk2].
      specialize (Ha _ Hk). lia.
    + destruct (proj2 (Hin k) (or_intror Hk)) as [E | Hk1]; [| exact Hk1].
      specialize (Hb _ Hk). lia.
Qed.

Lemma grouped_key_iff (d : combined) (seen : list tick_data) (k : Z) :
  Props.grouped d seen -> (In k (map fst d) <-> Props.ticks_at k seen <> []).
Proof.
  intros (_ & Hgroups & Hkeys). split.
  - intros Hk. apply in_map_iff in Hk. destruct Hk as ([k' g] & <- & Hin).
    cbn [fst]. destruct (Hgroups _ _ Hin) as [-> Hne]. exact Hne.
  - intros Hne. destruct (Props.ticks_at k seen) as [| t l] eqn:E;
      [now elim Hne |].
    assert (Ht : In t (Props.ticks_at k seen)) by (rewrite E; now left).
    apply in_ticks_at in Ht. destruct Ht as [Ht <-]. now apply Hkeys.
Qed.

(** X21.  The dictionary depends only on which ticks carry each timestamp
    and on their order under that timestamp: two deliveries whose ticks
    agree timestamp by timestamp give the same dictionary, whatever the
    order in which rows of different timestamps, or different expiration
    dates, arrive. *)
Theorem historical_data_canonical
  (B B' : Builtins) (F F' : Feeds)
  (entries entries' : list (PyStr.date * list string)) :
  (forall k,
      Props.ticks_at k (Props.all_ticks (B := B) (F := F) entries)
      = Props.ticks_at k (Props.all_ticks (B := B') (F := F') entries')) ->
  get_comprehensive_historical_data (B := B) (F := F) entries
  = get_comprehensive_historical_data (B := B') (F := F') entries'.
Proof.
  intros Hsame.
  pose proof (historical_data_grouped B F entries) as H1.
  pose proof (historical_data_grouped B' F' entries') as H2.
  assert (Hkeys :
            map fst (get_comprehensive_historical_data
                       (B := B) (F := F) entries)
            = map fst (get_comprehensive_historical_data
                         (B := B') (F := F') entries')).
  { apply sorted_keys_unique.
    - apply sorted_distinct_strict; [apply sort_by_key_sorted | apply H1].
    - apply sorted_distinct_strict; [apply sort_by_key_sorted | apply H2].
    - intros k. rewrite (grouped_key_iff _ _ k H1), (grouped_key_iff _ _ k H2).
      now rewrite Hsame. }
  rewrite (grouped_as_map _ _ H1), (grouped_as_map _ _ H2), Hkeys.
  apply map_ext. intros k. now rewrite Hsame.
Qed.

Lemma historical_data_canonical_witness :
  get_comprehensive_historical_data
    (B := Cases.float_of_digits) (F := Cases.closing_minutes_feed)
    [(Cases.session, Cases.closing_symbols)]
  = get_comprehensive_historical_data
      (B := Cases.float_of_digits) (F := Cases.closing_minutes_feed_in_order)
      [(Cases.session, Cases.closing_symbols)].
Proof.
  apply historical_data_canonical. intros k.
  destruct (Z.eq_dec k (Examples.minute 0)) as [-> | H0];
    [vm_compute; reflexivity |].
  destruct (Z.eq_dec k (Examples.minute 1)) as [-> | H1];
    [vm_compute; reflexivity |].
  destruct (Z.eq_dec k (Examples.minute 2)) as [-> | H2];
    [vm_compute; reflexivity |].
  destruct (Z.eq_dec k (Examples.minute 3)) as [-> | H3];
    [vm_compute; reflexivity |].
  vm_compute in H0, H1, H2, H3.
  rewrite !ticks_at_none; [reflexivity | |];
    intros t Ht E; vm_compute in Ht;
    repeat (destruct Ht as [<- | Ht]; [vm_compute in E; congruence |]);
    destruct Ht.
Defined.

End DataFacts.

(* ================================================================= *)
(** * backtester.py: trade statistics *)

Module StatisticsFacts.
Import ZeroDTEBacktester TradeStatistics.
Local Open Scope float_scope.

Lemma pnl_sign (x : float) :
  (Nat.b2n (0 <? x)%float + Nat.b2n (x <=? 0)%float + Nat.b2n (is_nan x)
   = 1)%nat.
Proof.
  unfold is_nan.
  rewrite FloatAxioms.ltb_spec, FloatAxioms.leb_spec, FloatAxioms.eqb_spec.
  unfold SFltb, SFleb, SFeqb. change (Prim2SF 0) with (S754_zero false).
  destruct (Prim2SF x) as [s | s | | s m e]; cbn; try destruct s; cbn;
    try reflexivity.
  all: rewrite ?Z.compare_refl, ?Pos.compare_cont_refl; reflexivity.
Qed.

Lemma count_where_split (column : list float) :
  (count_where (fun x => 0 <? x)%float column
   + count_where (fun x => x <=? 0)%float column
   + count_where is_nan column = List.length column)%nat.
Proof.
  unfold count_where. induction column as [| x column IH]; [reflexivity |].
  cbn [filter List.length]. pose proof (pnl_sign x) as H.
  destruct (0 <? x), (x <=? 0), (is_nan x); cbn in H |- *; lia.
Qed.

Lemma value_counts_default (column : list status) (value : status) :
  Props.counted (value_counts column value)
  = count_where (status_eqb value) column.
Proof. unfold value_counts. now destruct (count_where _ column). Qed.

Lemma status_split (column : list status) :
  (count_where (status_eqb target_profit) column
   + count_where (status_eqb delta_stop_loss) column
   + count_where (status_eqb assignment_risk) column
   + count_where (status_eqb expired) column = List.length column)%nat.
Proof.
  unfold count_where. induction column as [| s column IH]; [reflexivity |].
  destruct s; cbn [filter status_eqb List.length]; lia.
Qed.

(** X20.  [get_trade_statistics] returns the empty dictionary exactly when
    there are no results.  Otherwise [total_trades] is the number of
    results, and the winners, the losers and the trades whose P&L is NaN add
    up to it: a NaN P&L is counted neither as a winner nor as a loser.  The
    status breakdown has no entry with count zero, and its counts over the
    four statuses add up to [total_trades]. *)
Theorem statistics_account_for_trades
  (results : list trade_result) :
  (get_trade_statistics results = None <-> results = [])
  /\ forall stats,
      get_trade_statistics results = Some stats ->
      total_trades stats = List.length results
      /\ (winning_trades stats + losing_trades stats
          + count_where is_nan (map theoretical_pnl results)
          = total_trades stats)%nat
      /\ (Props.counted (status_breakdown stats target_profit)
          + Props.counted (status_breakdown stats delta_stop_loss)
          + Props.counted (status_breakdown stats assignment_risk)
          + Props.counted (status_breakdown stats expired)
          = total_trades stats)%nat
      /\ forall value,
          status_breakdown stats value <> Some 0%nat.
Proof.
  split.
  - destruct results; cbn; split; intros H; try reflexivity; discriminate.
  - intros stats. destruct results as [| r results]; [discriminate |].
    unfold get_trade_statistics. intros [= <-].
    cbn [total_trades winning_trades losing_trades status_breakdown].
    split; [reflexivity |]. split; [| split].
    + rewrite count_where_split. apply length_map.
    + rewrite !value_counts_default, status_split.
      cbn [List.length]. f_equal. apply length_map.
    + intros value. unfold value_counts.
      destruct (count_where _ _); discriminate.
Qed.

End StatisticsFacts.
